(** * scil_score_tractogram: a shallow embedding of the scoring engine

    The development follows [scripts/scil_score_tractogram.py]:
    - [read_config_file]          (the configuration parser),
    - [compute_vb_vs_all_bundles] (valid streamlines and duplicate detection),
    - [save_wpc_all_bundles]      (cleaning and saving wrong-path connections),
    - [compute_ib_ic_all_bundles] (invalid connections per ROI pair),
    - [compute_tractometry]       (the report),
    - [main]                      (the pipeline).

    Python exceptions are the constructors of [exn]; a computation that may
    raise returns a [result]; code that logs, creates directories or saves
    files runs in the monad [M], which threads the list of [event]s emitted
    so far and keeps it when an exception escapes. *)

From Stdlib Require Import ZArith String Ascii OrderedTypeEx.
From stdpp Require Import base list sorting strings.

Set Warnings "-register-all,-clear-no-such-hyp".

(** ** Exceptions and results *)

Inductive exn : Type :=
| ValueError (msg : string)
| KeyError (key : string)
| IndexError
| TypeError
| AttributeError
| SystemExit (msg : string)
| ZeroDivisionError.

Inductive result (A : Type) : Type :=
| Ok (a : A)
| Raise (e : exn).
Arguments Ok {A} a.
Arguments Raise {A} e.

Definition is_ok {A} (r : result A) : bool :=
  match r with Ok _ => true | Raise _ => false end.

#[global] Instance result_ret : MRet result := λ A a, Ok a.
#[global] Instance result_bind : MBind result := λ A B k r,
  match r with
  | Ok a => k a
  | Raise e => Raise e
  end.

#[global] Instance result_fmap : FMap result := λ A B f r,
  match r with
  | Ok a => Ok (f a)
  | Raise e => Raise e
  end.

(** ** Python and numpy primitives *)

Module Py.

(** [l[i]] on a list: [IndexError] out of range (indices are never
    negative in the script). *)
Definition getitem {A} (l : list A) (i : nat) : result A :=
  match l !! i with
  | Some x => Ok x
  | None => Raise IndexError
  end.

(** [list.remove(x)]: drops the first occurrence, [ValueError] when [x] is
    absent. *)
Fixpoint remove `{EqDecision A} (x : A) (l : list A) : result (list A) :=
  match l with
  | [] => Raise (ValueError "list.remove(x): x not in list")
  | y :: l' =>
      if decide (x = y) then Ok l'
      else match remove x l' with
           | Ok r => Ok (y :: r)
           | Raise e => Raise e
           end
  end.

(** [itertools.chain] applied to the unpacked list of lists. *)
Definition chain {A} (ls : list (list A)) : list A := concat ls.

(** [itertools.combinations(l, r=2)] *)
Fixpoint combinations2 {A} (l : list A) : list (A * A) :=
  match l with
  | [] => []
  | x :: l' => map (pair x) l' ++ combinations2 l'
  end.

(** [list(dict.fromkeys(l))]: first occurrences, in order. *)
Fixpoint fromkeys `{EqDecision A} (l : list A) : list A :=
  match l with
  | [] => []
  | x :: l' => x :: filter (λ y, y ≠ x) (fromkeys l')
  end.

(** [sorted] on file names: Python compares [str] by code point, which
    [String.leb] does byte-wise. *)
Definition str_le (s1 s2 : string) : Prop := String.leb s1 s2 = true.

#[global] Instance str_le_dec s1 s2 : Decision (str_le s1 s2).
Proof. unfold str_le. apply _. Defined.

Definition sorted_str (l : list string) : list string :=
  merge_sort str_le l.

(** [tuple(sorted((a, b)))] *)
Definition sorted_pair (p : string * string) : string * string :=
  if decide (str_le p.1 p.2) then (p.1, p.2) else (p.2, p.1).

(** [os.path.join(a, b)] (posixpath, two components). *)
Definition startswith_slash (s : string) : bool :=
  match s with
  | String c _ => if Ascii.eqb c "/" then true else false
  | EmptyString => false
  end.

Fixpoint endswith_slash (s : string) : bool :=
  match s with
  | EmptyString => false
  | String c EmptyString => Ascii.eqb c "/"
  | String _ s' => endswith_slash s'
  end.

Definition path_join (a b : string) : string :=
  if startswith_slash b then b
  else if (String.eqb a "" || endswith_slash a)%bool then a ++ b
  else a ++ "/" ++ b.

End Py.

Module Np.

(** Streamline ids are indices into the tractogram. *)
Definition ids := list nat.

(** [np.unique]: the sorted distinct values. *)
Definition unique (l : ids) : ids := merge_sort Nat.le (remove_dups l).

(** [np.arange(n)] *)
Definition arange (n : nat) : ids := seq 0 n.

(** [np.setdiff1d(a, b)]: numpy makes both unique and keeps the values of
    the first that are not in the second. *)
Definition setdiff1d (a b : ids) : ids :=
  list_difference (unique a) (unique b).

(** [np.intersect1d(a, b)]: the sorted distinct common values. *)
Definition intersect1d (a b : ids) : ids :=
  list_intersection (unique a) (unique b).

End Np.

(** ** Floating-point numbers

    The script only adds floats and divides; the arithmetic is kept abstract,
    and what is modelled is when Python raises and which operands reach which
    operation. *)

Class PyFloat : Type := {
  float : Type;
  f_zero : float;                             (* [0.0] *)
  f_inf : float;                              (* [np.inf] *)
  f_add : float → float → float;              (* [x + y] *)
  int_div_int : Z → Z → float;                (* [a / b], ints, [b] not 0 *)
  float_div_int : float → Z → float           (* [x / n], [n] not 0 *)
}.

(** ** Values stored in dictionaries and written as JSON *)

Section Values.
Context `{PyFloat}.

Inductive value : Type :=
| VNone
| VInt (z : Z)
| VFloat (x : float)
| VStr (s : string)
| VList (l : list value)
| VDict (d : list (string * value)).

(** A Python [dict] with [str] keys, in insertion order. *)
Definition dict := list (string * value).

(** [key in d] *)
Definition contains {V} (key : string) (d : list (string * V)) : bool :=
  bool_decide (key ∈ d.*1).

Fixpoint lookup_key {V} (key : string) (d : list (string * V)) : option V :=
  match d with
  | [] => None
  | (k, v) :: d' => if decide (k = key) then Some v else lookup_key key d'
  end.

(** [d[key]] *)
Definition dict_get {V} (d : list (string * V)) (key : string) : result V :=
  match lookup_key key d with
  | Some v => Ok v
  | None => Raise (KeyError key)
  end.

(** [d[key] = v]: replaces in place, or appends a new key. *)
Fixpoint dict_set {V} (key : string) (v : V) (d : list (string * V))
  : list (string * V) :=
  match d with
  | [] => [(key, v)]
  | (k, w) :: d' =>
      if decide (k = key) then (k, v) :: d' else (k, w) :: dict_set key v d'
  end.

(** [d.update(e)] *)
Definition dict_update {V} (d e : list (string * V)) : list (string * V) :=
  foldl (λ acc kv, dict_set kv.1 kv.2 acc) d e.

(** [a / b] on two Python ints. *)
Definition truediv (a b : Z) : result float :=
  if decide (b = 0%Z) then Raise ZeroDivisionError else Ok (int_div_int a b).

(** [x / n] on a float and a Python int. *)
Definition truediv_float (x : float) (n : Z) : result float :=
  if decide (n = 0%Z) then Raise ZeroDivisionError
  else Ok (float_div_int x n).

End Values.

(** ** Command line options (the [argparse] namespace) *)

Record Args : Type := {
  in_tractogram : string;
  gt_config : string;
  out_dir : string;
  gt_masks_dir : string;
  limits_masks_dir : string;
  rois_dir : string;
  use_gt_masks_as_limits_masks : bool;
  use_abs : bool;
  dilate_endpoints : Z;
  remove_invalid : bool;
  save_wpc_separately : bool;
  compute_IC : bool;
  remove_wpc_belonging_to_another_bundle : bool;
  no_empty : bool;
  indent : option Z;
  sort_keys : bool;
  verbose : bool
}.

(** ** Effects: the trace of a run *)

(** A sub-collection of the input tractogram, given by the ids of its
    streamlines in input order. *)
Record Sft : Type := { streamlines : Np.ids }.

Definition len_sft (t : Sft) : nat := length (streamlines t).

Section Events.
Context `{PyFloat}.

(** The log messages of the script, with their format arguments. *)
Inductive message : Type :=
| MsgNoGtMask (bundle : string)
| MsgText (text : string)
| MsgBundleVS (bundle : string) (nb : value)
| MsgDuplicateVS (nb : nat) (bundle1 bundle2 : string)
| MsgBundleWPC (bundle : string) (nb : nat)
| MsgIBRecognized (nb : nat) (prefix_1 prefix_2 : string)
| MsgDuplicateIC (nb : nat) (pair1 pair2 : string * string)
| MsgRemainingNC (nb total : nat)
| MsgRemainingIS (nb total : nat)
| MsgResultsSaved (dir : string).

Inductive event : Type :=
| LogWarning (msg : message)
| LogInfo (msg : message)
| MakeDirs (path : string)
| SaveTractogram (t : Sft) (path : string) (bbox_valid_check : bool)
| JsonDump (obj : value) (path : string) (indent : option Z)
  (sort_keys : bool).

End Events.

(** ** The monad of the script *)

Section Script.
Context `{PyFloat}.

(** A computation reads the events emitted so far, extends them, and
    returns or raises; the events stay when it raises. *)
Definition M (A : Type) : Type := list event → list event * result A.

#[global] Instance M_ret : MRet M := λ A a tr, (tr, Ok a).
#[global] Instance M_bind : MBind M := λ A B k m tr,
  match m tr with
  | (tr', Ok a) => k a tr'
  | (tr', Raise e) => (tr', Raise e)
  end.

Definition emit (e : event) : M () := λ tr, (tr ++ [e], Ok ()).
Definition raise {A} (e : exn) : M A := λ tr, (tr, Raise e).
Definition lift {A} (r : result A) : M A := λ tr, (tr, r).

(** [os.path.isdir]: the output directory is empty when the run starts, so
    a directory below it exists exactly when the run has created it. *)
Definition creates (path : string) (e : event) : bool :=
  match e with
  | MakeDirs p => bool_decide (p = path)
  | _ => false
  end.

Definition isdir (path : string) : M bool :=
  λ tr, (tr, Ok (existsb (creates path) tr)).

(** [for x in l: body] *)
Fixpoint for_ {A} (l : list A) (body : A → M ()) : M () :=
  match l with
  | [] => mret ()
  | x :: l' => body x ;; for_ l' body
  end.

(** [for x in l: acc = body(acc, x)] *)
Fixpoint for_acc {A S} (l : list A) (body : S → A → M S) (acc : S) : M S :=
  match l with
  | [] => mret acc
  | x :: l' => acc' ← body acc x; for_acc l' body acc'
  end.

(** The same loop for code that raises but emits nothing. *)
Fixpoint rfold {A S} (l : list A) (body : S → A → result S) (acc : S)
  : result S :=
  match l with
  | [] => Ok acc
  | x :: l' => acc' ← body acc x; rfold l' body acc'
  end.

(** [for x in l: comb.remove(x)] *)
Definition remove_all `{EqDecision A} (l comb : list A) : result (list A) :=
  rfold l (λ comb x, Py.remove x comb) comb.

(** ** [read_config_file] *)

(** [os.path.join(dir, v)] where [v] was read from the JSON document:
    [TypeError] unless it is a string. *)
Definition os_path_join (dir : string) (v : value) : result string :=
  match v with
  | VStr s => Ok (Py.path_join dir s)
  | _ => Raise TypeError
  end.

(** The [roi_option] dict: keys ['gt_endpoints'], or ['gt_head'] and
    ['gt_tail']. *)
Inductive RoiOption : Type :=
| GtEndpoints (gt_endpoints : string)
| GtHeadTail (gt_head gt_tail : string).

(** The local variables of one turn of the loop over bundles. *)
Record BundleVars : Type := {
  angle : option value;
  length_ : option value;
  length_x : option value;
  length_y : option value;
  length_z : option value;
  gt_mask : option string;
  limit_mask : option string;
  roi_option : option RoiOption
}.

Definition no_vars : BundleVars :=
  {| angle := None; length_ := None; length_x := None; length_y := None;
     length_z := None; gt_mask := None; limit_mask := None;
     roi_option := None |}.

(** One turn of [for key in bundle_config.keys()]. *)
Definition read_key (args : Args) (bundle : string) (bundle_config : dict)
    (v : BundleVars) (key : string) : result BundleVars :=
  if decide (key = "angle") then
    x ← dict_get bundle_config "angle";
    Ok {| angle := Some x; length_ := length_ v; length_x := length_x v;
          length_y := length_y v; length_z := length_z v;
          gt_mask := gt_mask v; limit_mask := limit_mask v;
          roi_option := roi_option v |}
  else if decide (key = "length") then
    x ← dict_get bundle_config "length";
    Ok {| angle := angle v; length_ := Some x; length_x := length_x v;
          length_y := length_y v; length_z := length_z v;
          gt_mask := gt_mask v; limit_mask := limit_mask v;
          roi_option := roi_option v |}
  else if decide (key = "length_x") then
    x ← dict_get bundle_config "length_x";
    Ok {| angle := angle v; length_ := length_ v; length_x := Some x;
          length_y := length_y v; length_z := length_z v;
          gt_mask := gt_mask v; limit_mask := limit_mask v;
          roi_option := roi_option v |}
  else if decide (key = "length_y") then
    x ← dict_get bundle_config "length_y";
    Ok {| angle := angle v; length_ := length_ v; length_x := length_x v;
          length_y := Some x; length_z := length_z v;
          gt_mask := gt_mask v; limit_mask := limit_mask v;
          roi_option := roi_option v |}
  else if decide (key = "length_z") then
    x ← dict_get bundle_config "length_z";
    Ok {| angle := angle v; length_ := length_ v; length_x := length_x v;
          length_y := length_y v; length_z := Some x;
          gt_mask := gt_mask v; limit_mask := limit_mask v;
          roi_option := roi_option v |}
  else if decide (key = "gt_mask") then
    x ← dict_get bundle_config "gt_mask";
    p ← os_path_join (gt_masks_dir args) x;
    Ok {| angle := angle v; length_ := length_ v; length_x := length_x v;
          length_y := length_y v; length_z := length_z v;
          gt_mask := Some p;
          limit_mask := if use_gt_masks_as_limits_masks args then Some p
                        else limit_mask v;
          roi_option := roi_option v |}
  else if decide (key = "limits_mask") then
    if use_gt_masks_as_limits_masks args then
      Raise (ValueError
        ("With the option --use_gt_masks_as_limits_masks, you should not "
         +:+ "add any limits_mask in the config file."))
    else
      x ← dict_get bundle_config "limits_mask";
      p ← os_path_join (limits_masks_dir args) x;
      Ok {| angle := angle v; length_ := length_ v; length_x := length_x v;
            length_y := length_y v; length_z := length_z v;
            gt_mask := gt_mask v; limit_mask := Some p;
            roi_option := roi_option v |}
  else if decide (key = "endpoints") then
    if (contains "head" bundle_config || contains "tail" bundle_config)%bool
    then
      Raise (ValueError
        ("Bundle " +:+ bundle +:+ " has confusing keywords in the config "
         +:+ "file. Please choose either endpoints OR head/tail."))
    else
      x ← dict_get bundle_config "endpoints";
      endpoints ← os_path_join (rois_dir args) x;
      Ok {| angle := angle v; length_ := length_ v; length_x := length_x v;
            length_y := length_y v; length_z := length_z v;
            gt_mask := gt_mask v; limit_mask := limit_mask v;
            roi_option := Some (GtEndpoints endpoints) |}
  else if decide (key = "head") then
    if negb (contains "tail" bundle_config) then
      Raise (ValueError
        ("You have provided the head for bundle " +:+ bundle
         +:+ ", but not the tail"))
    else
      x ← dict_get bundle_config "head";
      head ← os_path_join (rois_dir args) x;
      y ← dict_get bundle_config "tail";
      tail ← os_path_join (rois_dir args) y;
      Ok {| angle := angle v; length_ := length_ v; length_x := length_x v;
            length_y := length_y v; length_z := length_z v;
            gt_mask := gt_mask v; limit_mask := limit_mask v;
            roi_option := Some (GtHeadTail head tail) |}
  else if decide (key = "tail") then
    Ok v
  else
    Raise (ValueError
      ("Unrecognized value " +:+ key +:+ " in the config file for bundle "
       +:+ bundle)).

(** What [read_config_file] returns: seven lists, one entry per bundle. *)
Record Config : Type := {
  bundles : list string;
  gt_masks_files : list (option string);
  limits_masks_files : list (option string);
  roi_options : list (option RoiOption);
  lengths : list (option value);
  angles : list (option value);
  orientation_lengths : list (option (list value))
}.

(** [[0, np.inf]] *)
Definition unbounded : value := VList [VInt 0; VFloat f_inf].

Definition orientation_length (v : BundleVars) : option (list value) :=
  match length_x v, length_y v, length_z v with
  | None, None, None => None
  | lx, ly, lz =>
      Some [default unbounded lx; default unbounded ly; default unbounded lz]
  end.

(** The body of [for bundle in bundles], up to the appends. *)
Definition read_bundle (args : Args) (bundle : string) (bundle_config : dict)
  : M BundleVars :=
  (if negb (contains "gt_mask" bundle_config)
   then emit (LogWarning (MsgNoGtMask bundle)) else mret ());;
  if (negb (contains "endpoints" bundle_config)
      && negb (contains "head" bundle_config))%bool
  then
    raise (ValueError
      ("Bundle configuration for bundle " +:+ bundle
       +:+ " misses 'endpoints' or 'head'/'tail'"))
  else
    lift (rfold bundle_config.*1 (read_key args bundle bundle_config)
            no_vars).

Definition append_bundle (c : Config) (v : BundleVars) : Config :=
  {| bundles := bundles c;
     gt_masks_files := gt_masks_files c ++ [gt_mask v];
     limits_masks_files := limits_masks_files c ++ [limit_mask v];
     roi_options := roi_options c ++ [roi_option v];
     lengths := lengths c ++ [length_ v];
     angles := angles c ++ [angle v];
     orientation_lengths := orientation_lengths c ++ [orientation_length v] |}.

(** [config] is the document that [json.load] reads from [args.gt_config]:
    a dict from bundle name to the bundle's dict. *)
Definition read_config_file (args : Args) (config : list (string * dict))
  : M Config :=
  let bundles := config.*1 in
  for_acc bundles
    (λ c bundle,
       bundle_config ← lift (dict_get config bundle);
       v ← read_bundle args bundle bundle_config;
       mret (append_bundle c v))
    {| bundles := bundles; gt_masks_files := []; limits_masks_files := [];
       roi_options := []; lengths := []; angles := [];
       orientation_lengths := [] |}.

(** The keys of a bundle's dict that hold a file name. *)
Definition path_keys : list string :=
  ["gt_mask"; "limits_mask"; "endpoints"; "head"; "tail"].

(** The keys that [read_config_file] knows. *)
Definition known_keys : list string :=
  ["angle"; "length"; "length_x"; "length_y"; "length_z"] ++ path_keys.

Definition is_str (v : value) : bool :=
  match v with VStr _ => true | _ => false end.

(** A bundle's dict is well typed when its file names are strings. *)
Definition well_typed (bundle_config : dict) : bool :=
  forallb (λ key, match lookup_key key bundle_config with
                  | Some v => is_str v
                  | None => true
                  end) path_keys.

(** The configuration errors as the specification lists them, for one
    bundle: neither [endpoints] nor [head]; [endpoints] together with [head]
    or [tail]; [tail] without [head], or [head] without [tail]; a key that
    is not known; [limits_mask] under [--use_gt_masks_as_limits_masks]. *)
Definition config_error (args : Args) (bundle_config : dict) : bool :=
  let has key := contains key bundle_config in
  (negb (has "endpoints") && negb (has "head"))
  || (has "endpoints" && (has "head" || has "tail"))
  || (has "tail" && negb (has "head"))
  || (has "head" && negb (has "tail"))
  || existsb (λ key, bool_decide (key ∉ known_keys)) bundle_config.*1
  || (has "limits_mask" && use_gt_masks_as_limits_masks args).

(** Some bundle of the document has a configuration error. *)
Definition config_errors (args : Args) (config : list (string * dict))
  : bool :=
  existsb (λ bundle, match lookup_key bundle config with
                     | Some bundle_config => config_error args bundle_config
                     | None => false
                     end) config.*1.

(** The keys at which the loop over a bundle's keys raises. *)
Definition key_error (args : Args) (bundle_config : dict) (key : string)
  : bool :=
  let has key := contains key bundle_config in
  (bool_decide (key = "limits_mask") && use_gt_masks_as_limits_masks args)
  || (bool_decide (key = "endpoints") && (has "head" || has "tail"))
  || (bool_decide (key = "head") && negb (has "tail"))
  || bool_decide (key ∉ known_keys).

(** The events that are a warning about a missing [gt_mask]. *)
Definition is_gt_mask_warning (e : event) : bool :=
  match e with
  | LogWarning (MsgNoGtMask _) => true
  | _ => false
  end.

(** ** The collaborators of the script

    The functions imported from [scilpy], [dipy] and [os.path], and the
    loaded tractogram they all read.  [total_streamlines] is [len(sft)] for
    the tractogram as it is scored (after [remove_invalid_streamlines] when
    asked). *)

(** A volume, flattened; all volumes of a run have the shape [dimensions]. *)
Definition Mask := list Z.

Class Collaborators : Type := {
  total_streamlines : nat;
  affine : Type;
  inputs_exist : list string → list (option string) → bool;
  output_dirs_exist_and_empty : string → bool;
  is_header_compatible : string → bool;
  compute_masks :
    list (option string) →
    list (option Mask) * list (option Mask) * affine * list nat;
  compute_endpoint_masks :
    list (option RoiOption) → affine → list nat → string →
    list string * list string;
  extract_vb_vs :
    string → string → option value → option value → option (list value) →
    option Mask → Z → bool → Np.ids * Np.ids * dict;
  extract_false_connections : string → string → Z → Sft * Np.ids;
  get_binary_maps : Np.ids → Mask * Mask;
  compute_dice_voxel : Mask → Mask → float * float;
  basename : string → string;
  splitext : string → string * string;
  split_name_with_nii : string → string * string
}.

Context `{Collaborators}.

(** Modelled from the spec: [make_sft_from_ids] of [scilpy.tractanalysis.scoring]
    is not among the sources; a collection "supports subsetting by an id set
    (a sub-collection preserving input order of the given ids)". *)
Definition make_sft_from_ids (ids : Np.ids) : Sft := {| streamlines := ids |}.

Definition extract_prefix (filename : string) : string :=
  (split_name_with_nii (basename filename)).1.

(** [sft[ids]]: [IndexError] when an id is not an index of the tractogram. *)
Definition sft_getitem (ids : Np.ids) : result Sft :=
  if forallb (λ i, bool_decide (i < total_streamlines)) ids
  then Ok {| streamlines := ids |}
  else Raise IndexError.

(** [save_tractogram] of [dipy]: the file written and the check asked for. *)
Definition save_tractogram (t : Sft) (path : string)
    (bbox_valid_check : bool) : M () :=
  emit (SaveTractogram t path bbox_valid_check).

Definition when (b : bool) (m : M ()) : M () := if b then m else mret ().

(** ** [compute_vb_vs_all_bundles] *)

(** The body of the first loop: one bundle is extracted and saved, and the
    four result lists grow by one entry. *)
Definition extract_bundle (gt_tails gt_heads : list string)
    (bundle_names : list string) (lengths angles : list (option value))
    (orientation_lengths : list (option (list value)))
    (limits_inv_masks : list (option Mask)) (args : Args) (ext : string)
    (acc : list Sft * list Np.ids * list Np.ids * list dict) (i : nat)
  : M (list Sft * list Np.ids * list Np.ids * list dict) :=
  let '(vb_sft_list, vs_ids_list, wpc_ids_list, bundles_stats) := acc in
  head_filename ← lift (Py.getitem gt_heads i);
  tail_filename ← lift (Py.getitem gt_tails i);
  length_i ← lift (Py.getitem lengths i);
  angle_i ← lift (Py.getitem angles i);
  orientation_length_i ← lift (Py.getitem orientation_lengths i);
  limits_inv_mask_i ← lift (Py.getitem limits_inv_masks i);
  let '(vs_ids, wpc_ids, bundle_stats) :=
    extract_vb_vs head_filename tail_filename length_i angle_i
      orientation_length_i limits_inv_mask_i (dilate_endpoints args)
      (use_abs args) in
  let vb_sft := make_sft_from_ids vs_ids in
  name ← lift (Py.getitem bundle_names i);
  when (bool_decide (0 < len_sft vb_sft) || negb (no_empty args))
    (save_tractogram vb_sft
       (Py.path_join (out_dir args)
          ("segmented_VB/" +:+ name +:+ "_VS" +:+ ext))
       false);;
  nb_vs ← lift (dict_get bundle_stats "VS");
  emit (LogInfo (MsgBundleVS name nb_vs));;
  mret (vb_sft_list ++ [vb_sft], vs_ids_list ++ [vs_ids],
        wpc_ids_list ++ [wpc_ids], bundles_stats ++ [bundle_stats]).

(** The body of the loops on [i < j]: the duplicates of two bundles. *)
Definition check_duplicates (vs_ids_list : list Np.ids)
    (bundle_names : list string) (args : Args) (i j : nat) : M () :=
  vs_i ← lift (Py.getitem vs_ids_list i);
  vs_j ← lift (Py.getitem vs_ids_list j);
  let duplicate_ids := Np.intersect1d vs_i vs_j in
  if bool_decide (0 < length duplicate_ids) then
    name_i ← lift (Py.getitem bundle_names i);
    name_j ← lift (Py.getitem bundle_names j);
    emit (LogWarning (MsgDuplicateVS (length duplicate_ids) name_i name_j));;
    let path_duplicates := Py.path_join (out_dir args) "segmented_conflicts" in
    exists_ ← isdir path_duplicates;
    when (negb exists_) (emit (MakeDirs path_duplicates));;
    duplicates ← lift (sft_getitem duplicate_ids);
    save_tractogram duplicates
      (Py.path_join path_duplicates
         ("duplicates_" +:+ name_i +:+ "_" +:+ name_j +:+ ".trk"))
      true
  else mret ().

(** [range(a, b)] *)
Definition range (a b : nat) : list nat := seq a (b - a).

Definition compute_vb_vs_all_bundles (gt_tails gt_heads : list string)
    (bundle_names : list string) (lengths angles : list (option value))
    (orientation_lengths : list (option (list value)))
    (limits_inv_masks : list (option Mask)) (args : Args) (ext : string)
  : M (list Sft * list Np.ids * list Np.ids * list dict) :=
  let nb_bundles := length bundle_names in
  r ← for_acc (range 0 nb_bundles)
        (extract_bundle gt_tails gt_heads bundle_names lengths angles
           orientation_lengths limits_inv_masks args ext)
        ([], [], [], []);
  for_ (range 0 nb_bundles) (λ i,
    for_ (range (i + 1) nb_bundles) (λ j,
      check_duplicates r.1.1.2 bundle_names args i j));;
  mret r.

(** What a run must have logged and saved for the bundles [i] and [j]:
    when their VS lists intersect, the warning with the number of
    duplicates and both names, and the file of the duplicates. *)
Definition duplicates_reported (vs_ids_list : list Np.ids)
    (bundle_names : list string) (args : Args) (i j : nat)
    (tr : list event) : Prop :=
  ∀ vs_i vs_j name_i name_j,
    vs_ids_list !! i = Some vs_i → vs_ids_list !! j = Some vs_j →
    bundle_names !! i = Some name_i → bundle_names !! j = Some name_j →
    let duplicate_ids := Np.intersect1d vs_i vs_j in
    duplicate_ids ≠ [] →
    LogWarning (MsgDuplicateVS (length duplicate_ids) name_i name_j) ∈ tr
    ∧ SaveTractogram {| streamlines := duplicate_ids |}
        (Py.path_join (Py.path_join (out_dir args) "segmented_conflicts")
           ("duplicates_" +:+ name_i +:+ "_" +:+ name_j +:+ ".trk"))
        true ∈ tr.

(** What a run must have kept and saved for the valid streamlines [vs_i]
    of bundle [i]: they are the first component of what [extract_vb_vs]
    returns for the bundle, their sub-collection is entry [i] of
    [vb_sft_list], and it is saved under the bundle's name unless it is
    empty and [--no_empty] is set. *)
Definition vs_reported (gt_tails gt_heads : list string)
    (bundle_names : list string) (lengths angles : list (option value))
    (orientation_lengths : list (option (list value)))
    (limits_inv_masks : list (option Mask)) (args : Args) (ext : string)
    (vb_sft_list : list Sft) (i : nat) (vs_i : Np.ids)
    (tr : list event) : Prop :=
  vb_sft_list !! i = Some (make_sft_from_ids vs_i)
  ∧ (∃ head tail length_i angle_i orientation_i limits_i,
       gt_heads !! i = Some head ∧ gt_tails !! i = Some tail
       ∧ lengths !! i = Some length_i ∧ angles !! i = Some angle_i
       ∧ orientation_lengths !! i = Some orientation_i
       ∧ limits_inv_masks !! i = Some limits_i
       ∧ vs_i = (extract_vb_vs head tail length_i angle_i orientation_i
                   limits_i (dilate_endpoints args) (use_abs args)).1.1)
  ∧ ∃ name,
      bundle_names !! i = Some name
      ∧ (0 < length vs_i ∨ no_empty args = false →
         SaveTractogram (make_sft_from_ids vs_i)
           (Py.path_join (out_dir args)
              ("segmented_VB/" +:+ name +:+ "_VS" +:+ ext))
           false ∈ tr).

(** ** [save_wpc_all_bundles] *)

(** [bundles_stats[i].update({key: v})]: the dict of bundle [i] is changed
    in place, in the list that [main] holds. *)
Definition update_stats (bundles_stats : list dict) (i : nat) (key : string)
    (v : value) : result (list dict) :=
  stats ← Py.getitem bundles_stats i;
  Ok (<[i := dict_update stats [(key, v)]]> bundles_stats).

Definition clean_wpc (wpc_ids_list : list Np.ids)
    (bundles_names : list string) (args : Args) (ext : string)
    (vs_ids_list : list Np.ids)
    (acc : list Sft * list dict) (i : nat) : M (list Sft * list dict) :=
  let nb_bundles := length wpc_ids_list in
  let '(wpc_sft_list, bundles_stats) := acc in
  wpc_ids ← lift (Py.getitem wpc_ids_list i);
  '(wpc_ids, bundles_stats) ←
    (if remove_wpc_belonging_to_another_bundle args then
       others ← lift (mapM (Py.getitem vs_ids_list)
                        (filter (λ j, j ≠ i) (range 0 nb_bundles)));
       let all_other_gt := Py.chain others in
       let new_wpc_ids := Np.setdiff1d wpc_ids all_other_gt in
       let nb_rejected :=
         (Z.of_nat (length wpc_ids) - Z.of_nat (length new_wpc_ids))%Z in
       stats ← lift (update_stats bundles_stats i
                       "Belonging to another bundle" (VInt nb_rejected));
       mret (new_wpc_ids, stats)
     else mret (wpc_ids, bundles_stats));
  let wpc_sft := make_sft_from_ids wpc_ids in
  name ← lift (Py.getitem bundles_names i);
  when (bool_decide (0 < length wpc_ids) || negb (no_empty args))
    (save_tractogram wpc_sft
       (Py.path_join (out_dir args)
          ("segmented_WPC/" +:+ name +:+ "_wpc" +:+ ext))
       false);;
  bundles_stats ← lift (update_stats bundles_stats i "Cleaned WPC"
                          (VInt (Z.of_nat (length wpc_ids))));
  emit (LogInfo (MsgBundleWPC name (length wpc_ids)));;
  mret (wpc_sft_list ++ [wpc_sft], bundles_stats).

Definition save_wpc_all_bundles (wpc_ids_list : list Np.ids)
    (bundles_names : list string) (args : Args) (ext : string)
    (vs_ids_list : list Np.ids) (bundles_stats : list dict)
  : M (list Sft * list dict) :=
  let nb_bundles := length wpc_ids_list in
  for_acc (range 0 nb_bundles)
    (clean_wpc wpc_ids_list bundles_names args ext vs_ids_list)
    ([], bundles_stats).

(** ** [compute_ib_ic_all_bundles] *)

Definition extract_pair (args : Args) (acc : list Sft * list Np.ids)
    (roi : string * string) : M (list Sft * list Np.ids) :=
  let '(ib_sft_list, ic_ids_list) := acc in
  let '(roi1_filename, roi2_filename) := roi in
  let prefix_1 := extract_prefix roi1_filename in
  let prefix_2 := extract_prefix roi2_filename in
  let ext := (splitext (in_tractogram args)).2 in
  let '(ib_sft, ic_ids) :=
    extract_false_connections roi1_filename roi2_filename
      (dilate_endpoints args) in
  when (bool_decide (0 < len_sft ib_sft) || negb (no_empty args))
    (save_tractogram ib_sft
       (Py.path_join (out_dir args)
          ("segmented_IB/" +:+ prefix_1 +:+ "_" +:+ prefix_2 +:+ "_IC"
           +:+ ext))
       false);;
  when (bool_decide (0 < length (streamlines ib_sft)))
    (emit (LogInfo
       (MsgIBRecognized (length (streamlines ib_sft)) prefix_1 prefix_2)));;
  mret (ib_sft_list ++ [ib_sft], ic_ids_list ++ [ic_ids]).

Definition check_duplicates_ic (comb_filename : list (string * string))
    (ic_ids_list : list Np.ids) (i j : nat) : M () :=
  ic_i ← lift (Py.getitem ic_ids_list i);
  ic_j ← lift (Py.getitem ic_ids_list j);
  let duplicate_ids := Np.intersect1d ic_i ic_j in
  if bool_decide (0 < length duplicate_ids) then
    pair_i ← lift (Py.getitem comb_filename i);
    pair_j ← lift (Py.getitem comb_filename j);
    emit (LogWarning (MsgDuplicateIC (length duplicate_ids) pair_i pair_j))
  else mret ().

Definition compute_ib_ic_all_bundles (comb_filename : list (string * string))
    (args : Args) : M (list Sft * list Np.ids) :=
  r ← for_acc comb_filename (extract_pair args) ([], []);
  let nb_pairs := length r.2 in
  for_ (range 0 nb_pairs) (λ i,
    for_ (range (i + 1) nb_pairs) (λ j,
      check_duplicates_ic comb_filename r.2 i j));;
  mret r.

(** ** [compute_tractometry] *)

(** [np.count_nonzero(m)], a Python int. *)
Definition count_nonzero (m : Mask) : Z :=
  Z.of_nat (length (filter (λ x, x ≠ 0%Z) m)).

(** [a * b] on two volumes of the same shape. *)
Definition mask_mul (a b : Mask) : Mask := zip_with Z.mul a b.

(** [m = np.zeros(dimensions); m[np.where(cond)] = 1], for a condition that
    compares two volumes of shape [dimensions] voxel by voxel. *)
Definition mask_where (cond : Z → Z → bool) (a b : Mask) : Mask :=
  zip_with (λ x y, if cond x y then 1%Z else 0%Z) a b.

Definition is_overreach (gt v : Z) : bool := ((gt =? 0) && (1 <=? v))%Z.
Definition is_lacking (gt v : Z) : bool := ((gt =? 1) && (v =? 0))%Z.

(** [x += v] where [x] is a float and [v] was read from a results dict;
    the dicts of this function bind ["OL_PCT"] and ["OR_PCT"] to the float
    of a true division only. *)
Definition add_float (x : float) (v : value) : result float :=
  match v with
  | VFloat y => Ok (f_add x y)
  | _ => Raise TypeError
  end.

Definition int_of_nat (n : nat) : value := VInt (Z.of_nat n).

(** [str(pair)] for a pair of file names. *)
Definition str_of_pair (p : string * string) : string :=
  "('" +:+ p.1 +:+ "', '" +:+ p.2 +:+ "')".

(** The [if gt_masks[i] is not None] block: the volume metrics of one
    bundle, added to [vb_results], and the WPC metrics when asked. *)
Definition volume_metrics (wpc_sft_list : list Sft) (args : Args)
    (gt : Mask) (current_vb_voxels current_vb_endpoints_voxels : Mask)
    (vb_results : dict) (i : nat) : result (dict * dict) :=
  let gt_total_nb_voxels := count_nonzero gt in
  let dice := (compute_dice_voxel gt current_vb_voxels).1 in
  let overlap_mask := mask_mul gt current_vb_voxels in
  let overreach_mask := mask_where is_overreach gt current_vb_voxels in
  let bundle_lacking := mask_where is_lacking gt current_vb_voxels in
  let vs_overlap := count_nonzero overlap_mask in
  let vs_overreach := count_nonzero overreach_mask in
  let vs_lacking := count_nonzero bundle_lacking in
  let endpoints_overlap := mask_mul gt current_vb_endpoints_voxels in
  let endpoints_overreach :=
    mask_where is_overreach gt current_vb_endpoints_voxels in
  ol_pct ← truediv vs_overlap gt_total_nb_voxels;
  or_pct ← truediv vs_overreach gt_total_nb_voxels;
  let vb_results :=
    dict_update vb_results
      [("dice", VFloat dice);
       ("OL", VInt vs_overlap);
       ("OR", VInt vs_overreach);
       ("lacking", VInt vs_lacking);
       ("OL_PCT", VFloat ol_pct);
       ("OR_PCT", VFloat or_pct);
       ("endpoints_OL", VInt (count_nonzero endpoints_overlap));
       ("endpoints_OR", VInt (count_nonzero endpoints_overreach))] in
  if save_wpc_separately args then
    wpc_sft ← Py.getitem wpc_sft_list i;
    let current_wpc_streamlines := streamlines wpc_sft in
    let current_wpc_voxels := (get_binary_maps current_wpc_streamlines).1 in
    let bundle_wpc_overlap := mask_mul gt current_wpc_voxels in
    let bundle_wpc_overreach := mask_where is_overreach gt current_wpc_voxels in
    let wpc_overlap := count_nonzero bundle_wpc_overlap in
    let wpc_overreach := count_nonzero bundle_wpc_overreach in
    wpc_or_pct ← truediv wpc_overreach gt_total_nb_voxels;
    wpc_ol_pct ← truediv wpc_overlap gt_total_nb_voxels;
    Ok (vb_results,
        [("Count", int_of_nat (length current_wpc_streamlines));
         ("OR", VInt wpc_overreach);
         ("OL", VInt wpc_overlap);
         ("OR_PCT", VFloat wpc_or_pct);
         ("OL_PCT", VFloat wpc_ol_pct)])
  else Ok (vb_results, []).

(** One turn of [for i in range(nb_bundles)]. *)
Definition bundle_tractometry (vb_sft_list wpc_sft_list : list Sft)
    (args : Args) (bundles_names : list string)
    (gt_masks : list (option Mask))
    (acc : float * float * dict) (i : nat) : result (float * float * dict) :=
  let '(mean_overlap, mean_overreach, bundle_wise_dict) := acc in
  vb_sft ← Py.getitem vb_sft_list i;
  let current_vb := streamlines vb_sft in
  let '(current_vb_voxels, current_vb_endpoints_voxels) :=
    get_binary_maps current_vb in
  let vb_results := [("VS", int_of_nat (length current_vb))] in
  gt_mask_i ← Py.getitem gt_masks i;
  '(vb_results, wpc_results) ←
    match gt_mask_i with
    | Some gt =>
        volume_metrics wpc_sft_list args gt current_vb_voxels
          current_vb_endpoints_voxels vb_results i
    | None => Ok (vb_results, [])
    end;
  let bundle_results := [("VB", VDict vb_results)] in
  let bundle_results :=
    if save_wpc_separately args
    then dict_update bundle_results [("WPC", VDict wpc_results)]
    else bundle_results in
  ol_pct ← dict_get vb_results "OL_PCT";
  mean_overlap ← add_float mean_overlap ol_pct;
  or_pct ← dict_get vb_results "OR_PCT";
  mean_overreach ← add_float mean_overreach or_pct;
  name ← Py.getitem bundles_names i;
  Ok (mean_overlap, mean_overreach,
      dict_update bundle_wise_dict [(name, VDict bundle_results)]).

(** The exception that the loop over the bundles meets first, if any: the
    look-up of ["OL_PCT"] for a bundle without ground-truth mask, the
    division by zero for a mask without voxel. *)
Fixpoint mask_failure (gt_masks : list (option Mask)) : option exn :=
  match gt_masks with
  | [] => None
  | None :: _ => Some (KeyError "OL_PCT")
  | Some gt :: gt_masks =>
      if decide (count_nonzero gt = 0%Z) then Some ZeroDivisionError
      else mask_failure gt_masks
  end.

(** A ground-truth mask without voxel. *)
Definition blank_mask (g : option Mask) : bool :=
  match g with
  | Some gt => bool_decide (count_nonzero gt = 0%Z)
  | None => false
  end.

(** One turn of [for i, filename in enumerate(comb_filename)]. *)
Definition pair_tractometry (ib_sft_list : list Sft) (ic_results : dict)
    (i_filename : nat * (string * string)) : result dict :=
  let '(i, filename) := i_filename in
  ib_sft ← Py.getitem ib_sft_list i;
  let current_ib := streamlines ib_sft in
  if bool_decide (0 < length current_ib) then
    let current_ib_voxels := (get_binary_maps current_ib).1 in
    let bundle_results :=
      [("filename", VList [VStr filename.1; VStr filename.2]);
       ("IC", int_of_nat (length current_ib));
       ("nb_voxels", VInt (count_nonzero current_ib_voxels))] in
    Ok (dict_update ic_results [(str_of_pair filename, VDict bundle_results)])
  else Ok ic_results.

Definition compute_tractometry
    (all_vs_ids all_wpc_ids all_ic_ids all_nc_ids : Np.ids)
    (vs_ids_list wpc_ids_list ic_ids_list : list Np.ids)
    (vb_sft_list wpc_sft_list ib_sft_list : list Sft) (args : Args)
    (bundles_names : list string) (gt_masks : list (option Mask))
    (dimensions : list nat) (comb_filename : option (list (string * string)))
  : result dict :=
  let nb_bundles := length bundles_names in
  let vs_count := Z.of_nat (length all_vs_ids) in
  let wpc_count := Z.of_nat (length all_wpc_ids) in
  let ic_count := Z.of_nat (length all_ic_ids) in
  let nc_count := Z.of_nat (length all_nc_ids) in
  let total_count := Z.of_nat total_streamlines in
  let nonempty := filter (λ x : Np.ids, 0 < length x) in
  vs_ratio ← truediv vs_count total_count;
  ic_ratio ← truediv ic_count total_count;
  nc_ratio ← truediv nc_count total_count;
  is_ratio ← truediv (ic_count + nc_count) total_count;
  wpc_ratio ← truediv wpc_count total_count;
  let final_results :=
    [("tractogram_filename", VStr (in_tractogram args));
     ("tractogram_overlap", VFloat f_zero);
     ("VS", VInt vs_count);
     ("WPC", VInt wpc_count);
     ("IC", VInt ic_count);
     ("NC", VInt nc_count);
     ("IS = IC + NC", VInt (ic_count + nc_count));
     ("VB", int_of_nat (length (nonempty vs_ids_list)));
     ("IB", int_of_nat (length (nonempty ic_ids_list)));
     ("WPC_bundle", int_of_nat (length (nonempty wpc_ids_list)));
     ("VS_ratio", VFloat vs_ratio);
     ("IC_ratio", VFloat ic_ratio);
     ("NC_ratio", VFloat nc_ratio);
     ("IS_ratio", VFloat is_ratio);
     ("WPC_ratio", VFloat wpc_ratio);
     ("total_streamlines", VInt total_count)] in
  '(mean_overlap, mean_overreach, bundle_wise_dict) ←
    rfold (range 0 nb_bundles)
      (bundle_tractometry vb_sft_list wpc_sft_list args bundles_names
         gt_masks)
      (f_zero, f_zero, []);
  bundle_wise_dict ←
    (if compute_IC args then
       comb ← match comb_filename with
              | Some comb => Ok comb
              | None => Raise TypeError
              end;
       ic_results ← rfold (zip (seq 0 (length comb)) comb)
                      (pair_tractometry ib_sft_list) [];
       Ok (dict_update bundle_wise_dict [("IB", VDict ic_results)])
     else Ok bundle_wise_dict);
  mean_OL ← truediv_float mean_overlap (Z.of_nat nb_bundles);
  mean_OR ← truediv_float mean_overreach (Z.of_nat nb_bundles);
  Ok (dict_update final_results
        [("bundle_wise", VDict bundle_wise_dict);
         ("mean_OL", VFloat mean_OL);
         ("mean_OR", VFloat mean_OR)]).

(** The entries of the report that come before ["bundle_wise"]: the file
    name, the counts of streamlines and of bundles, and the ratios. *)
Definition count_section (final_results : dict) : dict :=
  take 16 final_results.

(** ** [load_and_verify_everything] *)

(** [parser.error(msg)] *)
Definition parser_error {A} (msg : string) : M A := raise (SystemExit msg).

Definition assert_inputs_exist (required : list string)
    (optional : list (option string)) : M () :=
  if inputs_exist required optional then mret ()
  else parser_error "Input file does not exist".

Definition assert_output_dirs_exist_and_empty (dir : string) : M () :=
  if output_dirs_exist_and_empty dir then mret ()
  else parser_error "Output directory is not empty".

(** [list(roi_option.values())] *)
Definition roi_values (roi_option : option RoiOption) : result (list string) :=
  match roi_option with
  | Some (GtEndpoints e) => Ok [e]
  | Some (GtHeadTail h t) => Ok [h; t]
  | None => Raise AttributeError
  end.

Definition verify_compatibility (files : list string) : M () :=
  for_ files (λ file,
    if is_header_compatible file then mret ()
    else parser_error ("Input tractogram incompatible with " +:+ file)).

(** [_verify_compatibility_with_bundles]: entries that are [None] are
    skipped. *)
Definition _verify_compatibility_with_bundles
    (masks_files : list (option string)) : M () :=
  verify_compatibility (omap id masks_files).

(** What [load_and_verify_everything] returns, the tractogram apart. *)
Record Loaded : Type := {
  gt_tails : list string;
  gt_heads : list string;
  bundle_names : list string;
  all_rois : list string;
  ld_lengths : list (option value);
  ld_angles : list (option value);
  ld_orientation_lengths : list (option (list value));
  limits_inv_masks : list (option Mask);
  gt_masks : list (option Mask);
  dimensions : list nat;
  ext : string
}.

Definition load_and_verify_everything (args : Args)
    (config : list (string * dict)) : M Loaded :=
  assert_inputs_exist [gt_config args] [];;
  assert_output_dirs_exist_and_empty (out_dir args);;
  emit (MakeDirs (Py.path_join (out_dir args) "segmented_VB"));;
  when (compute_IC args)
    (emit (MakeDirs (Py.path_join (out_dir args) "segmented_IB")));;
  when (save_wpc_separately args)
    (emit (MakeDirs (Py.path_join (out_dir args) "segmented_WPC")));;
  c ← read_config_file args config;
  values ← lift (mapM roi_values (roi_options c));
  let all_mask_files := Py.fromkeys (Py.chain values) in
  assert_inputs_exist (all_mask_files ++ [in_tractogram args])
    (gt_masks_files c ++ limits_masks_files c);;
  emit (LogInfo (MsgText "Loading tractogram."));;
  let ext := (splitext (in_tractogram args)).2 in
  emit (LogInfo (MsgText
    "Verifying compatibility of tractogram with gt_masks and limits_masks."));;
  let all_masks := Py.fromkeys (gt_masks_files c ++ limits_masks_files c) in
  _verify_compatibility_with_bundles all_masks;;
  emit (LogInfo (MsgText
    "Loading and/or computing ground-truth masks and limits masks."));;
  let '(gt_masks, _, affine, dimensions) := compute_masks (gt_masks_files c) in
  let '(_, limits_inv_masks, _, _) := compute_masks (limits_masks_files c) in
  emit (LogInfo (MsgText "Extracting ground-truth head and tail masks."));;
  let '(gt_tails, gt_heads) :=
    compute_endpoint_masks (roi_options c) affine dimensions (out_dir args) in
  let all_rois := Py.fromkeys (gt_tails ++ gt_heads) in
  emit (LogInfo (MsgText
    "Verifying tractogram compatibility with endpoint ROIs."));;
  verify_compatibility all_rois;;
  mret {| gt_tails := gt_tails; gt_heads := gt_heads;
          bundle_names := bundles c; all_rois := all_rois;
          ld_lengths := lengths c; ld_angles := angles c;
          ld_orientation_lengths := orientation_lengths c;
          limits_inv_masks := limits_inv_masks; gt_masks := gt_masks;
          dimensions := dimensions; ext := ext |}.

(** ** [main] *)

(** [# WPC]: without [--save_wpc_separately] the WPC ids are dropped here
    and so stay in the remainder ("merged back with the IS"). *)
Definition wpc_phase (l : Loaded) (args : Args)
    (wpc_ids_list vs_ids_list : list Np.ids) (bundles_stats : list dict)
  : M (list Sft * list Np.ids * list dict) :=
  if save_wpc_separately args then
    emit (LogInfo (MsgText "Verifying wpc"));;
    '(wpc_sft_list, bundles_stats) ←
      save_wpc_all_bundles wpc_ids_list (bundle_names l) args (ext l)
        vs_ids_list bundles_stats;
    mret (wpc_sft_list, wpc_ids_list, bundles_stats)
  else mret ([], [], bundles_stats).

(** [# Save bundle stats] *)
Definition save_bundle_stats (l : Loaded) (args : Args)
    (bundles_stats : list dict) : M () :=
  bundle_stats_dict ←
    lift (rfold (range 0 (length (bundle_names l)))
            (λ d i,
               name ← Py.getitem (bundle_names l) i;
               stats ← Py.getitem bundles_stats i;
               Ok (dict_update d [(name, VDict stats)]))
            []);
  emit (JsonDump (VDict bundle_stats_dict)
          (Py.path_join (out_dir args) "processing_stats.json")
          (indent args) (sort_keys args)).

(** [# IC], the pairs: all combinations of two ROIs, less the pair of each
    bundle. *)
Definition false_connection_pairs (all_rois gt_tails gt_heads : list string)
  : result (list (string * string)) :=
  let all_rois := Py.sorted_str all_rois in
  let comb_filename := Py.combinations2 all_rois in
  let vb_roi_filenames := zip gt_tails gt_heads in
  rfold vb_roi_filenames
    (λ comb_filename vb_roi_pair,
       Py.remove (Py.sorted_pair vb_roi_pair) comb_filename)
    comb_filename.

(** The sorted pair of each bundle, in the order of the bundles. *)
Definition bundle_pairs (gt_tails gt_heads : list string)
  : list (string * string) :=
  Py.sorted_pair <$> zip gt_tails gt_heads.

Definition ic_phase (l : Loaded) (args : Args)
  : M (list Sft * list Np.ids * option (list (string * string))) :=
  if compute_IC args then
    emit (LogInfo (MsgText "Scoring invalid connections"));;
    comb_filename ←
      lift (false_connection_pairs (all_rois l) (gt_tails l) (gt_heads l));
    '(ib_sft_list, ic_ids_list) ← compute_ib_ic_all_bundles comb_filename args;
    mret (ib_sft_list, ic_ids_list, Some comb_filename)
  else mret ([], [], None).

(** The four global id arrays. *)
Record FinalIds : Type := {
  all_vs_ids : Np.ids;
  all_wpc_ids : Np.ids;
  all_ic_ids : Np.ids;
  all_nc_ids : Np.ids
}.

(** [# NC]: the unions, and what remains of [np.arange(len(sft))]. *)
Definition final_ids (vs_ids_list wpc_ids_list ic_ids_list : list Np.ids)
  : FinalIds :=
  let all_vs_ids := Np.unique (Py.chain vs_ids_list) in
  let all_wpc_ids := Np.unique (Py.chain wpc_ids_list) in
  let all_ic_ids := Np.unique (Py.chain ic_ids_list) in
  let all_nc_ids := Np.arange total_streamlines in
  let all_nc_ids := Np.setdiff1d all_nc_ids all_vs_ids in
  let all_nc_ids := Np.setdiff1d all_nc_ids all_wpc_ids in
  let all_nc_ids := Np.setdiff1d all_nc_ids all_ic_ids in
  {| all_vs_ids := all_vs_ids; all_wpc_ids := all_wpc_ids;
     all_ic_ids := all_ic_ids; all_nc_ids := all_nc_ids |}.

(** The remainder as the specification words it: the id range less the VS
    union, less the union of the WPC ids of the bundles, less the IC union,
    whatever the options. *)
Definition residual_of_spec (vs_ids_list wpc_ids_list ic_ids_list : list Np.ids)
  : Np.ids :=
  let all_wpc_ids := Np.unique (Py.chain wpc_ids_list) in
  Np.setdiff1d
    (Np.setdiff1d
       (Np.setdiff1d (Np.arange total_streamlines)
          (Np.unique (Py.chain vs_ids_list)))
       all_wpc_ids)
    (Np.unique (Py.chain ic_ids_list)).

(** In how many of the four final arrays the id [i] occurs. *)
Definition nb_categories (f : FinalIds) (i : nat) : nat :=
  length (filter (λ s : Np.ids, i ∈ s)
            [all_vs_ids f; all_wpc_ids f; all_ic_ids f; all_nc_ids f]).

(** [VS + WPC + IC + NC], the counts that [compute_tractometry] reports. *)
Definition sum_counts (f : FinalIds) : nat :=
  length (all_vs_ids f) + length (all_wpc_ids f) + length (all_ic_ids f)
  + length (all_nc_ids f).

(** The variables of [main] once the bundles are scored and
    [processing_stats.json] is written. *)
Record Scored : Type := {
  loaded : Loaded;
  vb_sft_list : list Sft;
  vs_ids_list : list Np.ids;
  wpc_sft_list : list Sft;
  wpc_ids_list : list Np.ids;
  bundles_stats : list dict
}.

(** [main] from [# Load] to [# Save bundle stats]. *)
Definition main_score (args : Args) (config : list (string * dict))
  : M Scored :=
  l ← load_and_verify_everything args config;
  emit (LogInfo (MsgText "Scoring valid connections"));;
  '(vb_sft_list, vs_ids_list, wpc_ids_list, bundles_stats) ←
    compute_vb_vs_all_bundles (gt_tails l) (gt_heads l) (bundle_names l)
      (ld_lengths l) (ld_angles l) (ld_orientation_lengths l)
      (limits_inv_masks l) args (ext l);
  '(wpc_sft_list, wpc_ids_list, bundles_stats) ←
    wpc_phase l args wpc_ids_list vs_ids_list bundles_stats;
  save_bundle_stats l args bundles_stats;;
  mret {| loaded := l; vb_sft_list := vb_sft_list;
          vs_ids_list := vs_ids_list; wpc_sft_list := wpc_sft_list;
          wpc_ids_list := wpc_ids_list; bundles_stats := bundles_stats |}.

(** [main] from [# IC] to the end.  The script returns [None]; the model
    returns the final id arrays and the report, which are written by
    then. *)
Definition main_report (args : Args) (s : Scored) : M (FinalIds * dict) :=
  let l := loaded s in
  '(ib_sft_list, ic_ids_list, comb_filename) ← ic_phase l args;
  let f := final_ids (vs_ids_list s) (wpc_ids_list s) ic_ids_list in
  let nb_nc := length (all_nc_ids f) in
  filename ←
    (if compute_IC args then
       emit (LogInfo (MsgRemainingNC nb_nc total_streamlines));;
       mret ("nc" +:+ ext l)
     else
       emit (LogInfo (MsgRemainingIS nb_nc total_streamlines));;
       mret ("is" +:+ ext l));
  let nc_sft := make_sft_from_ids (all_nc_ids f) in
  when (bool_decide (0 < len_sft nc_sft) || negb (no_empty args))
    (save_tractogram nc_sft (Py.path_join (out_dir args) filename) false);;
  final_results ← lift
    (compute_tractometry (all_vs_ids f) (all_wpc_ids f) (all_ic_ids f)
       (all_nc_ids f) (vs_ids_list s) (wpc_ids_list s) ic_ids_list
       (vb_sft_list s) (wpc_sft_list s) ib_sft_list args (bundle_names l)
       (gt_masks l) (dimensions l) comb_filename);
  emit (LogInfo (MsgResultsSaved (out_dir args)));;
  emit (JsonDump (VDict final_results)
          (Py.path_join (out_dir args) "results.json")
          (indent args) (sort_keys args));;
  mret (f, final_results).

Definition main (args : Args) (config : list (string * dict))
  : M (FinalIds * dict) :=
  s ← main_score args config;
  main_report args s.

End Script.

(** * What the functions are expected to compute

    Definitions used to state properties of the script: they describe
    results, and are compared with the functions above in the theorems. *)

Section Readiness.
Context `{Collaborators}.


End Readiness.

Section ConfigValues.
Context `{PyFloat}.

(** The file name that a bundle's dict holds under [key], joined to [dir];
    [None] when the key is absent (or holds no string). *)
Definition path_at (dir key : string) (bundle_config : dict) : option string :=
  match lookup_key key bundle_config with
  | Some (VStr s) => Some (Py.path_join dir s)
  | _ => None
  end.

(** The variables of a bundle as its dict gives them, key by key, without
    regard to the order of the keys. *)
Definition bundle_vars_of_dict (args : Args) (bundle_config : dict)
  : BundleVars :=
  {| angle := lookup_key "angle" bundle_config;
     length_ := lookup_key "length" bundle_config;
     length_x := lookup_key "length_x" bundle_config;
     length_y := lookup_key "length_y" bundle_config;
     length_z := lookup_key "length_z" bundle_config;
     gt_mask := path_at (gt_masks_dir args) "gt_mask" bundle_config;
     limit_mask :=
       if use_gt_masks_as_limits_masks args
       then path_at (gt_masks_dir args) "gt_mask" bundle_config
       else path_at (limits_masks_dir args) "limits_mask" bundle_config;
     roi_option :=
       match path_at (rois_dir args) "endpoints" bundle_config with
       | Some endpoints => Some (GtEndpoints endpoints)
       | None =>
           match path_at (rois_dir args) "head" bundle_config,
                 path_at (rois_dir args) "tail" bundle_config with
           | Some head, Some tail => Some (GtHeadTail head tail)
           | _, _ => None
           end
       end |}.

(** The warning of [read_config_file] for a bundle without [gt_mask]. *)
Definition gt_mask_warnings (config : list (string * dict)) : list event :=
  (λ bd, LogWarning (MsgNoGtMask bd.1))
    <$> filter (λ bd, contains "gt_mask" bd.2 = false) config.

(** [key] is among the keys visited so far. *)
Definition seen (key : string) (keys : list string) : bool :=
  existsb (String.eqb key) keys.

(** The loop over the keys of a bundle's dict, once the keys [keys] are
    visited: each variable holds the value of its key if the key was met,
    and [None] otherwise. *)
Definition keys_read (args : Args) (d : dict) (keys : list string)
    (v : BundleVars) : Prop :=
  let at_ key (x : option value) := if seen key keys then x else None in
  let path key (x : option string) := if seen key keys then x else None in
  angle v = at_ "angle" (lookup_key "angle" d)
  ∧ length_ v = at_ "length" (lookup_key "length" d)
  ∧ length_x v = at_ "length_x" (lookup_key "length_x" d)
  ∧ length_y v = at_ "length_y" (lookup_key "length_y" d)
  ∧ length_z v = at_ "length_z" (lookup_key "length_z" d)
  ∧ gt_mask v = path "gt_mask" (path_at (gt_masks_dir args) "gt_mask" d)
  ∧ limit_mask v
    = (if use_gt_masks_as_limits_masks args
       then path "gt_mask" (path_at (gt_masks_dir args) "gt_mask" d)
       else path "limits_mask"
              (path_at (limits_masks_dir args) "limits_mask" d))
  ∧ roi_option v
    = (if seen "endpoints" keys
       then GtEndpoints <$> path_at (rois_dir args) "endpoints" d
       else if seen "head" keys
       then match path_at (rois_dir args) "head" d,
                  path_at (rois_dir args) "tail" d with
            | Some head, Some tail => Some (GtHeadTail head tail)
            | _, _ => None
            end
       else None)
  ∧ (seen "endpoints" keys = true →
     ("head" ∉ d.*1) ∧ is_Some (path_at (rois_dir args) "endpoints" d))
  ∧ (seen "head" keys = true →
     is_Some (path_at (rois_dir args) "head" d)
     ∧ is_Some (path_at (rois_dir args) "tail" d)).

End ConfigValues.

Arguments seen : simpl never.

Section CleanedWpc.
Context `{PyFloat}.

(** The VS lists of the bundles other than [i], among [nb] bundles. *)
Definition others_vs (vs_ids_list : list Np.ids) (nb i : nat)
  : list Np.ids :=
  omap (λ j, vs_ids_list !! j) (filter (λ j, j ≠ i) (range 0 nb)).

(** The WPC ids of bundle [i] that [save_wpc_all_bundles] keeps. *)
Definition cleaned_wpc (args : Args) (wpc_ids_list vs_ids_list : list Np.ids)
    (i : nat) : Np.ids :=
  let wpc_ids := default [] (wpc_ids_list !! i) in
  if remove_wpc_belonging_to_another_bundle args
  then Np.setdiff1d wpc_ids
         (Py.chain (others_vs vs_ids_list (length wpc_ids_list) i))
  else wpc_ids.

(** The statistics of bundle [i] once its WPC ids are cleaned. *)
Definition cleaned_stats (args : Args)
    (wpc_ids_list vs_ids_list : list Np.ids) (i : nat) (stats : dict)
  : dict :=
  let wpc_ids := default [] (wpc_ids_list !! i) in
  let kept := cleaned_wpc args wpc_ids_list vs_ids_list i in
  let stats :=
    if remove_wpc_belonging_to_another_bundle args
    then dict_update stats
           [("Belonging to another bundle",
             VInt (Z.of_nat (length wpc_ids) - Z.of_nat (length kept)))]
    else stats in
  dict_update stats [("Cleaned WPC", VInt (Z.of_nat (length kept)))].

(** The events of the turn of bundle [i]. *)
Definition cleaned_events (args : Args) (ext : string)
    (wpc_ids_list vs_ids_list : list Np.ids) (i : nat) (name : string)
  : list event :=
  let kept := cleaned_wpc args wpc_ids_list vs_ids_list i in
  (if bool_decide (0 < length kept) || negb (no_empty args)
   then [SaveTractogram {| streamlines := kept |}
           (Py.path_join (out_dir args)
              ("segmented_WPC/" +:+ name +:+ "_wpc" +:+ ext))
           false]
   else [])
  ++ [LogInfo (MsgBundleWPC name (length kept))].

End CleanedWpc.

Section FalseConnections.
Context `{Collaborators}.

(** The events of the turn of one ROI pair in
    [compute_ib_ic_all_bundles]. *)
Definition pair_events (args : Args) (roi : string * string) : list event :=
  let prefix_1 := extract_prefix roi.1 in
  let prefix_2 := extract_prefix roi.2 in
  let ext := (splitext (in_tractogram args)).2 in
  let ib_sft :=
    (extract_false_connections roi.1 roi.2 (dilate_endpoints args)).1 in
  (if bool_decide (0 < len_sft ib_sft) || negb (no_empty args)
   then [SaveTractogram ib_sft
           (Py.path_join (out_dir args)
              ("segmented_IB/" +:+ prefix_1 +:+ "_" +:+ prefix_2 +:+ "_IC"
               +:+ ext))
           false]
   else [])
  ++ (if bool_decide (0 < length (streamlines ib_sft))
      then [LogInfo (MsgIBRecognized (length (streamlines ib_sft))
                       prefix_1 prefix_2)]
      else []).

(** The warning for the ROI pairs [i] and [j], if their IC ids
    intersect. *)
Definition duplicate_ic_warning (comb_filename : list (string * string))
    (ic_ids_list : list Np.ids) (i j : nat) : list event :=
  match ic_ids_list !! i, ic_ids_list !! j,
        comb_filename !! i, comb_filename !! j with
  | Some ic_i, Some ic_j, Some pair_i, Some pair_j =>
      let duplicate_ids := Np.intersect1d ic_i ic_j in
      if bool_decide (0 < length duplicate_ids)
      then [LogWarning (MsgDuplicateIC (length duplicate_ids) pair_i pair_j)]
      else []
  | _, _, _, _ => []
  end.

End FalseConnections.

(** ** What a run may emit *)

Section Emissions.
Context `{PyFloat}.

(** The computation [m] only adds events, and each event it adds
    satisfies [P], however it ends. *)
Definition emits_only {A} (P : event → Prop) (m : M A) : Prop :=
  ∀ tr, ∃ new, (m tr).1 = tr ++ new ∧ Forall P new.

(** The directory or file that an event creates or writes. *)
Definition event_path (e : event) : option string :=
  match e with
  | MakeDirs path | SaveTractogram _ path _ | JsonDump _ path _ _ => Some path
  | LogWarning _ | LogInfo _ => None
  end.

(** The events of the scoring itself: log records, directories and
    tractograms below [out_dir], the tractograms being empty only without
    [--no_empty]; no JSON file. *)
Definition scoring_event (args : Args) (e : event) : Prop :=
  match e with
  | LogWarning _ | LogInfo _ => True
  | MakeDirs path => String.prefix (out_dir args) path = true
  | SaveTractogram t path _ =>
      String.prefix (out_dir args) path = true
      ∧ (0 < len_sft t ∨ no_empty args = false)
  | JsonDump _ _ _ _ => False
  end.

(** The events of a whole run: those of the scoring, and the two JSON
    files. *)
Definition main_event (args : Args) (e : event) : Prop :=
  scoring_event args e
  ∨ ∃ obj name,
      name ∈ ["processing_stats.json"; "results.json"]
      ∧ e = JsonDump obj (Py.path_join (out_dir args) name) (indent args)
              (sort_keys args).

(** The directory that an event creates. *)
Definition created (e : event) : option string :=
  match e with
  | MakeDirs path => Some path
  | _ => None
  end.

(** The directories created so far, in order. *)
Definition created_dirs (tr : list event) : list string := omap created tr.

(** The computation [m] creates no directory that exists already, if none
    was created twice before: [os.makedirs] would raise on one. *)
Definition creates_new_dirs {A} (m : M A) : Prop :=
  ∀ tr, NoDup (created_dirs tr) → NoDup (created_dirs (m tr).1).

End Emissions.

(** * [scilpy/tracking/trackable_dataset.py]

    The integer part of the classes [Dataset], [SeedGenerator] and
    [BinaryMask]: the bounds of the voxel grid, the seeds skipped before a
    chunk, and the shapes accepted as a mask. *)

Module TrackableDataset.

Section Dataset.
Variable V : Type.

(** A [Dataset]: the shape of [self.data] ([self.dim] is its first axes)
    and the value stored at each voxel of the grid. *)
Record Dataset : Type := {
  dim : Z * Z * Z;
  voxels : Z → Z → Z → V
}.

(** [a[i]] on an axis of length [n], for a Python int: a negative index
    counts from the end, and [IndexError] is raised outside of
    [-n .. n - 1]. *)
Definition np_index (n i : Z) : result Z :=
  if decide (- n ≤ i < n)%Z
  then Ok (if decide (i < 0)%Z then (i + n)%Z else i)
  else Raise IndexError.

(** [self.data[i][j][k]] *)
Definition data_getitem (d : Dataset) (i j k : Z) : result V :=
  i' ← np_index (dim d).1.1 i;
  j' ← np_index (dim d).1.2 j;
  k' ← np_index (dim d).2 k;
  Ok (voxels d i' j' k').

Definition is_voxel_in_bound (d : Dataset) (i j k : Z) : bool :=
  bool_decide (0 ≤ i < (dim d).1.1)%Z
  && bool_decide (0 ≤ j < (dim d).1.2)%Z
  && bool_decide (0 ≤ k < (dim d).2)%Z.

Definition get_voxel_value (d : Dataset) (i j k : Z) : result V :=
  let '(i, j, k) :=
    if negb (is_voxel_in_bound d i j k)
    then (Z.max 0 (Z.min ((dim d).1.1 - 1) i),
          Z.max 0 (Z.min ((dim d).1.2 - 1) j),
          Z.max 0 (Z.min ((dim d).2 - 1) k))
    else (i, j, k) in
  data_getitem d i j k.

End Dataset.

Arguments dim {V} d.
Arguments voxels {V} d i j k.

(** [Dataset.__init__], the shape: a 3-D array gets a fourth axis of
    length 1 ([np.expand_dims(self.data, axis=3)]). *)
Definition dataset_shape (shape : list Z) : list Z :=
  if decide (length shape = 3) then shape ++ [1%Z] else shape.

(** [BinaryMask.__init__] on a dataset of shape [shape]: [ValueError]
    unless the data has 3 axes, or 4 axes the last of length 1. *)
Definition binary_mask_init (shape : list Z) : result () :=
  let ndim := length shape in
  if negb (bool_decide (ndim = 3)
           || (bool_decide (ndim = 4)
               && bool_decide (last shape = Some 1%Z)))
  then Raise (ValueError "mask cannot be more than 3d")
  else Ok ().

(** [SeedGenerator.init_pos], the numbers drawn to skip the seeds of the
    previous chunks: the sizes of the calls to [random_generator.rand], in
    order.  [rand] raises [ValueError] for a negative size.  The loop is
    run with [fuel] turns at most; [None] when they do not suffice. *)
Fixpoint skip_seeds (fuel : nat) (seed_to_go : Z) (calls : list Z)
  : option (list Z * result ()) :=
  if decide (100000 < seed_to_go)%Z then
    match fuel with
    | O => None
    | S fuel => skip_seeds fuel (seed_to_go - 100000) (calls ++ [100000%Z])
    end
  else if decide (seed_to_go < 0)%Z
  then Some (calls, Raise (ValueError "negative dimensions are not allowed"))
  else Some (calls ++ [seed_to_go], Ok ()).

Definition init_pos_skip (fuel : nat) (first_seed_of_chunk : Z)
  : option (list Z * result ()) :=
  let seed_to_go := (first_seed_of_chunk * 3)%Z in
  skip_seeds fuel seed_to_go [].

End TrackableDataset.

(** * Concrete runs

    To run the script, the collaborators are given by a [World]: a small
    tractogram described by what the extraction functions find in it, and
    floats kept as the expressions that compute them. *)

Module Scenario.

Inductive fexpr : Type :=
| FZero
| FInf
| FNan
| FAdd (x y : fexpr)
| FIntDivInt (a b : Z)
| FDivInt (x : fexpr) (n : Z).

Definition free_float : PyFloat :=
  {| float := fexpr; f_zero := FZero; f_inf := FInf; f_add := FAdd;
     int_div_int := FIntDivInt; float_div_int := FDivInt |}.

Record World : Type := {
  w_total : nat;
  (** head file, tail file: the VS and the WPC ids of the bundle *)
  w_classify : string → string → Np.ids * Np.ids;
  (** two ROI files: the ids of the streamlines that join them *)
  w_connect : string → string → Np.ids;
  (** the volume stored in a file *)
  w_mask : string → Mask;
  (** the voxels that streamlines cross, and those where they end *)
  w_voxels : Np.ids → Mask * Mask
}.

Definition endpoints_of (out_dir : string) (o : option (@RoiOption))
  : string * string :=
  match o with
  | Some (GtHeadTail h t) => (t, h)
  | Some (GtEndpoints e) =>
      (Py.path_join out_dir (e +:+ "_tail.nii.gz"),
       Py.path_join out_dir (e +:+ "_head.nii.gz"))
  | None => ("", "")
  end.

Definition dice (a b : Mask) : fexpr :=
  let d := (count_nonzero a + count_nonzero b)%Z in
  if decide (0 < d)%Z
  then FIntDivInt (2 * count_nonzero (mask_mul a b)) d
  else FNan.

Definition collaborators (w : World) : @Collaborators free_float :=
  {| total_streamlines := w_total w;
     affine := unit;
     inputs_exist := λ _ _, true;
     output_dirs_exist_and_empty := λ _, true;
     is_header_compatible := λ _, true;
     compute_masks := λ files,
       (map (fmap (w_mask w)) files,
        map (fmap (λ f, map (λ x, if decide (x = 0%Z) then 1%Z else 0%Z)
                          (w_mask w f))) files,
        tt, [length (w_mask w "")]);
     compute_endpoint_masks := λ roi_options _ _ out_dir,
       (map (λ o, (endpoints_of out_dir o).1) roi_options,
        map (λ o, (endpoints_of out_dir o).2) roi_options);
     extract_vb_vs := λ head tail _ _ _ _ _ _,
       let '(vs, wpc) := w_classify w head tail in
       (vs, wpc,
        [("VS", @VInt free_float (Z.of_nat (length vs)));
         ("WPC", @VInt free_float (Z.of_nat (length wpc)))]);
     extract_false_connections := λ roi1 roi2 _,
       ({| streamlines := w_connect w roi1 roi2 |}, w_connect w roi1 roi2);
     get_binary_maps := w_voxels w;
     compute_dice_voxel := λ a b, (dice a b, FNan);
     basename := λ s, s;
     splitext := λ s, (s, ".trk");
     split_name_with_nii := λ s, (s, ".nii.gz") |}.

Definition default_args : Args :=
  {| in_tractogram := "in.trk"; gt_config := "config.json"; out_dir := "out";
     gt_masks_dir := ""; limits_masks_dir := ""; rois_dir := "";
     use_gt_masks_as_limits_masks := false; use_abs := false;
     dilate_endpoints := 0; remove_invalid := false;
     save_wpc_separately := false; compute_IC := false;
     remove_wpc_belonging_to_another_bundle := false; no_empty := false;
     indent := None; sort_keys := false; verbose := false |}.

(** Two bundles with overlapping ROIs over four streamlines: streamline 1
    is valid for both [A] and [B], streamline 0 is valid for [A] and on a
    wrong path for [B], streamline 2 is on a wrong path for [B] only. *)
Definition overlap_world : World :=
  {| w_total := 4;
     w_classify := λ head _,
       if String.eqb head "A_head" then ([0; 1], [])
       else if String.eqb head "B_head" then ([1], [0; 2])
       else ([], []);
     w_connect := λ _ _, [];
     w_mask := λ _, [1; 1; 0; 0]%Z;
     w_voxels := λ ids, (if decide (ids = []) then [0; 0; 0; 0]%Z
                         else [1; 0; 1; 0]%Z,
                         if decide (ids = []) then [0; 0; 0; 0]%Z
                         else [1; 0; 0; 0]%Z) |}.

Definition overlap_config : list (string * @dict free_float) :=
  [("A", [("head", VStr "A_head"); ("tail", VStr "A_tail");
          ("gt_mask", VStr "A.nii.gz")]);
   ("B", [("head", VStr "B_head"); ("tail", VStr "B_tail");
          ("gt_mask", VStr "B.nii.gz"); ("length", VList [VInt 10; VInt 50])])].

Definition wpc_args : Args :=
  {| in_tractogram := "in.trk"; gt_config := "config.json"; out_dir := "out";
     gt_masks_dir := ""; limits_masks_dir := ""; rois_dir := "";
     use_gt_masks_as_limits_masks := false; use_abs := false;
     dilate_endpoints := 0; remove_invalid := false;
     save_wpc_separately := true; compute_IC := false;
     remove_wpc_belonging_to_another_bundle := false; no_empty := false;
     indent := None; sort_keys := false; verbose := false |}.

(** Two bundles that share no streamline, over five streamlines. *)
Definition disjoint_world : World :=
  {| w_total := 5;
     w_classify := λ head _,
       if String.eqb head "A_head" then ([0; 1], [2])
       else if String.eqb head "B_head" then ([3], [])
       else ([], []);
     w_connect := λ _ _, [];
     w_mask := λ _, [1; 1; 0; 0]%Z;
     w_voxels := λ ids, (if decide (ids = []) then [0; 0; 0; 0]%Z
                         else [1; 0; 1; 0]%Z,
                         if decide (ids = []) then [0; 0; 0; 0]%Z
                         else [1; 0; 0; 0]%Z) |}.

(** Two bundles between the same two ROIs, declared in opposite
    directions, with [--compute_IC]. *)
Definition twin_config : list (string * @dict free_float) :=
  [("A", [("head", VStr "left.nii.gz"); ("tail", VStr "right.nii.gz");
          ("gt_mask", VStr "A.nii.gz")]);
   ("B", [("head", VStr "right.nii.gz"); ("tail", VStr "left.nii.gz");
          ("gt_mask", VStr "B.nii.gz")])].

Definition twin_world : World :=
  {| w_total := 3;
     w_classify := λ head _,
       if String.eqb head "left.nii.gz" then ([0], []) else ([1], []);
     w_connect := λ _ _, [];
     w_mask := λ _, [1; 1; 0; 0]%Z;
     w_voxels := λ _, ([1; 0; 1; 0]%Z, [1; 0; 0; 0]%Z) |}.

Definition ic_args : Args :=
  {| in_tractogram := "in.trk"; gt_config := "config.json"; out_dir := "out";
     gt_masks_dir := ""; limits_masks_dir := ""; rois_dir := "";
     use_gt_masks_as_limits_masks := false; use_abs := false;
     dilate_endpoints := 0; remove_invalid := false;
     save_wpc_separately := false; compute_IC := true;
     remove_wpc_belonging_to_another_bundle := false; no_empty := false;
     indent := None; sort_keys := false; verbose := false |}.

(** A tractogram without streamlines. *)
Definition empty_world : World :=
  {| w_total := 0;
     w_classify := λ _ _, ([], []);
     w_connect := λ _ _, [];
     w_mask := λ _, [1; 1; 0; 0]%Z;
     w_voxels := λ _, ([0; 0; 0; 0]%Z, [0; 0; 0; 0]%Z) |}.

(** Ground-truth masks without voxels. *)
Definition blank_mask_world : World :=
  {| w_total := 4;
     w_classify := λ _ _, ([0; 1], []);
     w_connect := λ _ _, [];
     w_mask := λ _, [0; 0; 0; 0]%Z;
     w_voxels := λ _, ([1; 0; 1; 0]%Z, [1; 0; 0; 0]%Z) |}.

(** One bundle, with its ground-truth mask; no streamline of
    [empty_bundle_world] belongs to it. *)
Definition one_bundle_config : list (string * @dict free_float) :=
  [("A", [("head", VStr "A_head"); ("tail", VStr "A_tail");
          ("gt_mask", VStr "A.nii.gz")])].

Definition empty_bundle_world : World :=
  {| w_total := 4;
     w_classify := λ _ _, ([], []);
     w_connect := λ _ _, [];
     w_mask := λ _, [1; 1; 0; 0]%Z;
     w_voxels := λ _, ([0; 0; 0; 0]%Z, [0; 0; 0; 0]%Z) |}.

(** Two bundles, the second without ground-truth mask. *)
Definition no_gt_mask_config : list (string * @dict free_float) :=
  [("A", [("head", VStr "A_head"); ("tail", VStr "A_tail");
          ("gt_mask", VStr "A.nii.gz")]);
   ("B", [("head", VStr "B_head"); ("tail", VStr "B_tail")])].

(** How a run ends. *)
Definition outcome (w : World) (args : Args)
    (config : list (string * @dict free_float))
  : result (FinalIds * @dict free_float) :=
  (@main free_float (collaborators w) args config []).2.

(** The paths of the JSON files that a run writes, in order. *)
Definition json_written (w : World) (args : Args)
    (config : list (string * @dict free_float)) : list string :=
  omap (λ e, match e with JsonDump _ path _ _ => Some path | _ => None end)
    (@main free_float (collaborators w) args config []).1.

(** The VS and WPC id lists, one per bundle, that a run extracts. *)
Definition ids_extracted (w : World) (args : Args)
    (config : list (string * @dict free_float))
  : result (list Np.ids * list Np.ids) :=
  ((l ← @load_and_verify_everything free_float (collaborators w) args config;
    r ← @compute_vb_vs_all_bundles free_float (collaborators w)
          (gt_tails l) (gt_heads l) (bundle_names l) (ld_lengths l)
          (ld_angles l) (ld_orientation_lengths l) (limits_inv_masks l)
          args (ext l);
    mret (r.1.1.2, r.1.2)) []).2.

(** The id arrays of a run that ends. *)
Definition ids_of_run (w : World) (args : Args)
    (config : list (string * @dict free_float)) : result FinalIds :=
  fst <$> (@main free_float (collaborators w) args config []).2.

End Scenario.

(** ** More runs *)

Module Runs.
Import Scenario.

(** [--save_wpc_separately --remove_wpc_belonging_to_another_bundle] *)
Definition clean_args : Args :=
  {| in_tractogram := "in.trk"; gt_config := "config.json"; out_dir := "out";
     gt_masks_dir := ""; limits_masks_dir := ""; rois_dir := "";
     use_gt_masks_as_limits_masks := false; use_abs := false;
     dilate_endpoints := 0; remove_invalid := false;
     save_wpc_separately := true; compute_IC := false;
     remove_wpc_belonging_to_another_bundle := true; no_empty := false;
     indent := None; sort_keys := false; verbose := false |}.

(** The statistics of the two bundles of [overlap_world], as
    [extract_vb_vs] gives them. *)
Definition overlap_stats : list (@dict free_float) :=
  [[("VS", VInt 2); ("WPC", VInt 0)]; [("VS", VInt 1); ("WPC", VInt 2)]].

(** [--no_empty] *)
Definition no_empty_args : Args :=
  {| in_tractogram := "in.trk"; gt_config := "config.json"; out_dir := "out";
     gt_masks_dir := ""; limits_masks_dir := ""; rois_dir := "";
     use_gt_masks_as_limits_masks := false; use_abs := false;
     dilate_endpoints := 0; remove_invalid := false;
     save_wpc_separately := true; compute_IC := true;
     remove_wpc_belonging_to_another_bundle := false; no_empty := true;
     indent := None; sort_keys := false; verbose := false |}.

End Runs.

(** * Properties *)

(** ** numpy's set routines *)

Section NumpyFacts.
Implicit Types (a b l : Np.ids) (x : nat).

Lemma elem_of_unique x l : x ∈ Np.unique l ↔ x ∈ l.
Proof.
  unfold Np.unique. rewrite merge_sort_Permutation. apply elem_of_remove_dups.
Qed.

Lemma NoDup_unique l : NoDup (Np.unique l).
Proof.
  unfold Np.unique. rewrite merge_sort_Permutation. apply NoDup_remove_dups.
Qed.

Lemma Sorted_unique_ids l : Sorted Nat.le (Np.unique l).
Proof. apply (Sorted_merge_sort Nat.le). Qed.

(** Two id lists with the same members have the same [np.unique]. *)
Lemma unique_ext l1 l2 :
  (∀ x, x ∈ l1 ↔ x ∈ l2) → Np.unique l1 = Np.unique l2.
Proof.
  intros Hext. apply (Sorted_unique Nat.le); try apply Sorted_unique_ids.
  apply NoDup_Permutation; try apply NoDup_unique.
  intros x. rewrite !elem_of_unique. apply Hext.
Qed.

Lemma unique_idemp l : Np.unique (Np.unique l) = Np.unique l.
Proof. apply unique_ext. intros x. apply elem_of_unique. Qed.

Lemma elem_of_setdiff1d x a b : x ∈ Np.setdiff1d a b ↔ x ∈ a ∧ x ∉ b.
Proof.
  unfold Np.setdiff1d. rewrite list_elem_of_difference, !elem_of_unique.
  reflexivity.
Qed.

Lemma NoDup_setdiff1d a b : NoDup (Np.setdiff1d a b).
Proof. apply NoDup_list_difference, NoDup_unique. Qed.

Lemma elem_of_intersect1d x a b : x ∈ Np.intersect1d a b ↔ x ∈ a ∧ x ∈ b.
Proof.
  unfold Np.intersect1d. rewrite list_elem_of_intersection, !elem_of_unique.
  reflexivity.
Qed.

Lemma elem_of_arange x n : x ∈ Np.arange n ↔ x < n.
Proof. unfold Np.arange. rewrite elem_of_seq. lia. Qed.

Lemma elem_of_chain (ls : list Np.ids) x :
  x ∈ Py.chain ls ↔ ∃ l, l ∈ ls ∧ x ∈ l.
Proof.
  unfold Py.chain. induction ls as [|l' ls IH]; simpl.
  - split; [by intros ?%elem_of_nil | by intros (? & ?%elem_of_nil & _)].
  - rewrite elem_of_app, IH. setoid_rewrite elem_of_cons. naive_solver.
Qed.

End NumpyFacts.

(** ** The final id arrays of [main] *)

Section FinalIdsFacts.
Context `{Collaborators}.
Implicit Types (vs wpc ic : list Np.ids) (i : nat).

Lemma elem_of_all_vs_ids vs wpc ic i :
  i ∈ all_vs_ids (final_ids vs wpc ic) ↔ i ∈ Py.chain vs.
Proof. apply elem_of_unique. Qed.

Lemma elem_of_all_wpc_ids vs wpc ic i :
  i ∈ all_wpc_ids (final_ids vs wpc ic) ↔ i ∈ Py.chain wpc.
Proof. apply elem_of_unique. Qed.

Lemma elem_of_all_ic_ids vs wpc ic i :
  i ∈ all_ic_ids (final_ids vs wpc ic) ↔ i ∈ Py.chain ic.
Proof. apply elem_of_unique. Qed.

Lemma elem_of_all_nc_ids vs wpc ic i :
  i ∈ all_nc_ids (final_ids vs wpc ic) ↔
  i < total_streamlines ∧ (i ∉ Py.chain vs) ∧ (i ∉ Py.chain wpc)
  ∧ (i ∉ Py.chain ic).
Proof.
  unfold final_ids; simpl.
  rewrite !elem_of_setdiff1d, !elem_of_unique, elem_of_arange. tauto.
Qed.

Lemma NoDup_final_ids vs wpc ic :
  let f := final_ids vs wpc ic in
  NoDup (all_vs_ids f) ∧ NoDup (all_wpc_ids f) ∧ NoDup (all_ic_ids f)
  ∧ NoDup (all_nc_ids f).
Proof.
  simpl. repeat split; try apply NoDup_unique. apply NoDup_setdiff1d.
Qed.

(** The remainder and the distinct ids of the three unions always add up to
    the size of the tractogram, when the classifiers return ids of the
    tractogram. *)
Lemma nc_count_complement vs wpc ic :
  (∀ i, i ∈ Py.chain (vs ++ wpc ++ ic) → i < total_streamlines) →
  let f := final_ids vs wpc ic in
  length (all_nc_ids f) + length (Np.unique (Py.chain (vs ++ wpc ++ ic)))
  = total_streamlines.
Proof.
  intros Hrange f.
  rewrite <- length_app.
  transitivity (length (seq 0 total_streamlines)); [|apply length_seq].
  apply Permutation_length, NoDup_Permutation.
  - apply NoDup_app. split_and!.
    + apply NoDup_final_ids.
    + intros i Hnc. rewrite elem_of_unique. unfold Py.chain.
      rewrite !concat_app, !elem_of_app.
      apply elem_of_all_nc_ids in Hnc. unfold Py.chain in Hnc. tauto.
    + apply NoDup_unique.
  - apply NoDup_seq.
  - intros i. rewrite elem_of_app, elem_of_unique, elem_of_seq.
    unfold f. rewrite elem_of_all_nc_ids.
    specialize (Hrange i). revert Hrange. unfold Py.chain.
    rewrite !concat_app, !elem_of_app.
    assert (i < total_streamlines ↔ 0 ≤ i < 0 + total_streamlines) by lia.
    destruct (decide (i ∈ concat vs)), (decide (i ∈ concat wpc)),
      (decide (i ∈ concat ic)); tauto.
Qed.

End FinalIdsFacts.

Section Partition.
Context `{Collaborators}.
Implicit Types (vs wpc ic : list Np.ids) (i : nat).

Lemma nb_categories_nc vs wpc ic i :
  i ∈ all_nc_ids (final_ids vs wpc ic) →
  nb_categories (final_ids vs wpc ic) i = 1.
Proof.
  intros Hnc. pose proof Hnc as (_ & Hvs & Hwpc & Hic)%elem_of_all_nc_ids.
  unfold nb_categories.
  rewrite <- (elem_of_all_vs_ids vs wpc ic) in Hvs.
  rewrite <- (elem_of_all_wpc_ids vs wpc ic) in Hwpc.
  rewrite <- (elem_of_all_ic_ids vs wpc ic) in Hic.
  rewrite !filter_cons, filter_nil.
  repeat case_decide; try done.
Qed.

(** C9. The remainder NC is disjoint from the VS, WPC and IC unions, whether
    or not these overlap one another; it lies in the id range, and every id
    of the range is in NC or in one of the unions, NC being exactly the ids
    of the range in none of them.  When the three unions hold ids of the
    tractogram only, the four arrays together hold exactly the ids below
    [total_streamlines]. *)
Theorem nc_disjoint_from_unions_and_covering vs wpc ic :
  let f := final_ids vs wpc ic in
  (∀ i, i ∈ all_nc_ids f →
        (i ∉ all_vs_ids f) ∧ (i ∉ all_wpc_ids f) ∧ (i ∉ all_ic_ids f))
  ∧ (∀ i, i ∈ all_nc_ids f → i < total_streamlines)
  ∧ (∀ i, i < total_streamlines →
          i ∈ all_nc_ids f ↔
          ¬ (i ∈ all_vs_ids f ∨ i ∈ all_wpc_ids f ∨ i ∈ all_ic_ids f))
  ∧ ((∀ i, i ∈ all_vs_ids f ∨ i ∈ all_wpc_ids f ∨ i ∈ all_ic_ids f →
           i < total_streamlines) →
     ∀ i, i < total_streamlines ↔
          i ∈ all_nc_ids f ∨ i ∈ all_vs_ids f ∨ i ∈ all_wpc_ids f
          ∨ i ∈ all_ic_ids f).
Proof.
  intros f. unfold f.
  split_and!.
  - intros i Hnc.
    rewrite elem_of_all_vs_ids, elem_of_all_wpc_ids, elem_of_all_ic_ids.
    apply elem_of_all_nc_ids in Hnc. tauto.
  - intros i Hnc. apply elem_of_all_nc_ids in Hnc. tauto.
  - intros i Hlt.
    rewrite elem_of_all_vs_ids, elem_of_all_wpc_ids, elem_of_all_ic_ids,
      elem_of_all_nc_ids.
    tauto.
  - intros Hrange i. specialize (Hrange i). revert Hrange.
    rewrite elem_of_all_vs_ids, elem_of_all_wpc_ids, elem_of_all_ic_ids,
      elem_of_all_nc_ids.
    destruct (decide (i ∈ Py.chain vs)), (decide (i ∈ Py.chain wpc)),
      (decide (i ∈ Py.chain ic)); tauto.
Qed.

(** C1, as amended. When the VS, WPC and IC unions hold ids of the
    tractogram and are pairwise disjoint, the four counts add up to the
    number of streamlines and every id of the range is in exactly one of the
    four arrays. *)
Theorem counts_partition_when_unions_disjoint vs wpc ic :
  let f := final_ids vs wpc ic in
  Forall (λ i, i < total_streamlines)
    (all_vs_ids f ++ all_wpc_ids f ++ all_ic_ids f) →
  Forall (λ i, (i ∉ all_wpc_ids f) ∧ (i ∉ all_ic_ids f)) (all_vs_ids f) →
  Forall (λ i, i ∉ all_ic_ids f) (all_wpc_ids f) →
  sum_counts f = total_streamlines
  ∧ ∀ i, i < total_streamlines → nb_categories f i = 1.
Proof.
  intros f Hrange Hvs Hwpc.
  rewrite !Forall_app in Hrange. destruct Hrange as (Rvs & Rwpc & Ric).
  rewrite Forall_forall in Hvs, Hwpc, Rvs, Rwpc, Ric.
  destruct (NoDup_final_ids vs wpc ic) as (Nvs & Nwpc & Nic & Nnc).
  fold f in Nvs, Nwpc, Nic, Nnc.
  assert (Hnc : ∀ i, i ∈ all_nc_ids f ↔
            i < total_streamlines ∧ (i ∉ all_vs_ids f)
            ∧ (i ∉ all_wpc_ids f) ∧ (i ∉ all_ic_ids f)).
  { intros i. unfold f.
    rewrite elem_of_all_vs_ids, elem_of_all_wpc_ids, elem_of_all_ic_ids.
    apply elem_of_all_nc_ids. }
  split.
  - unfold sum_counts. rewrite <- !length_app.
    transitivity (length (seq 0 total_streamlines)); [|apply length_seq].
    apply Permutation_length, NoDup_Permutation.
    + rewrite !NoDup_app. split_and!; try done.
      all: intros i; rewrite ?elem_of_app, ?Hnc.
      all: pose proof (Hvs i); pose proof (Hwpc i); tauto.
    + apply NoDup_seq.
    + intros i. rewrite !elem_of_app, elem_of_seq, Hnc.
      specialize (Rvs i). specialize (Rwpc i). specialize (Ric i).
      destruct (decide (i ∈ all_vs_ids f)), (decide (i ∈ all_wpc_ids f)),
        (decide (i ∈ all_ic_ids f)); split; intros; try lia; try tauto.
      all: split; [lia|tauto].
  - intros i Hlt.
    destruct (decide (i ∈ all_nc_ids f)) as [Hin|Hout].
    { by apply nb_categories_nc. }
    unfold nb_categories. rewrite !filter_cons, filter_nil.
    pose proof (Hvs i). pose proof (Hwpc i). rewrite Hnc in Hout.
    repeat case_decide; simpl; try done; try (exfalso; tauto).
    all: match goal with Hin : _ ∈ all_nc_ids _ |- _ => apply Hnc in Hin end.
    all: exfalso; tauto.
Qed.

End Partition.

Section PartitionRuns.
Import Scenario.

(** C1, counterexample. With [--save_wpc_separately], two bundles and four
    streamlines, streamline 0 being valid for bundle [A] and on a wrong
    path for bundle [B]: the run ends with VS = {0, 1}, WPC = {0, 2},
    IC = {} and NC = {3}, so the four counts add up to 5 and id 0 is in two
    of the final arrays. *)
Lemma overlap_run_counts_exceed_total :
  (λ f, (all_vs_ids f, all_wpc_ids f, all_ic_ids f, all_nc_ids f,
         sum_counts f, @total_streamlines _ (collaborators overlap_world),
         nb_categories f 0))
    <$> ids_of_run overlap_world wpc_args overlap_config
  = Ok ([0; 1], [0; 2], [], [3], 5, 4, 2).
Proof. vm_compute. reflexivity. Qed.

(** C1, witness: two bundles that share no streamline. *)
Lemma counts_partition_disjoint_run :
  let f := @final_ids _ (collaborators disjoint_world)
             [[0; 1]; [3]] [[2]; []] [] in
  sum_counts f = 5 ∧ ∀ i, i < 5 → nb_categories f i = 1.
Proof.
  apply (@counts_partition_when_unions_disjoint _
           (collaborators disjoint_world) [[0; 1]; [3]] [[2]; []] []).
  all: refine (bool_decide_unpack _ _); vm_compute; exact I.
Defined.

End PartitionRuns.

(** ** File names: order, pairs, combinations *)

Section StringOrder.

Lemma str_le_iff s1 s2 :
  Py.str_le s1 s2 ↔ s1 = s2 ∨ String_as_OT.lt s1 s2.
Proof.
  unfold Py.str_le, String.leb.
  destruct (String.compare s1 s2) eqn:Hc.
  - apply String_as_OT.cmp_eq in Hc. tauto.
  - apply String_as_OT.cmp_lt in Hc. tauto.
  - split; [done|]. intros [->|Hlt].
    + assert (String_as_OT.cmp s2 s2 = Eq) as Heq
        by by apply String_as_OT.cmp_eq.
      unfold String_as_OT.cmp in Heq. congruence.
    + apply String_as_OT.cmp_lt in Hlt. unfold String_as_OT.cmp in Hlt.
      congruence.
Qed.

#[global] Instance str_le_refl : Reflexive Py.str_le.
Proof. intros s. apply str_le_iff. by left. Qed.

#[global] Instance str_le_trans : Transitive Py.str_le.
Proof.
  intros s1 s2 s3. rewrite !str_le_iff.
  intros [->|H12] [->|H23]; auto.
  right. eapply String_as_OT.lt_trans; eassumption.
Qed.

#[global] Instance str_le_antisym : AntiSymm (=) Py.str_le.
Proof. intros s1 s2. apply String.leb_antisym. Qed.

#[global] Instance str_le_total : Total Py.str_le.
Proof. intros s1 s2. apply String.leb_total. Qed.

Lemma sorted_pair_le p : Py.str_le (Py.sorted_pair p).1 (Py.sorted_pair p).2.
Proof.
  unfold Py.sorted_pair. case_decide; simpl; [done|].
  by destruct (total Py.str_le p.1 p.2).
Qed.

(** Two pairs have the same [tuple(sorted(...))] exactly when they are the
    same unordered pair. *)
Lemma sorted_pair_eq_iff p q :
  Py.sorted_pair p = Py.sorted_pair q ↔
  (p.1 = q.1 ∧ p.2 = q.2) ∨ (p.1 = q.2 ∧ p.2 = q.1).
Proof.
  destruct p as [a b], q as [c d]. unfold Py.sorted_pair; simpl.
  repeat case_decide; split; intros Heq; simplify_eq; auto.
  all: destruct Heq as [[-> ->]|[-> ->]]; try done.
  all: try (f_equal; by apply (anti_symm Py.str_le)).
  all: by destruct (total Py.str_le c d).
Qed.

Lemma sorted_str_Permutation l : Py.sorted_str l ≡ₚ l.
Proof. apply merge_sort_Permutation. Qed.

Lemma sorted_str_StronglySorted l : StronglySorted Py.str_le (Py.sorted_str l).
Proof. apply (StronglySorted_merge_sort Py.str_le). Qed.

End StringOrder.

Section ListFacts.
Context `{EqDecision A}.
Implicit Types (x y : A) (l : list A).

Lemma filter_id (P : A → Prop) `{∀ x, Decision (P x)} l :
  Forall P l → filter P l = l.
Proof.
  induction 1 as [|x l Hx Hl IH]; [done|].
  rewrite filter_cons_True by done. by rewrite IH.
Qed.

Lemma elem_of_fromkeys x l : x ∈ Py.fromkeys l ↔ x ∈ l.
Proof.
  induction l as [|y l IH]; simpl; [done|].
  rewrite !elem_of_cons, list_elem_of_filter, IH.
  destruct (decide (x = y)); naive_solver.
Qed.

Lemma NoDup_fromkeys l : NoDup (Py.fromkeys l).
Proof.
  induction l as [|y l IH]; simpl; [constructor|].
  constructor.
  - rewrite list_elem_of_filter. naive_solver.
  - by apply NoDup_filter.
Qed.

Lemma remove_elem x l :
  NoDup l → x ∈ l → Py.remove x l = Ok (filter (λ y, y ≠ x) l).
Proof.
  induction 1 as [|y l Hy Hl IH]; [by intros ?%elem_of_nil|].
  intros Hin. simpl. case_decide as Hxy.
  - subst y. rewrite filter_cons_False by auto. f_equal.
    symmetry. apply filter_id, Forall_forall. by intros y Hin' ->.
  - apply elem_of_cons in Hin as [?|Hin]; [done|].
    rewrite IH by done. by rewrite filter_cons_True by auto.
Qed.

Lemma remove_not_elem x l :
  x ∉ l → Py.remove x l = Raise (ValueError "list.remove(x): x not in list").
Proof.
  induction l as [|y l IH]; [done|].
  rewrite not_elem_of_cons. intros [Hxy Hin]. simpl.
  rewrite decide_False by done. by rewrite IH.
Qed.

End ListFacts.

Section RemovePairs.
Context `{EqDecision A}.
Implicit Types (x : A) (ps comb : list A).

(** Removing the entries of [ps] one by one from a list without repeats
    succeeds exactly when [ps] has no repeats and lies in the list; what is
    left is the list without the entries of [ps], in order. *)
Lemma remove_all_Ok ps comb :
  NoDup comb → NoDup ps → Forall (λ p, p ∈ comb) ps →
  remove_all ps comb = Ok (filter (λ c, c ∉ ps) comb).
Proof.
  unfold remove_all. revert comb.
  induction ps as [|p ps IH]; intros comb Hcomb Hps Hin; simpl.
  - f_equal. symmetry. apply filter_id, Forall_forall.
    intros c _. apply not_elem_of_nil.
  - apply NoDup_cons in Hps as [Hp Hps]. apply Forall_cons in Hin as [Hpin Hin].
    rewrite remove_elem by done. simpl.
    rewrite IH; [|by apply NoDup_filter|done|].
    + f_equal. rewrite list_filter_filter. apply list_filter_iff.
      intros c. rewrite not_elem_of_cons. tauto.
    + rewrite Forall_forall in Hin |- *. intros q Hq.
      apply list_elem_of_filter. split; [|by apply Hin].
      by intros ->.
Qed.

Lemma remove_all_Raise ps comb :
  NoDup comb → ¬ (NoDup ps ∧ Forall (λ p, p ∈ comb) ps) →
  remove_all ps comb = Raise (ValueError "list.remove(x): x not in list").
Proof.
  unfold remove_all. revert comb.
  induction ps as [|p ps IH]; intros comb Hcomb Hbad; simpl.
  - destruct Hbad. split; constructor.
  - destruct (decide (p ∈ comb)) as [Hpin|Hpout].
    + rewrite remove_elem by done. simpl.
      apply IH; [by apply NoDup_filter|].
      intros [Hps Hin]. apply Hbad. rewrite Forall_forall in Hin.
      split.
      * constructor; [|done]. intros Hp. apply Hin in Hp.
        apply list_elem_of_filter in Hp. naive_solver.
      * constructor; [done|]. apply Forall_forall. intros q Hq.
        apply Hin in Hq. apply list_elem_of_filter in Hq. tauto.
    + by rewrite remove_not_elem.
Qed.

End RemovePairs.

Section Combinations.

Lemma elem_of_combinations2_cons {A} (x : A) (l : list A) a b :
  (a, b) ∈ Py.combinations2 (x :: l) ↔
  (a = x ∧ b ∈ l) ∨ (a, b) ∈ Py.combinations2 l.
Proof.
  simpl. rewrite elem_of_app. change (map (pair x) l) with (pair x <$> l).
  rewrite list_elem_of_fmap. naive_solver.
Qed.

(** On a sorted list without repeats, [combinations] gives each pair of two
    distinct entries once, smaller entry first. *)
Lemma elem_of_combinations2_sorted l a b :
  StronglySorted Py.str_le l → NoDup l →
  (a, b) ∈ Py.combinations2 l ↔ a ∈ l ∧ b ∈ l ∧ a ≠ b ∧ Py.str_le a b.
Proof.
  induction 1 as [|x l Hl IH Hx]; intros Hnd.
  - simpl. split; [by intros ?%elem_of_nil|by intros [?%elem_of_nil _]].
  - apply NoDup_cons in Hnd as [Hxl Hnd].
    rewrite elem_of_combinations2_cons, IH, !elem_of_cons by done.
    rewrite Forall_forall in Hx. split.
    + intros [[-> Hb]|(Ha & Hb & Hne & Hle)].
      * split_and!; auto. by intros ->.
      * split_and!; auto.
    + intros ([->|Ha] & [->|Hb] & Hne & Hle).
      * done.
      * by left.
      * exfalso. apply Hne. apply (anti_symm Py.str_le); auto.
      * right. auto.
Qed.

Lemma elem_of_combinations2_elems {A} (l : list A) a b :
  (a, b) ∈ Py.combinations2 l → a ∈ l ∧ b ∈ l.
Proof.
  induction l as [|x l IH]; [by intros ?%elem_of_nil|].
  rewrite elem_of_combinations2_cons, !elem_of_cons. naive_solver.
Qed.

Lemma NoDup_combinations2 {A} (l : list A) :
  NoDup l → NoDup (Py.combinations2 l).
Proof.
  induction 1 as [|x l Hx Hl IH]; simpl; [constructor|].
  change (map (pair x) l) with (pair x <$> l).
  apply NoDup_app. split_and!.
  - apply NoDup_fmap_2; [|done]. by intros ?? [= ->].
  - intros [a b]. rewrite list_elem_of_fmap.
    intros (y & [= -> ->] & Hy) Hin.
    by apply elem_of_combinations2_elems in Hin as [? _].
  - done.
Qed.

End Combinations.

(** ** The ROI pairs scored for invalid connections *)

Section FalsePairs.
Implicit Types (all_rois gt_tails gt_heads : list string).
Implicit Types (comb : list (string * string)).

Lemma false_connection_pairs_remove_all all_rois gt_tails gt_heads :
  false_connection_pairs all_rois gt_tails gt_heads
  = remove_all (bundle_pairs gt_tails gt_heads)
      (Py.combinations2 (Py.sorted_str all_rois)).
Proof.
  unfold false_connection_pairs, bundle_pairs, remove_all.
  generalize (Py.combinations2 (Py.sorted_str all_rois)).
  induction (zip gt_tails gt_heads) as [|p ps IH]; intros comb; [done|].
  simpl. destruct (Py.remove (Py.sorted_pair p) comb); simpl; auto.
Qed.

Lemma NoDup_sorted_str l : NoDup l → NoDup (Py.sorted_str l).
Proof. intros. by rewrite sorted_str_Permutation. Qed.

Lemma elem_of_all_combinations all_rois a b :
  NoDup all_rois →
  (a, b) ∈ Py.combinations2 (Py.sorted_str all_rois) ↔
  a ∈ all_rois ∧ b ∈ all_rois ∧ a ≠ b ∧ Py.str_le a b.
Proof.
  intros Hnd.
  rewrite elem_of_combinations2_sorted;
    [|apply sorted_str_StronglySorted|by apply NoDup_sorted_str].
  by rewrite !sorted_str_Permutation.
Qed.

(** The pair of a bundle is one of the combinations exactly when its head
    and its tail are two files. *)
Lemma bundle_pair_in_combinations gt_tails gt_heads p :
  p ∈ zip gt_tails gt_heads →
  Py.sorted_pair p
    ∈ Py.combinations2 (Py.sorted_str (Py.fromkeys (gt_tails ++ gt_heads)))
  ↔ p.1 ≠ p.2.
Proof.
  intros Hp. destruct p as [t h].
  pose proof (elem_of_zip_l _ _ _ _ Hp) as Ht.
  pose proof (elem_of_zip_r _ _ _ _ Hp) as Hh.
  pose proof (sorted_pair_le (t, h)) as Hle.
  destruct (Py.sorted_pair (t, h)) as [a b] eqn:Hab.
  rewrite elem_of_all_combinations by apply NoDup_fromkeys.
  rewrite !elem_of_fromkeys, !elem_of_app. simpl in *.
  unfold Py.sorted_pair in Hab. case_decide; simplify_eq/=; naive_solver.
Qed.

End FalsePairs.

Section FalsePairsTheorems.
Implicit Types (gt_tails gt_heads : list string).
Implicit Types (comb : list (string * string)).

(** C7. When the removal loop ends, the pairs scored for invalid
    connections are the combinations of two distinct files of the
    deduplicated ROI list (each unordered pair once, smaller name first, in
    the order of [itertools.combinations]) that are not the sorted pair of a
    bundle. *)
Theorem false_pairs_are_combinations_minus_bundle_pairs
    gt_tails gt_heads comb :
  let all_rois := Py.fromkeys (gt_tails ++ gt_heads) in
  false_connection_pairs all_rois gt_tails gt_heads = Ok comb →
  comb = filter (λ c, c ∉ bundle_pairs gt_tails gt_heads)
           (Py.combinations2 (Py.sorted_str all_rois))
  ∧ NoDup comb
  ∧ ∀ a b, (a, b) ∈ comb ↔
      (a ∈ all_rois ∧ b ∈ all_rois ∧ a ≠ b ∧ Py.str_le a b)
      ∧ ¬ ∃ p, p ∈ zip gt_tails gt_heads ∧ Py.sorted_pair p = (a, b).
Proof.
  intros all_rois. rewrite false_connection_pairs_remove_all.
  pose proof (NoDup_fromkeys (gt_tails ++ gt_heads)) as Hrois.
  fold all_rois in Hrois.
  assert (NoDup (Py.combinations2 (Py.sorted_str all_rois))) as Hcomb
    by by apply NoDup_combinations2, NoDup_sorted_str.
  destruct (decide (NoDup (bundle_pairs gt_tails gt_heads)
                    ∧ Forall (λ p, p ∈ Py.combinations2 (Py.sorted_str all_rois))
                        (bundle_pairs gt_tails gt_heads))) as [[Hnd Hin]|Hbad].
  - rewrite remove_all_Ok by done. intros [= <-]. split_and!.
    + done.
    + by apply NoDup_filter.
    + intros a b. rewrite list_elem_of_filter, elem_of_all_combinations by done.
      unfold bundle_pairs. rewrite list_elem_of_fmap. naive_solver.
  - by rewrite remove_all_Raise.
Qed.

(** C7, witness: three bundles over four ROI files, one file shared. *)
Lemma false_pairs_three_bundles :
  let gt_tails := ["b.nii"; "d.nii"; "a.nii"] in
  let gt_heads := ["a.nii"; "c.nii"; "c.nii"] in
  let all_rois := Py.fromkeys (gt_tails ++ gt_heads) in
  let comb := [("a.nii", "d.nii"); ("b.nii", "c.nii"); ("b.nii", "d.nii")] in
  comb = filter (λ c, c ∉ bundle_pairs gt_tails gt_heads)
           (Py.combinations2 (Py.sorted_str all_rois))
  ∧ NoDup comb
  ∧ ∀ a b, (a, b) ∈ comb ↔
      (a ∈ all_rois ∧ b ∈ all_rois ∧ a ≠ b ∧ Py.str_le a b)
      ∧ ¬ ∃ p, p ∈ zip gt_tails gt_heads ∧ Py.sorted_pair p = (a, b).
Proof.
  apply (false_pairs_are_combinations_minus_bundle_pairs
           ["b.nii"; "d.nii"; "a.nii"] ["a.nii"; "c.nii"; "c.nii"]).
  vm_compute. reflexivity.
Defined.

(** The removal loop ends exactly when no two bundles have the same sorted
    pair and no bundle has the same file as head and tail; otherwise
    [list.remove] raises. *)
Lemma false_connection_pairs_outcome gt_tails gt_heads :
  let all_rois := Py.fromkeys (gt_tails ++ gt_heads) in
  let distinct :=
    NoDup (bundle_pairs gt_tails gt_heads)
    ∧ Forall (λ p, p.1 ≠ p.2) (zip gt_tails gt_heads) in
  (distinct →
   false_connection_pairs all_rois gt_tails gt_heads
   = Ok (filter (λ c, c ∉ bundle_pairs gt_tails gt_heads)
           (Py.combinations2 (Py.sorted_str all_rois))))
  ∧ (¬ distinct →
     false_connection_pairs all_rois gt_tails gt_heads
     = Raise (ValueError "list.remove(x): x not in list")).
Proof.
  intros all_rois distinct. rewrite false_connection_pairs_remove_all.
  assert (NoDup (Py.combinations2 (Py.sorted_str all_rois))) as Hcomb
    by apply NoDup_combinations2, NoDup_sorted_str, NoDup_fromkeys.
  assert (Forall (λ p, p ∈ Py.combinations2 (Py.sorted_str all_rois))
            (bundle_pairs gt_tails gt_heads)
          ↔ Forall (λ p, p.1 ≠ p.2) (zip gt_tails gt_heads)) as Hiff.
  { unfold bundle_pairs. rewrite Forall_fmap, !Forall_forall.
    split; intros Hall p Hp; specialize (Hall p Hp); simpl in *.
    - by apply (bundle_pair_in_combinations gt_tails gt_heads).
    - by apply bundle_pair_in_combinations. }
  unfold distinct. split; intros Hd.
  - apply remove_all_Ok; [done|tauto|tauto].
  - apply remove_all_Raise; [done|tauto].
Qed.

End FalsePairsTheorems.

(** ** Reasoning about the monad *)

Section MonadFacts.
Context `{PyFloat}.

Lemma bind_ok {A B} (m : M A) (k : A → M B) tr tr1 a :
  m tr = (tr1, Ok a) → (m ≫= k) tr = k a tr1.
Proof. unfold mbind, M_bind. by intros ->. Qed.

Lemma bind_raise {A B} (m : M A) (k : A → M B) tr tr1 e :
  m tr = (tr1, Raise e) → (m ≫= k) tr = (tr1, Raise e).
Proof. unfold mbind, M_bind. by intros ->. Qed.

Lemma bind_inv_ok {A B} (m : M A) (k : A → M B) tr tr' b :
  (m ≫= k) tr = (tr', Ok b) →
  ∃ a tr1, m tr = (tr1, Ok a) ∧ k a tr1 = (tr', Ok b).
Proof.
  unfold mbind, M_bind. destruct (m tr) as [tr1 [a|e]]; [eauto|done].
Qed.

Lemma mret_inv {A} (a b : A) tr tr' :
  (mret a : M A) tr = (tr', Ok b) → tr' = tr ∧ b = a.
Proof. by intros [= -> ->]. Qed.

Lemma emit_run e tr : emit e tr = (tr ++ [e], Ok ()).
Proof. done. Qed.

Lemma lift_inv {A} (r : result A) tr tr' a :
  lift r tr = (tr', Ok a) → tr' = tr ∧ r = Ok a.
Proof. by intros [= -> ->]. Qed.

End MonadFacts.

Ltac bind_inv H :=
  let a := fresh "a" in
  let tr := fresh "tr" in
  let Hm := fresh "Hm" in
  apply bind_inv_ok in H as (a & tr & Hm & H).

Tactic Notation "bind_inv_as" hyp(H) ident(a) ident(tr) ident(Hm) :=
  apply bind_inv_ok in H as (a & tr & Hm & H).

Section LoadFacts.
Context `{Collaborators}.

(** The ROI list that [load_and_verify_everything] returns is the
    deduplicated list of the tails and heads it returns. *)
Lemma load_all_rois args config tr tr1 l :
  load_and_verify_everything args config tr = (tr1, Ok l) →
  all_rois l = Py.fromkeys (gt_tails l ++ gt_heads l).
Proof.
  unfold load_and_verify_everything. intros Hrun.
  repeat bind_inv Hrun.
  destruct (compute_masks _) as [[[? ?] ?] ?] in Hrun.
  destruct (compute_masks _) as [[[? ?] ?] ?] in Hrun.
  destruct (compute_endpoint_masks _ _ _ _) as [tails heads] in Hrun.
  repeat bind_inv Hrun.
  apply mret_inv in Hrun as [_ ->]. done.
Qed.

End LoadFacts.

(** ** [main]: the abort on a repeated ROI pair *)

Section MainAbort.
Context `{Collaborators}.

Lemma main_score_inv args config tr tr1 s :
  main_score args config tr = (tr1, Ok s) →
  all_rois (loaded s)
  = Py.fromkeys (gt_tails (loaded s) ++ gt_heads (loaded s))
  ∧ ∃ tr0 stats,
      tr1 = tr0 ++ [JsonDump stats
                      (Py.path_join (out_dir args) "processing_stats.json")
                      (indent args) (sort_keys args)].
Proof.
  unfold main_score. intros Hrun.
  bind_inv Hrun. apply load_all_rois in Hm as Hrois.
  bind_inv Hrun. bind_inv Hrun. destruct a1 as [[[vb vs] wpc] stats].
  bind_inv Hrun. destruct a1 as [[wpc_sft wpc'] stats'].
  bind_inv Hrun. apply mret_inv in Hrun as [-> ->]. simpl.
  split; [done|].
  unfold save_bundle_stats in Hm3. bind_inv Hm3.
  rewrite emit_run in Hm3. injection Hm3 as <- _. eauto.
Qed.

(** C10. Once the bundles are scored and [processing_stats.json] is
    written, a run with [--compute_IC] goes on to the removal of the bundle
    pairs from the ROI combinations.  The removal ends (with the
    combinations that are no bundle pair) when the sorted (tail, head)
    pairs of the bundles are pairwise distinct and each bundle has two
    different files; when two bundles have the same sorted pair, or a
    bundle has its head file as tail, [list.remove] raises and the run
    stops there, the statistics file being the last thing written. *)
Theorem repeated_roi_pair_aborts_after_stats args config tr tr1 s :
  compute_IC args = true →
  main_score args config tr = (tr1, Ok s) →
  let l := loaded s in
  let distinct :=
    NoDup (bundle_pairs (gt_tails l) (gt_heads l))
    ∧ Forall (λ p, p.1 ≠ p.2) (zip (gt_tails l) (gt_heads l)) in
  (∃ tr0 stats,
     tr1 = tr0 ++ [JsonDump stats
                     (Py.path_join (out_dir args) "processing_stats.json")
                     (indent args) (sort_keys args)])
  ∧ (distinct →
     false_connection_pairs (all_rois l) (gt_tails l) (gt_heads l)
     = Ok (filter (λ c, c ∉ bundle_pairs (gt_tails l) (gt_heads l))
             (Py.combinations2 (Py.sorted_str (all_rois l)))))
  ∧ (¬ distinct →
     main args config tr
     = (tr1 ++ [LogInfo (MsgText "Scoring invalid connections")],
        Raise (ValueError "list.remove(x): x not in list"))).
Proof.
  intros HIC Hscore l distinct.
  destruct (main_score_inv _ _ _ _ _ Hscore) as [Hrois Hlast].
  fold l in Hrois.
  destruct (false_connection_pairs_outcome (gt_tails l) (gt_heads l))
    as [Hok Hraise].
  rewrite <- Hrois in Hok, Hraise.
  split_and!; [done|done|].
  intros Hbad. unfold main. rewrite (bind_ok _ _ _ _ _ Hscore).
  unfold main_report, ic_phase. fold l. rewrite HIC.
  apply bind_raise. rewrite (bind_ok _ _ _ _ _ (emit_run _ _)).
  apply bind_raise. unfold lift. by rewrite Hraise.
Qed.

End MainAbort.

Section MainAbortRun.
Import Scenario.

(** C10, witness: the two bundles of [twin_config] join the same two ROIs;
    the run writes [processing_stats.json] and stops in [list.remove]. *)
Lemma twin_bundles_run_aborts :
  ∃ tr0 stats,
    @main _ (collaborators twin_world) ic_args twin_config []
    = (tr0 ++ [JsonDump stats "out/processing_stats.json" None false;
               LogInfo (MsgText "Scoring invalid connections")],
       Raise (ValueError "list.remove(x): x not in list")).
Proof.
  destruct (@main_score _ (collaborators twin_world) ic_args twin_config [])
    as [tr1 [s|e]] eqn:Hscore; [|by vm_compute in Hscore].
  destruct (@repeated_roi_pair_aborts_after_stats _
              (collaborators twin_world) ic_args twin_config [] tr1 s
              eq_refl Hscore) as ((tr0 & stats & ->) & _ & Habort).
  exists tr0, stats. rewrite <- app_assoc in Habort. apply Habort.
  vm_compute in Hscore. injection Hscore as _ <-.
  refine (bool_decide_unpack _ _). vm_compute. exact I.
Defined.

End MainAbortRun.

(** ** Loops *)

Section LoopFacts.
Context `{PyFloat}.

(** A loop that ends establishes an invariant that each turn that ends
    preserves; the invariant is indexed by the entries already visited. *)
Lemma for_acc_inv_from {A S} (I : list A → S → list event → Prop)
    (body : S → A → M S) l done acc tr acc' tr' :
  for_acc l body acc tr = (tr', Ok acc') →
  I done acc tr →
  (∀ d x rest s1 tr1 s2 tr2,
     done ++ l = d ++ x :: rest → I d s1 tr1 →
     body s1 x tr1 = (tr2, Ok s2) → I (d ++ [x]) s2 tr2) →
  I (done ++ l) acc' tr'.
Proof.
  revert done acc tr.
  induction l as [|x l IH]; intros done acc tr Hrun Hinit Hstep.
  - apply mret_inv in Hrun as [-> ->]. by rewrite app_nil_r.
  - simpl in Hrun. bind_inv Hrun.
    rewrite (assoc_L (++) done [x] l : done ++ x :: l = (done ++ [x]) ++ l).
    apply (IH _ _ _ Hrun).
    + by apply (Hstep done x l acc tr).
    + intros d y rest s1 tr1 s2 tr2 Heq. apply (Hstep d y rest).
      by rewrite <- Heq, <- (assoc_L (++)).
Qed.

Lemma for_acc_inv {A S} (I : list A → S → list event → Prop)
    (body : S → A → M S) l acc tr acc' tr' :
  for_acc l body acc tr = (tr', Ok acc') →
  I [] acc tr →
  (∀ d x rest s1 tr1 s2 tr2,
     l = d ++ x :: rest → I d s1 tr1 →
     body s1 x tr1 = (tr2, Ok s2) → I (d ++ [x]) s2 tr2) →
  I l acc' tr'.
Proof. intros Hrun Hinit Hstep. by apply (for_acc_inv_from I body l []) in Hrun. Qed.

Lemma for__as_for_acc {A} (body : A → M ()) l tr :
  for_ l body tr = for_acc l (λ _ x, body x) () tr.
Proof.
  revert tr. induction l as [|x l IH]; intros tr; [done|].
  simpl. unfold mbind, M_bind.
  destruct (body x tr) as [tr1 [[]|e]]; [apply IH|done].
Qed.

Lemma for__inv {A} (I : list A → list event → Prop)
    (body : A → M ()) l tr tr' :
  for_ l body tr = (tr', Ok ()) →
  I [] tr →
  (∀ d x rest tr1 tr2,
     l = d ++ x :: rest → I d tr1 →
     body x tr1 = (tr2, Ok ()) → I (d ++ [x]) tr2) →
  I l tr'.
Proof.
  rewrite for__as_for_acc. intros Hrun Hinit Hstep.
  apply (for_acc_inv (λ d _ tr, I d tr) _ _ _ _ _ _ Hrun Hinit).
  intros d x rest [] tr1 [] tr2 Heq. by apply (Hstep d x rest).
Qed.

(** The position of an entry of [range(a, b)]. *)
Lemma range_split a b d x rest :
  range a b = d ++ x :: rest → x = a + length d ∧ x < b.
Proof.
  unfold range. intros Heq.
  assert (seq a (b - a) !! length d = Some x) as Hx.
  { rewrite Heq. by rewrite list_lookup_middle. }
  apply lookup_seq in Hx. lia.
Qed.

Lemma elem_of_range a b x : x ∈ range a b ↔ a ≤ x < b.
Proof. unfold range. rewrite elem_of_seq. lia. Qed.

End LoopFacts.

(** ** [compute_vb_vs_all_bundles]: duplicates *)

Section Duplicates.
Context `{Collaborators}.
Implicit Types (vs : list Np.ids) (names : list string).

Lemma getitem_Ok {A} (l : list A) i x : Py.getitem l i = Ok x ↔ l !! i = Some x.
Proof. unfold Py.getitem. destruct (l !! i); naive_solver. Qed.

Lemma sft_getitem_Ok ids t :
  sft_getitem ids = Ok t → t = {| streamlines := ids |}.
Proof. unfold sft_getitem. case_match; naive_solver. Qed.

Lemma duplicates_reported_mono vs names args i j tr1 tr2 :
  tr1 `prefix_of` tr2 →
  duplicates_reported vs names args i j tr1 →
  duplicates_reported vs names args i j tr2.
Proof.
  intros [k ->] Hrep vs_i vs_j name_i name_j Hi Hj Hni Hnj dup Hdup.
  destruct (Hrep vs_i vs_j name_i name_j Hi Hj Hni Hnj Hdup) as [Hw Hs].
  split; apply elem_of_app; by left.
Qed.

Lemma check_duplicates_inv vs names args i j tr1 tr2 :
  check_duplicates vs names args i j tr1 = (tr2, Ok ()) →
  tr1 `prefix_of` tr2 ∧ duplicates_reported vs names args i j tr2.
Proof.
  unfold check_duplicates. intros Hrun.
  bind_inv_as Hrun vs_i t Hi. apply lift_inv in Hi as [-> Hi%getitem_Ok].
  bind_inv_as Hrun vs_j t Hj. apply lift_inv in Hj as [-> Hj%getitem_Ok].
  case_bool_decide as Hlen.
  - bind_inv_as Hrun name_i t Hni.
    apply lift_inv in Hni as [-> Hni%getitem_Ok].
    bind_inv_as Hrun name_j t Hnj.
    apply lift_inv in Hnj as [-> Hnj%getitem_Ok].
    bind_inv_as Hrun u t Hwarn. rewrite emit_run in Hwarn.
    injection Hwarn as <- _.
    bind_inv_as Hrun b t Hdir. injection Hdir as <- <-.
    bind_inv_as Hrun u' t Hmk.
    assert (∃ mk, t = (tr1 ++ [LogWarning
              (MsgDuplicateVS (length (Np.intersect1d vs_i vs_j))
                 name_i name_j)]) ++ mk)
      as [mk ->].
    { unfold when in Hmk. destruct (negb _).
      - rewrite emit_run in Hmk. injection Hmk as <- _. eauto.
      - apply mret_inv in Hmk as [-> _]. exists []. by rewrite app_nil_r. }
    bind_inv_as Hrun dups t Hdups.
    apply lift_inv in Hdups as [-> ->%sft_getitem_Ok].
    unfold save_tractogram in Hrun. rewrite emit_run in Hrun.
    injection Hrun as <-.
    split.
    + rewrite <- !(assoc_L (++)). by eexists.
    + intros vs_i' vs_j' name_i' name_j' ? ? ? ? dup Hdup. simplify_eq.
      rewrite !elem_of_app, !list_elem_of_singleton. auto.
  - apply mret_inv in Hrun as [-> _]. split; [done|].
    intros vs_i' vs_j' name_i' name_j' ? ? ? ? dup Hdup. simplify_eq.
    destruct Hlen. unfold dup in *.
    destruct (Np.intersect1d vs_i vs_j); [done|simpl; lia].
Qed.

Lemma duplicates_loops_inv vs names args nb tr tr' :
  for_ (range 0 nb) (λ i,
    for_ (range (i + 1) nb) (λ j, check_duplicates vs names args i j)) tr
  = (tr', Ok ()) →
  tr `prefix_of` tr'
  ∧ ∀ i j, i < j < nb → duplicates_reported vs names args i j tr'.
Proof.
  intros Hrun.
  apply (for__inv (λ d t, tr `prefix_of` t
           ∧ ∀ i j, i ∈ d → i < j < nb →
               duplicates_reported vs names args i j t)) in Hrun.
  - destruct Hrun as [Hpre Hall]. split; [done|].
    intros i j Hij. apply Hall; [|done]. apply elem_of_range. lia.
  - split; [done|]. by intros i j ?%elem_of_nil.
  - intros d i rest tr1 tr2 Hsplit [Hpre Hall] Hinner.
    apply range_split in Hsplit as [-> Hlt].
    apply (for__inv (λ d' t, tr1 `prefix_of` t
             ∧ ∀ j, j ∈ d' →
                 duplicates_reported vs names args (0 + length d) j t))
      in Hinner.
    + destruct Hinner as [Hpre' Hall']. split; [by etrans|].
      intros i j [Hi|Hi%list_elem_of_singleton]%elem_of_app Hij.
      * eapply duplicates_reported_mono; [done|]. by apply Hall.
      * subst i. apply Hall'. apply elem_of_range. lia.
    + split; [done|]. by intros j ?%elem_of_nil.
    + intros d' j rest' t1 t2 Hsplit' [Hpre' Hall'] Hbody.
      apply check_duplicates_inv in Hbody as [Hstep Hrep].
      split; [by etrans|].
      intros j' [Hj'|Hj'%list_elem_of_singleton]%elem_of_app.
      * eapply duplicates_reported_mono; [done|]. by apply Hall'.
      * by subst j'.
Qed.

End Duplicates.

Section Extraction.
Context `{Collaborators}.
Variables (gt_tails gt_heads bundle_names : list string).
Variables (lengths angles : list (option value)).
Variables (orientation_lengths : list (option (list value))).
Variables (limits_inv_masks : list (option Mask)).
Variables (args : Args) (ext : string).

#[local] Abbreviation vs_kept :=
  (vs_reported gt_tails gt_heads bundle_names lengths angles
     orientation_lengths limits_inv_masks args ext).

Lemma vs_reported_mono vb vb' i vs_i tr1 tr2 :
  tr1 `prefix_of` tr2 → vb `prefix_of` vb' →
  vs_kept vb i vs_i tr1 → vs_kept vb' i vs_i tr2.
Proof.
  intros [k ->] [k' ->] (Hvb & Hex & name & Hname & Hsave).
  split_and!; [by apply lookup_app_l_Some|done|].
  exists name. split; [done|]. intros Hne. apply elem_of_app. auto.
Qed.

Lemma extract_bundle_inv vb vs wpc stats i tr1 tr2 acc :
  extract_bundle gt_tails gt_heads bundle_names lengths angles
    orientation_lengths limits_inv_masks args ext (vb, vs, wpc, stats) i tr1
  = (tr2, Ok acc) →
  length vb = i →
  tr1 `prefix_of` tr2
  ∧ ∃ vs_i wpc_i stats_i,
      acc = (vb ++ [make_sft_from_ids vs_i], vs ++ [vs_i], wpc ++ [wpc_i],
             stats ++ [stats_i])
      ∧ vs_kept (vb ++ [make_sft_from_ids vs_i]) i vs_i tr2.
Proof.
  unfold extract_bundle. intros Hrun Hlen.
  bind_inv_as Hrun head t Hh. apply lift_inv in Hh as [-> Hh%getitem_Ok].
  bind_inv_as Hrun tail t Ht. apply lift_inv in Ht as [-> Ht%getitem_Ok].
  bind_inv_as Hrun len t Hl. apply lift_inv in Hl as [-> Hl%getitem_Ok].
  bind_inv_as Hrun ang t Ha. apply lift_inv in Ha as [-> Ha%getitem_Ok].
  bind_inv_as Hrun ori t Ho. apply lift_inv in Ho as [-> Ho%getitem_Ok].
  bind_inv_as Hrun lim t Hm. apply lift_inv in Hm as [-> Hm%getitem_Ok].
  destruct (extract_vb_vs _ _ _ _ _ _ _ _) as [[vs_i wpc_i] stats_i] eqn:Hex.
  bind_inv_as Hrun name t Hn. apply lift_inv in Hn as [-> Hn%getitem_Ok].
  bind_inv_as Hrun u t Hsave.
  bind_inv_as Hrun nb t' Hnb. apply lift_inv in Hnb as [-> Hnb].
  bind_inv_as Hrun u' t' Hlog. rewrite emit_run in Hlog.
  injection Hlog as <- _. apply mret_inv in Hrun as [-> ->].
  assert (tr1 `prefix_of` t
          ∧ (0 < length vs_i ∨ no_empty args = false →
             SaveTractogram (make_sft_from_ids vs_i)
               (Py.path_join (out_dir args)
                  ("segmented_VB/" +:+ name +:+ "_VS" +:+ ext))
               false ∈ t)) as [Hpre Hsaved].
  { unfold when, save_tractogram, len_sft in Hsave. simpl in Hsave.
    destruct (bool_decide (0 < length vs_i) || negb (no_empty args))
      eqn:Hcond.
    - rewrite emit_run in Hsave. injection Hsave as <- _.
      split; [by eexists|]. intros _. apply elem_of_app. right.
      by apply list_elem_of_singleton.
    - apply mret_inv in Hsave as [-> _]. split; [done|].
      apply orb_false_iff in Hcond as [Hz Hne].
      apply bool_decide_eq_false in Hz. apply negb_false_iff in Hne.
      intros [?|?]; [done|congruence]. }
  split; [etrans; [done|by eexists]|].
  exists vs_i, wpc_i, stats_i. split; [done|].
  split_and!.
  - rewrite <- Hlen. by rewrite list_lookup_middle.
  - exists head, tail, len, ang, ori, lim. by rewrite Hex.
  - exists name. split; [done|]. intros Hne. apply elem_of_app. auto.
Qed.

Lemma extraction_loop_inv tr tr' vb vs wpc stats :
  for_acc (range 0 (length bundle_names))
    (extract_bundle gt_tails gt_heads bundle_names lengths angles
       orientation_lengths limits_inv_masks args ext)
    ([], [], [], []) tr
  = (tr', Ok (vb, vs, wpc, stats)) →
  tr `prefix_of` tr'
  ∧ length vs = length bundle_names
  ∧ ∀ i vs_i, vs !! i = Some vs_i → vs_kept vb i vs_i tr'.
Proof.
  intros Hrun.
  apply (for_acc_inv (λ d '(vb, vs, wpc, stats) t,
           tr `prefix_of` t ∧ length vs = length d ∧ length vb = length d
           ∧ ∀ i vs_i, vs !! i = Some vs_i → vs_kept vb i vs_i t))
    in Hrun.
  - destruct Hrun as (Hpre & Hlen & _ & Hall). split_and!; [done| |done].
    unfold range in Hlen. rewrite length_seq in Hlen. lia.
  - split_and!; [done..|]. intros i vs_i Hi. by rewrite lookup_nil in Hi.
  - intros d i rest [[[vb1 vs1] wpc1] stats1] tr1 acc2 tr2 Hsplit
      (Hpre & Hvs & Hvb & Hall) Hbody.
    apply range_split in Hsplit as [-> _].
    apply extract_bundle_inv in Hbody as (Hstep & vs_i & wpc_i & stats_i
                                          & -> & Hrep); [|done].
    split_and!.
    + by etrans.
    + rewrite !length_app. simpl. lia.
    + rewrite !length_app. simpl. lia.
    + intros j vs_j Hj.
      apply lookup_app_Some in Hj as [Hj|[Hge Hj]].
      * eapply vs_reported_mono; [done|by eexists|]. by apply Hall.
      * rewrite Hvs in Hge, Hj.
        destruct (j - length d) as [|k] eqn:Hk; [|by destruct k].
        injection Hj as <-. by replace j with (0 + length d) by lia.
Qed.

End Extraction.

Section DuplicatesTheorem.
Context `{Collaborators}.

Lemma NoDup_intersect1d a b : NoDup (Np.intersect1d a b).
Proof. apply NoDup_list_intersection, NoDup_unique. Qed.

Lemma intersect1d_singleton a b x :
  (∀ y, y ∈ a ∧ y ∈ b ↔ y = x) → Np.intersect1d a b = [x].
Proof.
  intros Hx. pose proof (NoDup_intersect1d a b) as Hnd.
  assert (∀ y, y ∈ Np.intersect1d a b ↔ y = x) as Hin.
  { intros y. by rewrite elem_of_intersect1d. }
  destruct (Np.intersect1d a b) as [|y [|z l]].
  - specialize (Hin x). rewrite elem_of_nil in Hin. tauto.
  - f_equal. apply Hin. by left.
  - exfalso. apply NoDup_cons in Hnd as [Hy _]. apply Hy.
    assert (y = x) as -> by (apply Hin; by left).
    assert (z = x) as -> by (apply Hin; right; by left).
    by left.
Qed.

(** C6. When [compute_vb_vs_all_bundles] returns, the VS id lists it
    returns are those that [extract_vb_vs] gave, one per bundle, with their
    sub-collections kept and saved; and for every two bundles [i < j] whose
    VS lists have a non-empty intersection, the run has logged a warning
    with the number of duplicates and both names, and has saved the
    duplicates in a file of their own below [segmented_conflicts].  The
    duplicates are the ids in both lists: when one streamline alone is valid
    for both bundles, the file holds exactly that streamline. *)
Theorem duplicate_vs_are_warned_saved_and_kept
    gt_tails gt_heads bundle_names lengths angles orientation_lengths
    limits_inv_masks args ext tr tr' vb_sft_list vs_ids_list wpc_ids_list
    bundles_stats :
  compute_vb_vs_all_bundles gt_tails gt_heads bundle_names lengths angles
    orientation_lengths limits_inv_masks args ext tr
  = (tr', Ok (vb_sft_list, vs_ids_list, wpc_ids_list, bundles_stats)) →
  length vs_ids_list = length bundle_names
  ∧ (∀ i vs_i,
       vs_ids_list !! i = Some vs_i →
       vs_reported gt_tails gt_heads bundle_names lengths angles
         orientation_lengths limits_inv_masks args ext vb_sft_list i vs_i tr')
  ∧ ∀ i j vs_i vs_j name_i name_j,
      i < j →
      vs_ids_list !! i = Some vs_i → vs_ids_list !! j = Some vs_j →
      bundle_names !! i = Some name_i → bundle_names !! j = Some name_j →
      let duplicate_ids := Np.intersect1d vs_i vs_j in
      (∀ x, x ∈ duplicate_ids ↔ x ∈ vs_i ∧ x ∈ vs_j)
      ∧ (∀ x, (∀ y, y ∈ vs_i ∧ y ∈ vs_j ↔ y = x) → duplicate_ids = [x])
      ∧ (duplicate_ids ≠ [] →
         LogWarning (MsgDuplicateVS (length duplicate_ids) name_i name_j)
           ∈ tr'
         ∧ SaveTractogram {| streamlines := duplicate_ids |}
             (Py.path_join
                (Py.path_join (out_dir args) "segmented_conflicts")
                ("duplicates_" +:+ name_i +:+ "_" +:+ name_j +:+ ".trk"))
             true ∈ tr').
Proof.
  unfold compute_vb_vs_all_bundles. intros Hrun.
  bind_inv_as Hrun r tr1 Hloop. destruct r as [[[vb vs] wpc] stats].
  bind_inv_as Hrun u tr2 Hdup. destruct u.
  apply mret_inv in Hrun as [-> [= <- <- <- <-]].
  apply extraction_loop_inv in Hloop as (Hpre1 & Hlen & Hrep).
  simpl in Hdup. apply duplicates_loops_inv in Hdup as [Hpre2 Hdups].
  split_and!.
  - done.
  - intros i vs_i Hi. eapply vs_reported_mono; [done|done|]. by apply Hrep.
  - intros i j vs_i vs_j name_i name_j Hij Hi Hj Hni Hnj. cbv zeta.
    split_and!.
    + intros x. apply elem_of_intersect1d.
    + apply intersect1d_singleton.
    + apply (Hdups i j); [|done..].
      apply lookup_lt_Some in Hj. lia.
Qed.

End DuplicatesTheorem.

Section DuplicatesRun.
Import Scenario.

(** C6, witness: in [overlap_world] streamline 1 is valid for the bundles
    [A] and [B]; the run warns about one duplicate and saves streamline 1
    alone in [duplicates_A_B.trk], and both bundles keep it. *)
Lemma overlap_run_reports_duplicate :
  let r := @compute_vb_vs_all_bundles _ (collaborators overlap_world)
             ["A_tail"; "B_tail"] ["A_head"; "B_head"] ["A"; "B"]
             [None; None] [None; None] [None; None] [None; None]
             default_args ".trk" [] in
  (snd <$> (fst <$> (fst <$> r.2))) = Ok [[0; 1]; [1]]
  ∧ Np.intersect1d [0; 1] [1] = [1]
  ∧ LogWarning (MsgDuplicateVS 1 "A" "B") ∈ r.1
  ∧ SaveTractogram {| streamlines := [1] |}
      "out/segmented_conflicts/duplicates_A_B.trk" true ∈ r.1.
Proof.
  intros r.
  destruct r as [tr' [[[[vb vs] wpc] stats]|e]] eqn:Hrun;
    [|by vm_compute in Hrun].
  pose proof (@duplicate_vs_are_warned_saved_and_kept _
                (collaborators overlap_world) _ _ _ _ _ _ _ _ _ _ _ _ _ _ _
                Hrun) as (_ & _ & Hdup).
  assert (vs = [[0; 1]; [1]]) as ->.
  { vm_compute in Hrun. by injection Hrun as _ _ <- _ _. }
  destruct (Hdup 0 1 [0; 1] [1] "A" "B") as (_ & Hone & Hev);
    [lia|done..|].
  simpl. split_and!; [done|by vm_compute| |].
  - apply Hev. by vm_compute.
  - apply Hev. by vm_compute.
Defined.

End DuplicatesRun.


(** ** The remainder and the WPC ids *)

Section Residual.
Context `{Collaborators}.

Lemma wpc_phase_ids l args wpc vs stats tr tr' wpc_sft wpc' stats' :
  wpc_phase l args wpc vs stats tr = (tr', Ok (wpc_sft, wpc', stats')) →
  wpc' = if save_wpc_separately args then wpc else [].
Proof.
  unfold wpc_phase. destruct (save_wpc_separately args).
  - intros Hrun. bind_inv_as Hrun u t Hlog.
    bind_inv_as Hrun r t' Hsave. destruct r as [sfts stats1].
    by apply mret_inv in Hrun as [_ [= _ -> _]].
  - by intros [_ [= _ -> _]]%mret_inv.
Qed.

(** C3, as amended. The remainder is the id range less the VS union and the
    IC union, and less the WPC ids of the bundles only when
    [--save_wpc_separately] is set: without the option the [# WPC] step
    empties the list of WPC ids, and a WPC id that is neither VS nor IC
    stays in the remainder. *)
Theorem residual_excludes_wpc_only_when_saved
    l args wpc vs stats tr tr' wpc_sft wpc' stats' ic :
  wpc_phase l args wpc vs stats tr = (tr', Ok (wpc_sft, wpc', stats')) →
  let f := final_ids vs wpc' ic in
  (save_wpc_separately args = true →
   all_nc_ids f = residual_of_spec vs wpc ic)
  ∧ (save_wpc_separately args = false →
     all_nc_ids f = residual_of_spec vs [] ic ∧ all_wpc_ids f = [])
  ∧ ∀ i, i ∈ all_nc_ids f ↔
      i < total_streamlines ∧ (i ∉ Py.chain vs)
      ∧ (save_wpc_separately args = true → i ∉ Py.chain wpc)
      ∧ (i ∉ Py.chain ic).
Proof.
  intros ->%wpc_phase_ids f. unfold f. split_and!.
  - by intros ->.
  - by intros ->.
  - intros i. rewrite elem_of_all_nc_ids.
    destruct (save_wpc_separately args); simpl.
    + naive_solver.
    + rewrite elem_of_nil. naive_solver.
Qed.

End Residual.

Section ResidualRuns.
Import Scenario.

(** C3, counterexample. Without [--save_wpc_separately], in
    [overlap_world]: bundle [B] has the WPC ids 0 and 2, the run ends with
    the remainder {2, 3}, and the remainder of the claim would be {3}. *)
Lemma wpc_id_stays_in_remainder :
  ids_extracted overlap_world default_args overlap_config
  = Ok ([[0; 1]; [1]], [[]; [0; 2]])
  ∧ all_nc_ids <$> ids_of_run overlap_world default_args overlap_config
    = Ok [2; 3]
  ∧ @residual_of_spec _ (collaborators overlap_world)
      [[0; 1]; [1]] [[]; [0; 2]] []
    = [3].
Proof. by vm_compute. Qed.

(** C3, witness: the [# WPC] step of [overlap_world] with the option. *)
Lemma residual_with_option :
  let f := @final_ids _ (collaborators overlap_world)
             [[0; 1]; [1]] [[]; [0; 2]] [] in
  (true = true →
   all_nc_ids f
   = @residual_of_spec _ (collaborators overlap_world)
       [[0; 1]; [1]] [[]; [0; 2]] [])
  ∧ (true = false →
     all_nc_ids f
     = @residual_of_spec _ (collaborators overlap_world) [[0; 1]; [1]] [] []
     ∧ all_wpc_ids f = [])
  ∧ ∀ i, i ∈ all_nc_ids f ↔
      i < 4 ∧ (i ∉ Py.chain [[0; 1]; [1]])
      ∧ (true = true → i ∉ Py.chain [[]; [0; 2]])
      ∧ (i ∉ Py.chain (@nil Np.ids)).
Proof.
  eapply (@residual_excludes_wpc_only_when_saved _
            (collaborators overlap_world)
            {| gt_tails := ["A_tail"; "B_tail"];
               gt_heads := ["A_head"; "B_head"];
               bundle_names := ["A"; "B"];
               all_rois := []; ld_lengths := []; ld_angles := [];
               ld_orientation_lengths := []; limits_inv_masks := [];
               gt_masks := []; dimensions := []; ext := ".trk" |}
            wpc_args [[]; [0; 2]] [[0; 1]; [1]]
            [[("VS", VInt 2)]; [("VS", VInt 1)]] [] _ _ [[]; [0; 2]] _ []).
  vm_compute. reflexivity.
Defined.

End ResidualRuns.

(** ** [read_config_file] *)

Section ConfigFacts.
Context `{PyFloat}.
Implicit Types (d : dict) (key : string).

Lemma contains_lookup {V} key (d : list (string * V)) :
  contains key d = true ↔ ∃ v, lookup_key key d = Some v.
Proof.
  unfold contains. rewrite bool_decide_eq_true.
  induction d as [|[k v] d IH]; simpl.
  - rewrite elem_of_nil. naive_solver.
  - rewrite elem_of_cons, IH. case_decide; naive_solver.
Qed.

Lemma contains_elem_of {V} key (d : list (string * V)) :
  contains key d = true ↔ key ∈ d.*1.
Proof. unfold contains. apply bool_decide_eq_true. Qed.

Lemma dict_get_contains {V} key (d : list (string * V)) :
  contains key d = true → ∃ v, dict_get d key = Ok v ∧ lookup_key key d = Some v.
Proof.
  intros [v Hv]%contains_lookup. exists v. unfold dict_get. by rewrite Hv.
Qed.

Lemma well_typed_path d key v :
  well_typed d = true → key ∈ path_keys → lookup_key key d = Some v →
  ∃ s, v = VStr s.
Proof.
  unfold well_typed. rewrite forallb_forall. intros Hall Hkey Hv.
  apply list_elem_of_In, Hall in Hkey. rewrite Hv in Hkey.
  destruct v; try done. eauto.
Qed.

(** A path key of a well-typed dict is read and joined without error. *)
Lemma join_path_key d key dir :
  well_typed d = true → key ∈ path_keys → contains key d = true →
  ∃ s, dict_get d key = Ok (VStr s)
       ∧ os_path_join dir (VStr s) = Ok (Py.path_join dir s).
Proof.
  intros Hwt Hkey (v & Hget & Hv)%dict_get_contains.
  destruct (well_typed_path _ _ _ Hwt Hkey Hv) as [s ->]. eauto.
Qed.

End ConfigFacts.
Section ReadKey.
Context `{PyFloat}.

Lemma key_error_iff args (d : dict) key :
  key_error args d key = true ↔
  (key = "limits_mask" ∧ use_gt_masks_as_limits_masks args = true)
  ∨ (key = "endpoints"
     ∧ (contains "head" d = true ∨ contains "tail" d = true))
  ∨ (key = "head" ∧ contains "tail" d = false)
  ∨ key ∉ known_keys.
Proof.
  unfold key_error.
  rewrite !orb_true_iff, !andb_true_iff, !orb_true_iff, negb_true_iff,
    !bool_decide_eq_true.
  tauto.
Qed.

Ltac known_key :=
  unfold known_keys, path_keys; simpl; repeat constructor.

(** A turn of the key loop that does not raise. *)
Ltac key_passes :=
  split;
  [intros [[? ?]|[[? ?]|[[? ?]|Hk]]];
   [first [done|congruence|intuition congruence]..|exfalso; apply Hk; known_key]
  |done].

(** One turn of the loop over the keys of a well-typed dict raises a
    [ValueError] at the keys of [key_error], and passes at the others. *)
Lemma read_key_outcome args bundle (d : dict) v key :
  well_typed d = true → contains key d = true →
  (key_error args d key = true →
   ∃ msg, read_key args bundle d v key = Raise (ValueError msg))
  ∧ (key_error args d key = false →
     is_ok (read_key args bundle d v key) = true).
Proof.
  intros Hwt Hin. rewrite <- not_true_iff_false, key_error_iff.
  unfold read_key.
  repeat case_decide; subst.
  1-5: destruct (dict_get_contains _ _ Hin) as (x & -> & _); simpl;
       key_passes.
  - destruct (join_path_key d "gt_mask" (gt_masks_dir args) Hwt) as (s & -> & Hj);
      [known_key|done|]. simpl. key_passes.
  - destruct (use_gt_masks_as_limits_masks args).
    + split; [eauto|]. intros Hno. destruct Hno. auto.
    + destruct (join_path_key d "limits_mask" (limits_masks_dir args) Hwt)
        as (s & -> & Hj); [known_key|done|]. simpl.
      key_passes.
  - destruct (contains "head" d || contains "tail" d) eqn:Hht.
    + split; [eauto|]. intros Hno. destruct Hno.
      apply orb_true_iff in Hht. auto.
    + apply orb_false_iff in Hht as [Hh Ht].
      destruct (join_path_key d "endpoints" (rois_dir args) Hwt)
        as (s & -> & Hj); [known_key|done|]. simpl.
      key_passes.
  - destruct (contains "tail" d) eqn:Ht; simpl.
    + destruct (join_path_key d "head" (rois_dir args) Hwt)
        as (s & -> & Hj); [known_key|done|].
      destruct (join_path_key d "tail" (rois_dir args) Hwt)
        as (s' & -> & Hj'); [known_key|done|].
      simpl. key_passes.
    + split; [eauto|]. intros Hno. destruct Hno. auto.
  - key_passes.
  - split; [eauto|]. intros Hno. destruct Hno. do 3 right.
    unfold known_keys, path_keys. simpl. rewrite !not_elem_of_cons.
    split_and!; try done. apply not_elem_of_nil.
Qed.

End ReadKey.

Section ReadConfig.
Context `{PyFloat}.

Lemma rfold_keys_outcome args bundle (d : dict) keys v :
  well_typed d = true → Forall (λ key, contains key d = true) keys →
  (existsb (key_error args d) keys = true →
   ∃ msg, rfold keys (read_key args bundle d) v = Raise (ValueError msg))
  ∧ (existsb (key_error args d) keys = false →
     is_ok (rfold keys (read_key args bundle d) v) = true).
Proof.
  intros Hwt Hkeys. revert v.
  induction Hkeys as [|key keys Hkey Hkeys IH]; intros v; simpl.
  - split; [done|done].
  - destruct (read_key_outcome args bundle d v key Hwt Hkey) as [Hbad Hgood].
    destruct (key_error args d key); simpl.
    + destruct Hbad as [msg ->]; [done|]. simpl. split; [eauto|done].
    + specialize (Hgood eq_refl).
      destruct (read_key args bundle d v key) as [v'|e]; [|done]. simpl.
      apply IH.
Qed.

Lemma existsb_key_error args (d : dict) :
  existsb (key_error args d) d.*1
  = (contains "limits_mask" d && use_gt_masks_as_limits_masks args)
    || (contains "endpoints" d && (contains "head" d || contains "tail" d))
    || (contains "head" d && negb (contains "tail" d))
    || existsb (λ key, bool_decide (key ∉ known_keys)) d.*1.
Proof.
  apply eq_true_iff_eq.
  rewrite !orb_true_iff, !andb_true_iff, !orb_true_iff, negb_true_iff,
    !existsb_exists, !contains_elem_of.
  setoid_rewrite key_error_iff. setoid_rewrite bool_decide_eq_true.
  setoid_rewrite <- list_elem_of_In.
  split.
  - intros (key & Hkey & [[-> ?]|[[-> ?]|[[-> ?]|?]]]); eauto 10.
  - intros [[[[? ?]|[? ?]]|[? ?]]|(key & ? & ?)]; eauto 10.
Qed.

(** The loop over the keys raises for the errors that the specification
    lists, the missing endpoints apart, which are tested before the loop. *)
Lemma config_error_split args (d : dict) :
  config_error args d
  = (negb (contains "endpoints" d) && negb (contains "head" d))
    || existsb (key_error args d) d.*1.
Proof.
  rewrite existsb_key_error. unfold config_error.
  destruct (contains "endpoints" d), (contains "head" d),
    (contains "tail" d), (contains "limits_mask" d),
    (use_gt_masks_as_limits_masks args),
    (existsb (λ key, bool_decide (key ∉ known_keys)) d.*1); done.
Qed.

Lemma read_bundle_outcome args bundle (d : dict) tr :
  well_typed d = true →
  ∃ warnings r,
    read_bundle args bundle d tr = (tr ++ warnings, r)
    ∧ forallb is_gt_mask_warning warnings = true
    ∧ (config_error args d = true → ∃ msg, r = Raise (ValueError msg))
    ∧ (config_error args d = false → is_ok r = true).
Proof.
  intros Hwt. rewrite config_error_split. unfold read_bundle.
  assert (Forall (λ key, contains key d = true) d.*1) as Hkeys.
  { apply Forall_forall. intros key. by rewrite contains_elem_of. }
  destruct (rfold_keys_outcome args bundle d d.*1 no_vars Hwt Hkeys)
    as [Hbad Hgood].
  set (ws := if negb (contains "gt_mask" d)
             then [LogWarning (MsgNoGtMask bundle)] else []).
  exists ws.
  assert (forallb is_gt_mask_warning ws = true) as Hws
    by (unfold ws; by destruct (negb _)).
  assert (∀ (k : M BundleVars),
            ((if negb (contains "gt_mask" d)
              then emit (LogWarning (MsgNoGtMask bundle)) else mret ());; k) tr
            = k (tr ++ ws)) as Hstep.
  { intros k. unfold ws. destruct (negb _).
    - exact (bind_ok _ (λ _, k) _ _ () (emit_run _ _)).
    - rewrite app_nil_r. exact (bind_ok _ (λ _, k) _ _ () eq_refl). }
  rewrite Hstep.
  destruct (negb (contains "endpoints" d) && negb (contains "head" d)); simpl.
  - eexists. split_and!; [done|done|eauto|done].
  - eexists. split_and!; [done|done|apply Hbad|apply Hgood].
Qed.

End ReadConfig.

Section ReadConfigTheorem.
Context `{PyFloat}.

Lemma lookup_key_elem_of {V} key (d : list (string * V)) v :
  lookup_key key d = Some v → (key, v) ∈ d.
Proof.
  induction d as [|[k w] d IH]; simpl; [done|].
  case_decide; [intros [= ->]; subst; by left|].
  intros Hv. right. auto.
Qed.

(** The loop over the bundles: it logs the [gt_mask] warnings, and raises
    at the first bundle with a configuration error. *)
Lemma read_bundles_outcome args (config : list (string * dict)) names c tr :
  forallb (λ bd, well_typed bd.2) config = true →
  Forall (λ bundle, contains bundle config = true) names →
  let bad bundle :=
    match lookup_key bundle config with
    | Some bundle_config => config_error args bundle_config
    | None => false
    end in
  ∃ warnings r,
    for_acc names
      (λ c bundle,
         bundle_config ← lift (dict_get config bundle);
         v ← read_bundle args bundle bundle_config;
         mret (append_bundle c v)) c tr
    = (tr ++ warnings, r)
    ∧ forallb is_gt_mask_warning warnings = true
    ∧ (existsb bad names = true → ∃ msg, r = Raise (ValueError msg))
    ∧ (existsb bad names = false →
       ∃ c', r = Ok c' ∧ bundles c' = bundles c).
Proof.
  intros Hwt Hnames bad. revert c tr.
  induction Hnames as [|bundle names Hin Hnames IH]; intros c tr.
  - exists [], (Ok c). rewrite app_nil_r. split_and!; [done|done|done|eauto].
  - destruct (dict_get_contains _ _ Hin) as (d & Hget & Hd).
    assert (well_typed d = true) as Hwtd.
    { rewrite forallb_forall in Hwt.
      apply (Hwt (bundle, d)), list_elem_of_In. by apply lookup_key_elem_of. }
    destruct (read_bundle_outcome args bundle d tr Hwtd)
      as (ws & r & Hrun & Hws & Hbad & Hgood).
    cbn [for_acc existsb]. unfold bad at 1 3. rewrite Hd.
    unfold mbind at 1. unfold M_bind. unfold mbind at 1. unfold M_bind.
    unfold lift at 1. rewrite Hget. unfold mbind at 1. unfold M_bind.
    rewrite Hrun.
    destruct (config_error args d); simpl.
    + destruct Hbad as [msg ->]; [done|].
      exists ws. eexists. split_and!; [done|done|eauto|done].
    + specialize (Hgood eq_refl). destruct r as [v|e]; [|done].
      destruct (IH (append_bundle c v) (tr ++ ws))
        as (ws' & r' & Hrun' & Hws' & Hbad' & Hgood').
      exists (ws ++ ws'), r'. split_and!.
      * rewrite (assoc_L (++)). rewrite <- Hrun'. done.
      * rewrite forallb_app. by rewrite Hws, Hws'.
      * done.
      * done.
Qed.


End ReadConfigTheorem.

Section ReadConfigRuns.
Import Scenario.


End ReadConfigRuns.

(** ** [compute_tractometry]: divisions *)

Section Tractometry.
Context `{Collaborators}.

Lemma truediv_zero a : truediv a 0 = Raise ZeroDivisionError.
Proof. done. Qed.

Lemma truediv_nonzero a b : b ≠ 0%Z → truediv a b = Ok (int_div_int a b).
Proof. intros. unfold truediv. by rewrite decide_False. Qed.

Lemma getitem_lookup {A} (l : list A) i x :
  l !! i = Some x → Py.getitem l i = Ok x.
Proof. by intros ?%getitem_Ok. Qed.

Lemma volume_metrics_outcome wpc_sft_list args gt vb_voxels vb_endpoints
    vb_results i :
  (save_wpc_separately args = true → is_Some (wpc_sft_list !! i)) →
  (count_nonzero gt = 0%Z →
   volume_metrics wpc_sft_list args gt vb_voxels vb_endpoints vb_results i
   = Raise ZeroDivisionError)
  ∧ (count_nonzero gt ≠ 0%Z →
     ∃ dice ol or lacking ol_pct or_pct e_ol e_or wpc_results,
       volume_metrics wpc_sft_list args gt vb_voxels vb_endpoints
         vb_results i
       = Ok (dict_update vb_results
               [("dice", dice); ("OL", ol); ("OR", or); ("lacking", lacking);
                ("OL_PCT", VFloat ol_pct); ("OR_PCT", VFloat or_pct);
                ("endpoints_OL", e_ol); ("endpoints_OR", e_or)],
             wpc_results)).
Proof.
  intros Hwpc. unfold volume_metrics. split.
  - intros ->. by rewrite truediv_zero.
  - intros Hnz. rewrite !truediv_nonzero by done. simpl.
    destruct (save_wpc_separately args).
    + destruct Hwpc as [w Hw]; [done|].
      rewrite (getitem_lookup _ _ _ Hw). simpl.
      rewrite !truediv_nonzero by done. simpl. eauto 12.
    + eauto 12.
Qed.

(** One bundle of the loop: without ground-truth mask the look-up of
    ["OL_PCT"] raises; with a mask, the division by its number of voxels
    decides. *)
Lemma bundle_tractometry_outcome vb_sft_list wpc_sft_list args names
    gt_masks acc i g :
  is_Some (vb_sft_list !! i) → is_Some (names !! i) →
  (save_wpc_separately args = true → is_Some (wpc_sft_list !! i)) →
  gt_masks !! i = Some g →
  match g with
  | None =>
      bundle_tractometry vb_sft_list wpc_sft_list args names gt_masks acc i
      = Raise (KeyError "OL_PCT")
  | Some gt =>
      (count_nonzero gt = 0%Z →
       bundle_tractometry vb_sft_list wpc_sft_list args names gt_masks acc i
       = Raise ZeroDivisionError)
      ∧ (count_nonzero gt ≠ 0%Z →
         is_ok (bundle_tractometry vb_sft_list wpc_sft_list args names
                  gt_masks acc i) = true)
  end.
Proof.
  intros [vb Hvb] [name Hname] Hwpc Hg. unfold bundle_tractometry.
  destruct acc as [[mean_overlap mean_overreach] bundle_wise_dict].
  rewrite (getitem_lookup _ _ _ Hvb). simpl.
  destruct (get_binary_maps (streamlines vb)) as [vox ends].
  rewrite (getitem_lookup _ _ _ Hg). simpl.
  destruct g as [gt|]; [|done].
  destruct (volume_metrics_outcome wpc_sft_list args gt vox ends
              [("VS", int_of_nat (length (streamlines vb)))] i Hwpc)
    as [Hzero Hnz].
  split.
  - intros Hz. by rewrite (Hzero Hz).
  - intros Hz.
    destruct (Hnz Hz) as (d & ol & or & la & olp & orp & eol & eor & w & ->).
    simpl. rewrite (getitem_lookup _ _ _ Hname). done.
Qed.

Lemma bundles_loop_outcome vb_sft_list wpc_sft_list args names gt_masks :
  length vb_sft_list = length gt_masks →
  length names = length gt_masks →
  (save_wpc_separately args = true →
   length wpc_sft_list = length gt_masks) →
  ∀ pre suf acc,
    gt_masks = pre ++ suf →
    match mask_failure suf with
    | Some e =>
        rfold (seq (length pre) (length suf))
          (bundle_tractometry vb_sft_list wpc_sft_list args names gt_masks)
          acc
        = Raise e
    | None =>
        is_ok (rfold (seq (length pre) (length suf))
                 (bundle_tractometry vb_sft_list wpc_sft_list args names
                    gt_masks) acc) = true
    end.
Proof.
  intros Hvb Hnames Hwpc pre suf. revert pre.
  induction suf as [|g suf IH]; intros pre acc Heq; [done|].
  assert (gt_masks !! length pre = Some g) as Hg
    by (rewrite Heq; apply list_lookup_middle; done).
  pose proof (lookup_lt_Some _ _ _ Hg) as Hlt.
  assert (match g with
          | None =>
              bundle_tractometry vb_sft_list wpc_sft_list args names
                gt_masks acc (length pre)
              = Raise (KeyError "OL_PCT")
          | Some gt =>
              (count_nonzero gt = 0%Z →
               bundle_tractometry vb_sft_list wpc_sft_list args names
                 gt_masks acc (length pre)
               = Raise ZeroDivisionError)
              ∧ (count_nonzero gt ≠ 0%Z →
                 is_ok (bundle_tractometry vb_sft_list wpc_sft_list args
                          names gt_masks acc (length pre)) = true)
          end) as Hout.
  { apply bundle_tractometry_outcome; [| |intros Hs|done].
    - apply lookup_lt_is_Some. lia.
    - apply lookup_lt_is_Some. lia.
    - apply lookup_lt_is_Some. rewrite Hwpc by done. lia. }
  cbn [length seq rfold mask_failure].
  destruct g as [gt|].
  - destruct Hout as [Hzero Hnz]. case_decide as Hz.
    + by rewrite (Hzero Hz).
    + specialize (Hnz Hz).
      destruct (bundle_tractometry _ _ _ _ _ _ _) as [acc'|e]; [|done].
      simpl.
      specialize (IH (pre ++ [Some gt]) acc').
      rewrite length_app in IH. simpl in IH.
      rewrite Nat.add_1_r in IH. apply IH.
      by rewrite <- (assoc_L (++)).
  - by rewrite Hout.
Qed.

Lemma pairs_loop_ok ib_sft_list (l : list (nat * (string * string))) acc :
  Forall (λ p, p.1 < length ib_sft_list) l →
  is_ok (rfold l (pair_tractometry ib_sft_list) acc) = true.
Proof.
  intros Hl. revert acc. induction Hl as [|[i f] l Hi Hl IH]; intros acc.
  - done.
  - simpl in *. unfold pair_tractometry at 1.
    destruct (lookup_lt_is_Some_2 _ _ Hi) as [ib Hib].
    rewrite (getitem_lookup _ _ _ Hib). simpl.
    case_bool_decide; apply IH.
Qed.

Lemma truediv_float_zero x : truediv_float x 0 = Raise ZeroDivisionError.
Proof. done. Qed.

(** How [compute_tractometry] ends, on the lists that [main] gives it. *)
Lemma compute_tractometry_outcome
    all_vs all_wpc all_ic all_nc vs_ids_list wpc_ids_list ic_ids_list
    vb_sft_list wpc_sft_list ib_sft_list args names gt_masks dimensions
    comb_filename :
  length vb_sft_list = length gt_masks →
  length names = length gt_masks →
  (save_wpc_separately args = true →
   length wpc_sft_list = length gt_masks) →
  (compute_IC args = true →
   ∃ comb, comb_filename = Some comb ∧ length comb ≤ length ib_sft_list) →
  let r := compute_tractometry all_vs all_wpc all_ic all_nc vs_ids_list
             wpc_ids_list ic_ids_list vb_sft_list wpc_sft_list ib_sft_list
             args names gt_masks dimensions comb_filename in
  if decide (total_streamlines = 0) then r = Raise ZeroDivisionError
  else match mask_failure gt_masks with
       | Some e => r = Raise e
       | None =>
           if decide (names = []) then r = Raise ZeroDivisionError
           else is_ok r = true
       end.
Proof.
  intros Hvb Hnames Hwpc Hcomb r. unfold r, compute_tractometry.
  case_decide as Htotal.
  { rewrite Htotal. done. }
  rewrite !truediv_nonzero by lia. simpl.
  pose proof (bundles_loop_outcome vb_sft_list wpc_sft_list args names
                gt_masks Hvb Hnames Hwpc [] gt_masks (f_zero, f_zero, [])
                eq_refl) as Hloop.
  unfold range. rewrite Nat.sub_0_r, Hnames. simpl in Hloop.
  destruct (mask_failure gt_masks) as [e|].
  { by rewrite Hloop. }
  destruct (rfold (seq 0 (length gt_masks)) _ _) as [[[mo mr] bw]|e];
    [|done].
  simpl.
  match goal with
  | |- context [(if compute_IC args then ?a else ?b) ≫= _] =>
      assert (∃ bw', (if compute_IC args then a else b) = Ok bw')
        as [bw' ->]
  end.
  { destruct (compute_IC args); [|eauto].
    destruct Hcomb as (comb & -> & Hlen); [done|]. simpl.
    pose proof (pairs_loop_ok ib_sft_list (zip (seq 0 (length comb)) comb) [])
      as Hok.
    destruct (rfold _ _ _) as [ic|e]; [simpl; eauto|].
    discriminate Hok. apply Forall_forall. intros [i f] Hin. simpl.
    apply elem_of_zip_l, elem_of_seq in Hin. lia. }
  simpl. case_decide as Hnil.
  - subst names. simpl in *. rewrite <- Hnames. done.
  - unfold truediv_float. rewrite <- Hnames.
    rewrite !decide_False; [done|..].
    all: destruct names; [done|simpl; lia].
Qed.

End Tractometry.

Section TractometryTheorems.
Context `{Collaborators}.

Lemma mask_failure_with_masks gt_masks :
  Forall is_Some gt_masks →
  mask_failure gt_masks
  = if existsb blank_mask gt_masks then Some ZeroDivisionError else None.
Proof.
  induction 1 as [|g gt_masks [gt ->] Hall IH]; simpl; [done|].
  case_decide as Hz.
  - by rewrite bool_decide_eq_true_2.
  - by rewrite bool_decide_eq_false_2.
Qed.

(** C2, as amended. On the lists that [main] passes, all bundles having a
    ground-truth mask: [compute_tractometry] returns the report when the
    tractogram has a streamline, there is a bundle, and every mask has a
    voxel; when one of these denominators is zero, the division raises
    [ZeroDivisionError] and there is no report. *)
Theorem ratios_raise_on_zero_denominator
    all_vs all_wpc all_ic all_nc vs_ids_list wpc_ids_list ic_ids_list
    vb_sft_list wpc_sft_list ib_sft_list args names gt_masks dimensions
    comb_filename :
  length vb_sft_list = length gt_masks →
  length names = length gt_masks →
  (save_wpc_separately args = true →
   length wpc_sft_list = length gt_masks) →
  (compute_IC args = true →
   ∃ comb, comb_filename = Some comb ∧ length comb ≤ length ib_sft_list) →
  Forall is_Some gt_masks →
  let r := compute_tractometry all_vs all_wpc all_ic all_nc vs_ids_list
             wpc_ids_list ic_ids_list vb_sft_list wpc_sft_list ib_sft_list
             args names gt_masks dimensions comb_filename in
  let zero_denominator :=
    total_streamlines = 0 ∨ names = []
    ∨ existsb blank_mask gt_masks = true in
  (zero_denominator → r = Raise ZeroDivisionError)
  ∧ (¬ zero_denominator → ∃ report, r = Ok report).
Proof.
  intros Hvb Hnames Hwpc Hcomb Hmasks r zero.
  pose proof (compute_tractometry_outcome all_vs all_wpc all_ic all_nc
                vs_ids_list wpc_ids_list ic_ids_list vb_sft_list
                wpc_sft_list ib_sft_list args names gt_masks dimensions
                comb_filename Hvb Hnames Hwpc Hcomb) as Hout.
  fold r in Hout. simpl in Hout.
  rewrite (mask_failure_with_masks gt_masks Hmasks) in Hout.
  unfold zero. case_decide as Htotal; [tauto|].
  destruct (existsb blank_mask gt_masks); [tauto|].
  case_decide as Hnil; [tauto|].
  split; [intros [?|[?|?]]; done|]. intros _. destruct r; [eauto|done].
Qed.

End TractometryTheorems.

Section TractometryRuns.
Import Scenario.

(** C2, counterexample. A tractogram without streamlines, a ground-truth
    mask without voxels, a configuration without bundles: each run ends
    with [ZeroDivisionError], after [processing_stats.json] and before
    [results.json].  A bundle without streamlines does not stop the run. *)
Lemma zero_denominators_stop_the_run :
  outcome empty_world default_args one_bundle_config = Raise ZeroDivisionError
  ∧ outcome blank_mask_world default_args one_bundle_config
    = Raise ZeroDivisionError
  ∧ outcome overlap_world default_args [] = Raise ZeroDivisionError
  ∧ json_written empty_world default_args one_bundle_config
    = ["out/processing_stats.json"]
  ∧ is_ok (outcome empty_bundle_world default_args one_bundle_config) = true.
Proof. by vm_compute. Qed.

(** C2, witness: one bundle of [overlap_world], whose mask has two voxels. *)
Lemma ratios_of_one_bundle :
  let r := @compute_tractometry _ (collaborators overlap_world)
             [0; 1] [] [] [2; 3] [[0; 1]] [] []
             [{| streamlines := [0; 1] |}] [] [] default_args ["A"]
             [Some [1; 1; 0; 0]%Z] [4] None in
  let zero_denominator :=
    4 = 0 ∨ ["A"] = []
    ∨ existsb blank_mask [Some [1; 1; 0; 0]%Z] = true in
  (zero_denominator → r = Raise ZeroDivisionError)
  ∧ (¬ zero_denominator → ∃ report, r = Ok report).
Proof.
  apply (@ratios_raise_on_zero_denominator _ (collaborators overlap_world)
           [0; 1] [] [] [2; 3] [[0; 1]] [] []
           [{| streamlines := [0; 1] |}] [] [] default_args ["A"]
           [Some [1; 1; 0; 0]%Z] [4] None);
    try done.
  repeat constructor. by eexists.
Defined.

(** C4, the failing input. Bundle [B] of [no_gt_mask_config] has no
    [gt_mask]: [read_config_file] warns and goes on, the bundles are scored
    and [processing_stats.json] is written, and [compute_tractometry] raises
    [KeyError] at [vb_results["OL_PCT"]]; no [results.json] is written. *)
Lemma bundle_without_gt_mask_stops_the_report :
  outcome overlap_world default_args no_gt_mask_config
  = Raise (KeyError "OL_PCT")
  ∧ json_written overlap_world default_args no_gt_mask_config
    = ["out/processing_stats.json"]
  ∧ (LogWarning (MsgNoGtMask "B") : @event free_float)
    ∈ (@main _ (collaborators overlap_world) default_args
         no_gt_mask_config []).1.
Proof.
  split_and!; [by vm_compute|by vm_compute|].
  vm_compute. repeat first [apply list_elem_of_here|apply list_elem_of_further].
Qed.

End TractometryRuns.

(** ** Independence from the order of the bundles *)

Section OrderIndependence.
Context `{Collaborators}.




(** The counts and ratios of a report are those of the global id arrays
    and of the per-bundle lists. *)
Lemma compute_tractometry_counts
    all_vs all_wpc all_ic all_nc vs_ids_list wpc_ids_list ic_ids_list
    vb_sft_list wpc_sft_list ib_sft_list args names gt_masks dimensions
    comb_filename report :
  compute_tractometry all_vs all_wpc all_ic all_nc vs_ids_list wpc_ids_list
    ic_ids_list vb_sft_list wpc_sft_list ib_sft_list args names gt_masks
    dimensions comb_filename = Ok report →
  let count l := Z.of_nat (length l) in
  let total := Z.of_nat total_streamlines in
  let bundles (ls : list Np.ids) :=
    int_of_nat (length (filter (λ x : Np.ids, 0 < length x) ls)) in
  count_section report
  = [("tractogram_filename", VStr (in_tractogram args));
     ("tractogram_overlap", VFloat f_zero);
     ("VS", VInt (count all_vs));
     ("WPC", VInt (count all_wpc));
     ("IC", VInt (count all_ic));
     ("NC", VInt (count all_nc));
     ("IS = IC + NC", VInt (count all_ic + count all_nc));
     ("VB", bundles vs_ids_list);
     ("IB", bundles ic_ids_list);
     ("WPC_bundle", bundles wpc_ids_list);
     ("VS_ratio", VFloat (int_div_int (count all_vs) total));
     ("IC_ratio", VFloat (int_div_int (count all_ic) total));
     ("NC_ratio", VFloat (int_div_int (count all_nc) total));
     ("IS_ratio", VFloat (int_div_int (count all_ic + count all_nc) total));
     ("WPC_ratio", VFloat (int_div_int (count all_wpc) total));
     ("total_streamlines", VInt total)].
Proof.
  unfold compute_tractometry. intros Hrun.
  destruct (decide (Z.of_nat total_streamlines = 0%Z)) as [Hz|Hnz].
  { rewrite Hz in Hrun. done. }
  rewrite !truediv_nonzero in Hrun by done. simpl in Hrun.
  destruct (rfold (range 0 (length names)) _ _) as [[[mo mr] bw]|e];
    [|done].
  simpl in Hrun.
  match type of Hrun with
  | context [(if compute_IC args then ?a else ?b) ≫= _] =>
      destruct (if compute_IC args then a else b) as [bw'|e]; [|done]
  end.
  simpl in Hrun.
  destruct (truediv_float mo _) as [mean_OL|e]; [|done]. simpl in Hrun.
  destruct (truediv_float mr _) as [mean_OR|e]; [|done]. simpl in Hrun.
  by injection Hrun as <-.
Qed.




End OrderIndependence.

Section OrderIndependenceRun.
Import Scenario.


End OrderIndependenceRun.

(** * Further properties of the script *)

(** ** Loops that return *)

Section LoopsReturn.
Context `{PyFloat}.

Lemma for_acc_total_from {A S} (I : list A → S → list event → Prop)
    (body : S → A → M S) l done acc tr :
  I done acc tr →
  (∀ d x rest s1 tr1,
     done ++ l = d ++ x :: rest → I d s1 tr1 →
     ∃ s2 tr2, body s1 x tr1 = (tr2, Ok s2) ∧ I (d ++ [x]) s2 tr2) →
  ∃ acc' tr', for_acc l body acc tr = (tr', Ok acc') ∧ I (done ++ l) acc' tr'.
Proof.
  revert done acc tr.
  induction l as [|x l IH]; intros done acc tr Hinit Hstep.
  - exists acc, tr. by rewrite app_nil_r.
  - destruct (Hstep done x l acc tr eq_refl Hinit) as (s2 & tr2 & Hbody & HI).
    destruct (IH (done ++ [x]) s2 tr2 HI) as (acc' & tr' & Hrun & HI').
    { intros d y rest s1 tr1 Heq. apply (Hstep d y rest).
      by rewrite <- Heq, <- (assoc_L (++)). }
    exists acc', tr'. split.
    + simpl. by rewrite (bind_ok _ _ _ _ _ Hbody).
    + by rewrite <- (assoc_L (++)) in HI'.
Qed.

Lemma for_acc_total {A S} (I : list A → S → list event → Prop)
    (body : S → A → M S) l acc tr :
  I [] acc tr →
  (∀ d x rest s1 tr1,
     l = d ++ x :: rest → I d s1 tr1 →
     ∃ s2 tr2, body s1 x tr1 = (tr2, Ok s2) ∧ I (d ++ [x]) s2 tr2) →
  ∃ acc' tr', for_acc l body acc tr = (tr', Ok acc') ∧ I l acc' tr'.
Proof. apply (for_acc_total_from I body l []). Qed.


End LoopsReturn.

Section ScoringReturns.
Context `{Collaborators}.
Variables (gt_tails gt_heads bundle_names : list string).
Variables (lengths angles : list (option value)).
Variables (orientation_lengths : list (option (list value))).
Variables (limits_inv_masks : list (option Mask)).
Variables (args : Args) (ext : string).


Lemma lift_getitem_run {A} (l : list A) i x tr :
  l !! i = Some x → lift (Py.getitem l i) tr = (tr, Ok x).
Proof. intros Hx. unfold lift. by rewrite (getitem_lookup _ _ _ Hx). Qed.


End ScoringReturns.

(** ** [compute_vb_vs_all_bundles] on aligned lists *)

Section ScoringReturnsTheorem.
Context `{Collaborators}.


End ScoringReturnsTheorem.

Section ScoringReturnsRun.
Import Scenario.


End ScoringReturnsRun.
(** ** [read_config_file]: what it returns *)

Section ReadValues.
Context `{PyFloat}.

Lemma rfold_inv_from {A S} (I : list A → S → Prop) (body : S → A → result S)
    l done acc acc' :
  rfold l body acc = Ok acc' →
  I done acc →
  (∀ d x rest s1 s2,
     done ++ l = d ++ x :: rest → I d s1 → body s1 x = Ok s2 →
     I (d ++ [x]) s2) →
  I (done ++ l) acc'.
Proof.
  revert done acc.
  induction l as [|x l IH]; intros done acc Hrun Hinit Hstep.
  - injection Hrun as <-. by rewrite app_nil_r.
  - simpl in Hrun. destruct (body acc x) as [s|e] eqn:Hbody; [|done].
    simpl in Hrun.
    rewrite (assoc_L (++) done [x] l : done ++ x :: l = (done ++ [x]) ++ l).
    apply (IH _ _ Hrun).
    + by apply (Hstep done x l acc).
    + intros d y rest s1 s2 Heq. apply (Hstep d y rest).
      by rewrite <- Heq, <- (assoc_L (++)).
Qed.

Lemma rfold_inv {A S} (I : list A → S → Prop) (body : S → A → result S)
    l acc acc' :
  rfold l body acc = Ok acc' →
  I [] acc →
  (∀ d x rest s1 s2,
     l = d ++ x :: rest → I d s1 → body s1 x = Ok s2 → I (d ++ [x]) s2) →
  I l acc'.
Proof. intros Hrun Hinit Hstep. by apply (rfold_inv_from I body l []) in Hrun. Qed.

Lemma seen_elem_of key keys : seen key keys = true ↔ key ∈ keys.
Proof.
  unfold seen. rewrite existsb_exists. setoid_rewrite String.eqb_eq.
  setoid_rewrite <- list_elem_of_In. naive_solver.
Qed.

Lemma seen_snoc key keys x :
  seen key (keys ++ [x]) = seen key keys || String.eqb key x.
Proof. unfold seen. rewrite existsb_app. simpl. by rewrite orb_false_r. Qed.

Lemma lookup_key_None {V} key (d : list (string * V)) :
  key ∉ d.*1 → lookup_key key d = None.
Proof.
  intros Hnot. destruct (lookup_key key d) as [v|] eqn:Hv; [|done].
  destruct Hnot. apply contains_elem_of, contains_lookup. eauto.
Qed.

Lemma dict_get_Ok {V} (d : list (string * V)) key v :
  dict_get d key = Ok v ↔ lookup_key key d = Some v.
Proof. unfold dict_get. destruct (lookup_key key d); naive_solver. Qed.

Lemma os_path_join_Ok dir (x : value) p :
  os_path_join dir x = Ok p → ∃ s, x = VStr s ∧ p = Py.path_join dir s.
Proof. destruct x; try done. intros [= <-]. eauto. Qed.

Lemma path_at_read dir key (d : dict) x p :
  dict_get d key = Ok x → os_path_join dir x = Ok p →
  path_at dir key d = Some p.
Proof.
  intros Hx%dict_get_Ok (s & -> & ->)%os_path_join_Ok.
  unfold path_at. by rewrite Hx.
Qed.

Lemma read_key_keeps args bundle (d : dict) keys key v v' :
  keys_read args d keys v →
  read_key args bundle d v key = Ok v' →
  keys_read args d (keys ++ [key]) v'.
Proof.
  intros (Ha & Hl & Hx & Hy & Hz & Hg & Hm & Hr & He & Hh).
  unfold keys_read. rewrite !seen_snoc.
  unfold read_key.
  repeat case_decide; subst; simpl; rewrite ?orb_false_r, ?orb_true_r.
  1-5: destruct (dict_get d _) as [x|] eqn:Hget; [|done]; simpl;
       intros [= <-]; simpl; apply dict_get_Ok in Hget;
       by rewrite Hget.
  - destruct (dict_get d _) as [x|] eqn:Hget; [|done]. simpl.
    destruct (os_path_join _ x) as [p|] eqn:Hjoin; [|done]. simpl.
    intros [= <-]. simpl.
    rewrite (path_at_read _ _ _ _ _ Hget Hjoin).
    split_and!; try done.
    destruct (use_gt_masks_as_limits_masks args); done.
  - destruct (use_gt_masks_as_limits_masks args) eqn:Hflag; [done|].
    destruct (dict_get d _) as [x|] eqn:Hget; [|done]. simpl.
    destruct (os_path_join _ x) as [p|] eqn:Hjoin; [|done]. simpl.
    intros [= <-]. simpl.
    by rewrite (path_at_read _ _ _ _ _ Hget Hjoin).
  - destruct (contains "head" d || contains "tail" d) eqn:Hht; [done|].
    apply orb_false_iff in Hht as [Hhead Htail].
    destruct (dict_get d _) as [x|] eqn:Hget; [|done]. simpl.
    destruct (os_path_join _ x) as [p|] eqn:Hjoin; [|done]. simpl.
    intros [= <-]. simpl.
    rewrite (path_at_read _ _ _ _ _ Hget Hjoin).
    split_and!; try done.
    intros _. split; [|done]. intros Hin%contains_elem_of. congruence.
  - destruct (contains "tail" d) eqn:Ht; [|done]. simpl.
    destruct (dict_get d "head") as [x|] eqn:Hget; [|done]. simpl.
    destruct (os_path_join _ x) as [p|] eqn:Hjoin; [|done]. simpl.
    destruct (dict_get d "tail") as [y|] eqn:Hget'; [|done]. simpl.
    destruct (os_path_join _ y) as [q|] eqn:Hjoin'; [|done]. simpl.
    intros [= <-]. simpl.
    rewrite (path_at_read _ _ _ _ _ Hget Hjoin).
    rewrite (path_at_read _ _ _ _ _ Hget' Hjoin').
    destruct (seen "endpoints" keys) eqn:Hseen.
    { destruct He as [He _]; [done|]. destruct He.
      apply contains_elem_of, contains_lookup.
      apply dict_get_Ok in Hget. eauto. }
    done.
  - intros [= <-]. done.
  - done.
Qed.

(** The loop over the keys of a bundle's dict, when it ends: the variables
    hold what the dict gives, and the ROIs are set when [endpoints] or
    [head] is a key. *)
Lemma rfold_keys_read args bundle (d : dict) v :
  rfold d.*1 (read_key args bundle d) no_vars = Ok v →
  v = bundle_vars_of_dict args d
  ∧ (contains "endpoints" d || contains "head" d = true →
     is_Some (roi_option v)).
Proof.
  intros Hrun.
  assert (keys_read args d d.*1 v)
    as (Ha & Hl & Hx & Hy & Hz & Hg & Hm & Hr & He & Hh).
  { apply (rfold_inv (keys_read args d) _ _ _ _ Hrun).
    - unfold keys_read. simpl. split_and!; try done.
      by destruct (use_gt_masks_as_limits_masks args).
    - intros keys key rest s1 s2 _. apply read_key_keeps. }
  assert (∀ {V} key (look : option V),
            (key ∉ d.*1 → look = None) →
            (if seen key d.*1 then look else None) = look) as Hend.
  { intros V key look Hnone. destruct (seen key d.*1) eqn:Hseen; [done|].
    symmetry. apply Hnone. rewrite <- seen_elem_of. congruence. }
  assert (∀ dir key, key ∉ d.*1 → path_at dir key d = None) as Hpath.
  { intros dir key Hnot. unfold path_at. by rewrite lookup_key_None. }
  rewrite Hend in Ha, Hl, Hx, Hy, Hz, Hg
    by first [apply lookup_key_None|apply Hpath].
  rewrite !Hend in Hm by apply Hpath.
  assert (roi_option v = roi_option (bundle_vars_of_dict args d)) as Hroi.
  { rewrite Hr. simpl. destruct (seen "endpoints" d.*1) eqn:Hends.
    - destruct (He eq_refl) as [Hnot _].
      rewrite (Hpath (rois_dir args) "head" Hnot).
      by destruct (path_at (rois_dir args) "endpoints" d).
    - rewrite (Hpath (rois_dir args) "endpoints")
        by (rewrite <- seen_elem_of; congruence).
      destruct (seen "head" d.*1) eqn:Hhead; [done|].
      rewrite (Hpath (rois_dir args) "head")
        by (rewrite <- seen_elem_of; congruence).
      done. }
  split.
  - clear Hr He Hh. destruct v as [a l x y z g m r]. simpl in *. by subst.
  - rewrite orb_true_iff, !contains_elem_of, <- !seen_elem_of.
    rewrite Hr. intros [Hends|Hhead].
    + rewrite Hends. destruct (He Hends) as [_ [e ->]]. by eexists.
    + destruct (seen "endpoints" d.*1) eqn:Hends.
      * destruct (He eq_refl) as [_ [e ->]]. by eexists.
      * rewrite Hhead. destruct (Hh Hhead) as [[h ->] [t ->]]. by eexists.
Qed.

(** One turn of the loop over the bundles, when it ends. *)
Lemma read_bundle_inv args bundle (d : dict) tr tr' v :
  read_bundle args bundle d tr = (tr', Ok v) →
  tr' = tr ++ (if contains "gt_mask" d then []
               else [LogWarning (MsgNoGtMask bundle)])
  ∧ v = bundle_vars_of_dict args d
  ∧ is_Some (roi_option v).
Proof.
  unfold read_bundle. intros Hrun. bind_inv_as Hrun u tr1 Hwarn.
  assert (tr1 = tr ++ (if contains "gt_mask" d then []
                       else [LogWarning (MsgNoGtMask bundle)])) as ->.
  { destruct (contains "gt_mask" d); simpl in Hwarn.
    - apply mret_inv in Hwarn as [-> _]. by rewrite app_nil_r.
    - rewrite emit_run in Hwarn. by injection Hwarn as <-. }
  destruct (negb (contains "endpoints" d) && negb (contains "head" d))
    eqn:Hmiss; [done|].
  apply lift_inv in Hrun as [-> Hkeys].
  apply rfold_keys_read in Hkeys as [-> Hroi].
  split_and!; [done..|]. apply Hroi.
  by destruct (contains "endpoints" d), (contains "head" d).
Qed.

(** A key of a document without repeated key leads to its own value. *)
Lemma lookup_key_NoDup {V} (d : list (string * V)) :
  NoDup d.*1 → Forall (λ kv, lookup_key kv.1 d = Some kv.2) d.
Proof.
  induction d as [|[k v] d IH]; simpl; [constructor|].
  intros [Hk Hd]%NoDup_cons. constructor.
  - simpl. by rewrite decide_True.
  - eapply Forall_impl; [by apply IH|]. intros [k' v'] Hlook. simpl in *.
    case_decide; [|done]. subst. destruct Hk.
    apply lookup_key_elem_of in Hlook.
    apply list_elem_of_fmap. by exists (k', v').
Qed.


(** The loop over the bundles, when it ends. *)
Lemma read_bundles_inv args (config : list (string * dict)) l c tr tr' c' :
  Forall (λ kv, lookup_key kv.1 config = Some kv.2) l →
  for_acc l.*1
    (λ c bundle,
       bundle_config ← lift (dict_get config bundle);
       v ← read_bundle args bundle bundle_config;
       mret (append_bundle c v)) c tr
  = (tr', Ok c') →
  tr' = tr ++ gt_mask_warnings l
  ∧ c' = foldl append_bundle c (bundle_vars_of_dict args <$> l.*2)
  ∧ Forall (λ d, is_Some (roi_option (bundle_vars_of_dict args d))) l.*2.
Proof.
  intros Hl. revert c tr.
  induction Hl as [|[bundle d] l Hlook Hl IH]; intros c tr Hrun.
  - apply mret_inv in Hrun as [-> ->]. by rewrite app_nil_r.
  - simpl in Hrun, Hlook. bind_inv_as Hrun c1 tr1 Hbody.
    bind_inv_as Hbody d' tr0 Hget. apply lift_inv in Hget as [-> Hget].
    apply dict_get_Ok in Hget. rewrite Hlook in Hget. injection Hget as <-.
    bind_inv_as Hbody v tr2 Hread.
    apply read_bundle_inv in Hread as (-> & -> & Hroi).
    apply mret_inv in Hbody as [-> ->].
    apply IH in Hrun as (-> & -> & Hrois).
    split_and!; [|done|by constructor].
    rewrite <- (assoc_L (++)). f_equal.
    unfold gt_mask_warnings. rewrite filter_cons. simpl.
    destruct (contains "gt_mask" d) eqn:Hgt.
    + by rewrite decide_False.
    + by rewrite decide_True.
Qed.

End ReadValues.

Section ReadValuesTheorems.
Context `{PyFloat}.


(** X3. When [read_config_file] returns, on a document whose bundle names
    are distinct, it has logged one warning for each bundle without
    [gt_mask], in the order of the document, and nothing else. *)
Theorem read_config_file_warns_once_per_bundle_without_gt_mask
    args (config : list (string * dict)) tr tr' c :
  NoDup config.*1 →
  read_config_file args config tr = (tr', Ok c) →
  tr' = tr ++ gt_mask_warnings config.
Proof.
  intros Hnodup Hrun. unfold read_config_file in Hrun.
  by apply read_bundles_inv in Hrun as (-> & _ & _);
    [|apply lookup_key_NoDup].
Qed.

End ReadValuesTheorems.

Section ReadValuesRuns.
Import Scenario.


(** X3, witness: the second bundle of [no_gt_mask_config] has no
    [gt_mask]. *)
Lemma no_gt_mask_config_warning :
  ∃ tr' c,
    read_config_file default_args no_gt_mask_config [] = (tr', Ok c)
    ∧ tr' = [LogWarning (MsgNoGtMask "B")].
Proof.
  eexists _, _. split; [vm_compute; reflexivity|].
  eapply (read_config_file_warns_once_per_bundle_without_gt_mask
            default_args no_gt_mask_config []).
  - refine (bool_decide_unpack _ _). vm_compute. exact I.
  - vm_compute. reflexivity.
Defined.

End ReadValuesRuns.
(** ** [save_wpc_all_bundles] *)

Section SaveWpc.
Context `{Collaborators}.

Lemma mapM_getitem {A} (l : list A) js :
  Forall (λ j, j < length l) js →
  mapM (Py.getitem l) js = Ok (omap (λ j, l !! j) js).
Proof.
  induction 1 as [|j js Hj _ IH]; [done|].
  destruct (lookup_lt_is_Some_2 l j Hj) as [x Hx].
  cbn. rewrite (getitem_lookup _ _ _ Hx). cbn. rewrite IH. cbn.
  by rewrite Hx.
Qed.

Lemma update_stats_Ok (stats : list dict) i key v (st : dict) :
  stats !! i = Some st →
  update_stats stats i key v = Ok (<[i := dict_update st [(key, v)]]> stats).
Proof.
  intros Hst. unfold update_stats, Py.getitem. by rewrite Hst.
Qed.

Lemma when_emit_bind {A} b e (k : () → M A) tr :
  (when b (emit e) ≫= k) tr = k () (tr ++ if b then [e] else []).
Proof.
  destruct b; simpl.
  - exact (bind_ok _ _ _ _ _ (emit_run _ _)).
  - by rewrite app_nil_r.
Qed.

(** One turn of the loop of [save_wpc_all_bundles]. *)
Lemma clean_wpc_outcome wpc_ids_list names args ext vs_ids_list
    wpc_sft_list (stats : list dict) i name (st : dict) tr :
  i < length wpc_ids_list →
  length wpc_ids_list ≤ length vs_ids_list →
  names !! i = Some name →
  stats !! i = Some st →
  clean_wpc wpc_ids_list names args ext vs_ids_list (wpc_sft_list, stats) i tr
  = (tr ++ cleaned_events args ext wpc_ids_list vs_ids_list i name,
     Ok (wpc_sft_list
           ++ [make_sft_from_ids
                 (cleaned_wpc args wpc_ids_list vs_ids_list i)],
         <[i := cleaned_stats args wpc_ids_list vs_ids_list i st]> stats)).
Proof.
  intros Hi Hvs Hname Hst.
  destruct (lookup_lt_is_Some_2 wpc_ids_list i Hi) as [wpc_i Hwpc].
  unfold clean_wpc, cleaned_events, cleaned_stats, cleaned_wpc.
  unfold Np.ids in *. rewrite Hwpc. simpl.
  rewrite (bind_ok _ _ _ _ _ (lift_getitem_run _ _ _ tr Hwpc)).
  set (kept := if remove_wpc_belonging_to_another_bundle args
               then Np.setdiff1d wpc_i
                      (Py.chain
                         (others_vs vs_ids_list (length wpc_ids_list) i))
               else wpc_i).
  set (st1 := if remove_wpc_belonging_to_another_bundle args
              then dict_update st
                     [("Belonging to another bundle",
                       VInt (Z.of_nat (length wpc_i)
                             - Z.of_nat (length kept)))]
              else st).
  assert (i < length stats) as Hlt by (apply lookup_lt_is_Some; eauto).
  match goal with
  | |- (?m ≫= ?k) tr = _ =>
      assert (m tr = (tr, Ok (kept, <[i := st1]> stats))) as Hfirst
  end.
  { unfold kept, st1.
    destruct (remove_wpc_belonging_to_another_bundle args).
    - rewrite mapM_getitem.
      2:{ apply Forall_forall.
          intros j [_ Hj%elem_of_range]%list_elem_of_filter. lia. }
      erewrite bind_ok by reflexivity.
      rewrite (update_stats_Ok _ _ _ _ _ Hst).
      erewrite bind_ok by reflexivity. done.
    - by rewrite list_insert_id. }
  rewrite (bind_ok _ _ _ _ _ Hfirst).
  rewrite (bind_ok _ _ _ _ _ (lift_getitem_run _ _ _ tr Hname)).
  assert (update_stats (<[i := st1]> stats) i "Cleaned WPC"
            (VInt (Z.of_nat (length kept)))
          = Ok (<[i := dict_update st1
                         [("Cleaned WPC", VInt (Z.of_nat (length kept)))]]>
                  stats)) as Hupdate.
  { erewrite update_stats_Ok by (by apply list_lookup_insert_eq).
    by rewrite list_insert_insert_eq. }
  unfold save_tractogram. rewrite when_emit_bind.
  erewrite bind_ok by (unfold lift; by rewrite Hupdate).
  rewrite (bind_ok _ _ _ _ _ (emit_run _ _)).
  rewrite <- (assoc_L (++)). reflexivity.
Qed.

(** The loop of [save_wpc_all_bundles] on lists with an entry per
    bundle: it returns, with the kept ids and the statistics of each
    bundle, and has emitted the events of each turn. *)
Lemma save_wpc_all_bundles_outcome wpc_ids_list names args ext vs_ids_list
    (stats : list dict) tr :
  length names = length wpc_ids_list →
  length vs_ids_list = length wpc_ids_list →
  length stats = length wpc_ids_list →
  ∃ stats',
    save_wpc_all_bundles wpc_ids_list names args ext vs_ids_list stats tr
    = (tr ++ concat
               ((λ i, cleaned_events args ext wpc_ids_list vs_ids_list i
                        (default "" (names !! i)))
                  <$> range 0 (length wpc_ids_list)),
       Ok ((λ i, make_sft_from_ids
                   (cleaned_wpc args wpc_ids_list vs_ids_list i))
             <$> range 0 (length wpc_ids_list),
           stats'))
    ∧ length stats' = length stats
    ∧ ∀ i (st : dict),
        stats !! i = Some st →
        stats' !! i
        = Some (cleaned_stats args wpc_ids_list vs_ids_list i st).
Proof.
  intros Hnames Hvs Hstats. unfold save_wpc_all_bundles.
  destruct (for_acc_total
              (λ d '(sfts, sts) (t : list event),
                 sfts = (λ i, make_sft_from_ids
                                (cleaned_wpc args wpc_ids_list vs_ids_list i))
                          <$> d
                 ∧ length sts = length stats
                 ∧ (∀ i (st : dict),
                      stats !! i = Some st →
                      sts !! i
                      = Some (if decide (i < length d)
                              then cleaned_stats args wpc_ids_list
                                     vs_ids_list i st
                              else st))
                 ∧ t = tr ++ concat
                         ((λ i, cleaned_events args ext wpc_ids_list
                                  vs_ids_list i (default "" (names !! i)))
                            <$> d))
              (clean_wpc wpc_ids_list names args ext vs_ids_list)
              (range 0 (length wpc_ids_list)) ([], stats) tr)
    as ([sfts sts] & tr' & Hrun & -> & Hlen & Hsts & ->).
  { split_and!; [done|done| |by rewrite app_nil_r].
    intros i st Hst. case_decide; [simpl in *; lia|done]. }
  { intros d i rest [sfts sts] t Hsplit (-> & Hlen & Hsts & ->).
    pose proof Hsplit as Hd.
    apply range_split in Hsplit as [-> Hlt]. simpl in *.
    destruct (lookup_lt_is_Some_2 names (length d)) as [name Hname];
      [by rewrite Hnames|].
    destruct (lookup_lt_is_Some_2 stats (length d)) as [st Hst];
      [by rewrite Hstats|].
    pose proof (Hsts _ _ Hst) as Hcur.
    rewrite decide_False in Hcur by lia.
    eexists _, _. split.
    - apply (clean_wpc_outcome _ _ _ _ _ _ _ _ name st); [done|lia|done..].
    - split_and!.
      + by rewrite fmap_app.
      + by rewrite length_insert.
      + intros i st' Hst'. rewrite length_app. simpl.
        destruct (decide (i = length d)) as [->|Hne].
        * rewrite list_lookup_insert_eq by (rewrite Hlen, Hstats; lia).
          rewrite decide_True by lia. congruence.
        * rewrite list_lookup_insert_ne by done.
          rewrite (Hsts _ _ Hst').
          destruct (decide (i < length d)).
          -- by rewrite decide_True by lia.
          -- by rewrite decide_False by lia.
      + rewrite fmap_app, concat_app. simpl.
        rewrite Hname. simpl. by rewrite app_nil_r, (assoc_L (++)). }
  exists sts. split_and!; [done..|].
  intros i st Hst. rewrite (Hsts _ _ Hst).
  rewrite decide_True; [done|].
  unfold range. rewrite length_seq, Nat.sub_0_r, <- Hstats.
  apply lookup_lt_is_Some. eauto.
Qed.

Lemma lookup_range {A} nb i (f : nat → A) :
  i < nb → (f <$> range 0 nb) !! i = Some (f i).
Proof.
  intros Hi. unfold range. rewrite list_lookup_fmap, Nat.sub_0_r.
  by rewrite lookup_seq_lt.
Qed.

(** An id is kept when it is a WPC id of the bundle and, under
    [--remove_wpc_belonging_to_another_bundle], a VS id of no other
    bundle. *)
Lemma elem_of_cleaned_wpc args wpc_ids_list vs_ids_list i wpc_i x :
  length vs_ids_list = length wpc_ids_list →
  wpc_ids_list !! i = Some wpc_i →
  remove_wpc_belonging_to_another_bundle args = true →
  x ∈ cleaned_wpc args wpc_ids_list vs_ids_list i
  ↔ x ∈ wpc_i
    ∧ ∀ j vs_j, j ≠ i → vs_ids_list !! j = Some vs_j → x ∉ vs_j.
Proof.
  intros Hvs Hwpc Hflag. unfold cleaned_wpc. unfold Np.ids in *.
  rewrite Hwpc, Hflag. simpl.
  rewrite elem_of_setdiff1d, elem_of_chain. unfold others_vs.
  setoid_rewrite list_elem_of_omap.
  setoid_rewrite list_elem_of_filter.
  setoid_rewrite elem_of_range.
  split; intros [Hx Hnot]; (split; [done|]).
  - intros j vs_j Hj Hlook Hin. apply Hnot.
    exists vs_j. split; [|done]. exists j. split_and!; [done|lia| |done].
    apply lookup_lt_Some in Hlook. lia.
  - intros (vs_j & (j & [Hj _] & Hlook) & Hin). by apply (Hnot j vs_j).
Qed.

Lemma lookup_key_dict_set {V} key key' (v : V) (d : list (string * V)) :
  lookup_key key (dict_set key' v d)
  = if decide (key' = key) then Some v else lookup_key key d.
Proof.
  induction d as [|[k w] d IH]; simpl.
  - done.
  - destruct (decide (k = key')) as [->|Hk]; simpl.
    + by destruct (decide (key' = key)).
    + rewrite IH. destruct (decide (k = key)), (decide (key' = key));
        congruence.
Qed.

End SaveWpc.

Section SaveWpcTheorems.
Context `{Collaborators}.

(** X4. On lists with one entry per bundle, [save_wpc_all_bundles] raises
    nothing and returns one sub-collection per bundle.  Without
    [--remove_wpc_belonging_to_another_bundle] it holds the WPC ids of the
    bundle as they are; with the option it holds exactly the WPC ids of the
    bundle that are VS ids of no other bundle.  The sub-collection is saved
    under [segmented_WPC] unless it is empty and [--no_empty] is set. *)
Theorem save_wpc_all_bundles_keeps_wpc_of_no_other_bundle
    wpc_ids_list bundles_names args ext vs_ids_list
    (bundles_stats : list dict) tr :
  length bundles_names = length wpc_ids_list →
  length vs_ids_list = length wpc_ids_list →
  length bundles_stats = length wpc_ids_list →
  ∃ tr' wpc_sft_list stats',
    save_wpc_all_bundles wpc_ids_list bundles_names args ext vs_ids_list
      bundles_stats tr
    = (tr', Ok (wpc_sft_list, stats'))
    ∧ length wpc_sft_list = length wpc_ids_list
    ∧ ∀ i wpc_i name,
        wpc_ids_list !! i = Some wpc_i → bundles_names !! i = Some name →
        ∃ kept,
          wpc_sft_list !! i = Some (make_sft_from_ids kept)
          ∧ (remove_wpc_belonging_to_another_bundle args = false →
             kept = wpc_i)
          ∧ (remove_wpc_belonging_to_another_bundle args = true →
             ∀ x, x ∈ kept
                  ↔ x ∈ wpc_i
                    ∧ ∀ j vs_j, j ≠ i → vs_ids_list !! j = Some vs_j →
                                x ∉ vs_j)
          ∧ (0 < length kept ∨ no_empty args = false →
             SaveTractogram (make_sft_from_ids kept)
               (Py.path_join (out_dir args)
                  ("segmented_WPC/" +:+ name +:+ "_wpc" +:+ ext))
               false ∈ tr').
Proof.
  intros Hnames Hvs Hstats.
  destruct (save_wpc_all_bundles_outcome wpc_ids_list bundles_names args ext
              vs_ids_list bundles_stats tr Hnames Hvs Hstats)
    as (stats' & Hrun & _ & _).
  eexists _, _, _. split; [exact Hrun|]. split.
  { rewrite length_fmap. unfold range. by rewrite length_seq, Nat.sub_0_r. }
  intros i wpc_i name Hwpc Hname.
  assert (i < length wpc_ids_list) as Hi by (apply lookup_lt_is_Some; eauto).
  exists (cleaned_wpc args wpc_ids_list vs_ids_list i).
  split_and!.
  - by apply (lookup_range _ _ (λ i, make_sft_from_ids
                                      (cleaned_wpc args wpc_ids_list
                                         vs_ids_list i))).
  - intros Hflag. unfold cleaned_wpc. unfold Np.ids in *.
    by rewrite Hwpc, Hflag.
  - intros Hflag x. by apply elem_of_cleaned_wpc.
  - intros Hsave. apply elem_of_app. right.
    apply list_elem_of_In, in_concat.
    exists (cleaned_events args ext wpc_ids_list vs_ids_list i name).
    split.
    + apply list_elem_of_In, list_elem_of_fmap. exists i.
      split; [by rewrite Hname|]. apply elem_of_range. lia.
    + apply list_elem_of_In. unfold cleaned_events.
      apply elem_of_app. left.
      assert (bool_decide
                (0 < length (cleaned_wpc args wpc_ids_list vs_ids_list i))
              || negb (no_empty args) = true) as ->; [|by left].
      apply orb_true_iff. destruct Hsave as [Hpos| ->]; [left|by right].
      by apply bool_decide_eq_true.
Qed.

(** X5. On lists with one entry per bundle, when [save_wpc_all_bundles]
    returns, the statistics of each bundle hold under ["Cleaned WPC"] the
    number of streamlines of the sub-collection returned for the bundle
    and, with [--remove_wpc_belonging_to_another_bundle], under
    ["Belonging to another bundle"] the number of WPC ids of the bundle
    less that number; the other keys are as they were. *)
Theorem save_wpc_all_bundles_counts_the_kept_wpc
    wpc_ids_list bundles_names args ext vs_ids_list
    (bundles_stats : list dict) tr tr' wpc_sft_list stats' :
  length bundles_names = length wpc_ids_list →
  length vs_ids_list = length wpc_ids_list →
  length bundles_stats = length wpc_ids_list →
  save_wpc_all_bundles wpc_ids_list bundles_names args ext vs_ids_list
    bundles_stats tr
  = (tr', Ok (wpc_sft_list, stats')) →
  length stats' = length bundles_stats
  ∧ ∀ i (st : dict) wpc_i sft,
      bundles_stats !! i = Some st → wpc_ids_list !! i = Some wpc_i →
      wpc_sft_list !! i = Some sft →
      ∃ st' : dict,
        stats' !! i = Some st'
        ∧ lookup_key "Cleaned WPC" st' = Some (VInt (Z.of_nat (len_sft sft)))
        ∧ (remove_wpc_belonging_to_another_bundle args = true →
           lookup_key "Belonging to another bundle" st'
           = Some (VInt (Z.of_nat (length wpc_i) - Z.of_nat (len_sft sft))))
        ∧ ∀ key,
            key ≠ "Cleaned WPC" →
            (remove_wpc_belonging_to_another_bundle args = true →
             key ≠ "Belonging to another bundle") →
            lookup_key key st' = lookup_key key st.
Proof.
  intros Hnames Hvs Hstats Hrun.
  destruct (save_wpc_all_bundles_outcome wpc_ids_list bundles_names args ext
              vs_ids_list bundles_stats tr Hnames Hvs Hstats)
    as (sts & Hrun' & Hlen & Hsts).
  rewrite Hrun in Hrun'. injection Hrun' as _ -> ->.
  split; [done|].
  intros i st wpc_i sft Hst Hwpc Hsft.
  assert (i < length wpc_ids_list) as Hi by (apply lookup_lt_is_Some; eauto).
  rewrite lookup_range in Hsft by done. injection Hsft as <-.
  exists (cleaned_stats args wpc_ids_list vs_ids_list i st).
  split; [by apply Hsts|].
  unfold cleaned_stats, len_sft. unfold Np.ids in *. rewrite Hwpc. simpl.
  destruct (remove_wpc_belonging_to_another_bundle args); simpl.
  - rewrite !lookup_key_dict_set. simpl.
    split_and!; [done|done|].
    intros key Hk1 Hk2. rewrite !lookup_key_dict_set.
    rewrite decide_False by done.
    rewrite decide_False; [done|]. intros <-. by apply Hk2.
  - rewrite !lookup_key_dict_set. simpl.
    split_and!; [done|done|].
    intros key Hk1 _. rewrite !lookup_key_dict_set.
    by rewrite decide_False by done.
Qed.

End SaveWpcTheorems.

Section SaveWpcRuns.
Import Scenario Runs.

(** X4, witness: bundle [B] of [overlap_world] has the WPC ids 0 and 2,
    and 0 is a VS id of bundle [A]; with the option, [B] keeps 2 alone. *)
Lemma overlap_wpc_cleaned :
  ∃ tr' wpc_sft_list stats',
    @save_wpc_all_bundles free_float
      [[]; [0; 2]] ["A"; "B"] clean_args ".trk" [[0; 1]; [1]]
      overlap_stats []
    = (tr', Ok (wpc_sft_list, stats'))
    ∧ length wpc_sft_list = 2
    ∧ wpc_sft_list !! 1 = Some {| streamlines := [2] |}.
Proof.
  destruct (@save_wpc_all_bundles_keeps_wpc_of_no_other_bundle free_float
              [[]; [0; 2]] ["A"; "B"] clean_args ".trk" [[0; 1]; [1]]
              overlap_stats [] eq_refl eq_refl eq_refl)
    as (tr' & sfts & stats' & Hrun & Hlen & Hkept).
  exists tr', sfts, stats'. split_and!; [done..|].
  vm_compute in Hrun. injection Hrun as ? ? ?. by subst.
Defined.

(** X5, witness: the same run; one WPC id of [B] belongs to [A]. *)
Lemma overlap_wpc_counted :
  ∃ tr' wpc_sft_list stats' st',
    @save_wpc_all_bundles free_float
      [[]; [0; 2]] ["A"; "B"] clean_args ".trk" [[0; 1]; [1]]
      overlap_stats []
    = (tr', Ok (wpc_sft_list, stats'))
    ∧ stats' !! 1 = Some st'
    ∧ lookup_key "Cleaned WPC" st' = Some (VInt 1)
    ∧ lookup_key "Belonging to another bundle" st' = Some (VInt 1)
    ∧ lookup_key "VS" st' = Some (VInt 1).
Proof.
  eexists _, _, _. 
  destruct (@save_wpc_all_bundles_counts_the_kept_wpc free_float
              [[]; [0; 2]] ["A"; "B"] clean_args ".trk" [[0; 1]; [1]]
              overlap_stats [] _ _ _ eq_refl eq_refl eq_refl
              ltac:(vm_compute; reflexivity))
    as (_ & Hstats).
  destruct (Hstats 1 _ [0; 2] _ eq_refl eq_refl eq_refl)
    as (st' & Hst' & Hcleaned & Hrejected & Hother).
  exists st'. split_and!; [reflexivity|exact Hst'|exact Hcleaned
                           |exact (Hrejected eq_refl)|].
  by rewrite Hother.
Defined.

End SaveWpcRuns.
(** ** Loops whose turns are known *)

Section LoopsOutcome.
Context `{PyFloat}.

Lemma for__outcome {A} (body : A → M ()) (ev : A → list event) l tr :
  (∀ x t, x ∈ l → body x t = (t ++ ev x, Ok ())) →
  for_ l body tr = (tr ++ concat (ev <$> l), Ok ()).
Proof.
  revert tr. induction l as [|x l IH]; intros tr Hbody; simpl.
  - by rewrite app_nil_r.
  - rewrite (bind_ok _ _ _ _ _ (Hbody x tr ltac:(by left))).
    rewrite IH by (intros y t Hy; apply Hbody; by right).
    by rewrite (assoc_L (++)).
Qed.

Lemma for_acc_outcome {A S} (body : S → A → M S) (ev : A → list event)
    (step : S → A → S) l acc tr :
  (∀ x s t, x ∈ l → body s x t = (t ++ ev x, Ok (step s x))) →
  for_acc l body acc tr = (tr ++ concat (ev <$> l), Ok (foldl step acc l)).
Proof.
  revert acc tr. induction l as [|x l IH]; intros acc tr Hbody; simpl.
  - by rewrite app_nil_r.
  - rewrite (bind_ok _ _ _ _ _ (Hbody x acc tr ltac:(by left))).
    rewrite IH by (intros y s t Hy; apply Hbody; by right).
    by rewrite (assoc_L (++)).
Qed.

End LoopsOutcome.

(** ** [compute_ib_ic_all_bundles] *)

Section FalseConnectionsFacts.
Context `{Collaborators}.

Lemma extract_pair_outcome args acc roi tr :
  extract_pair args acc roi tr
  = (tr ++ pair_events args roi,
     Ok (acc.1 ++ [(extract_false_connections roi.1 roi.2
                      (dilate_endpoints args)).1],
         acc.2 ++ [(extract_false_connections roi.1 roi.2
                      (dilate_endpoints args)).2])).
Proof.
  unfold extract_pair, pair_events. destruct acc as [ib ic], roi as [r1 r2].
  simpl. destruct (extract_false_connections _ _ _) as [ib_sft ic_ids].
  simpl. unfold save_tractogram. rewrite !when_emit_bind.
  by rewrite <- (assoc_L (++)).
Qed.

Lemma foldl_snoc_pair {A B C} (f : A → B) (g : A → C) l bs cs :
  foldl (λ (acc : list B * list C) x, (acc.1 ++ [f x], acc.2 ++ [g x]))
    (bs, cs) l
  = (bs ++ (f <$> l), cs ++ (g <$> l)).
Proof.
  revert bs cs. induction l as [|x l IH]; intros bs cs; simpl.
  - by rewrite !app_nil_r.
  - rewrite IH. by rewrite <- !(assoc_L (++)).
Qed.

Lemma check_duplicates_ic_outcome comb (ic : list Np.ids) i j tr :
  i < length ic → j < length ic → length comb = length ic →
  check_duplicates_ic comb ic i j tr
  = (tr ++ duplicate_ic_warning comb ic i j, Ok ()).
Proof.
  intros Hi Hj Hlen.
  destruct (lookup_lt_is_Some_2 ic i Hi) as [ic_i Hic_i].
  destruct (lookup_lt_is_Some_2 ic j Hj) as [ic_j Hic_j].
  destruct (lookup_lt_is_Some_2 comb i) as [p_i Hp_i]; [lia|].
  destruct (lookup_lt_is_Some_2 comb j) as [p_j Hp_j]; [lia|].
  unfold check_duplicates_ic, duplicate_ic_warning.
  unfold Np.ids in *. rewrite Hic_i, Hic_j, Hp_i, Hp_j.
  rewrite (bind_ok _ _ _ _ _ (lift_getitem_run _ _ _ tr Hic_i)).
  rewrite (bind_ok _ _ _ _ _ (lift_getitem_run _ _ _ tr Hic_j)).
  simpl. case_bool_decide.
  - rewrite (bind_ok _ _ _ _ _ (lift_getitem_run _ _ _ tr Hp_i)).
    rewrite (bind_ok _ _ _ _ _ (lift_getitem_run _ _ _ tr Hp_j)).
    apply emit_run.
  - by rewrite app_nil_r.
Qed.

(** [compute_ib_ic_all_bundles] raises nothing; what it returns and what
    it emits. *)
Lemma compute_ib_ic_all_bundles_outcome comb args tr :
  let found roi :=
    extract_false_connections roi.1 roi.2 (dilate_endpoints args) in
  let ic := (λ roi, (found roi).2) <$> comb in
  compute_ib_ic_all_bundles comb args tr
  = (tr ++ concat (pair_events args <$> comb)
        ++ concat ((λ i, concat (duplicate_ic_warning comb ic i
                                   <$> range (i + 1) (length comb)))
                     <$> range 0 (length comb)),
     Ok ((λ roi, (found roi).1) <$> comb, ic)).
Proof.
  intros found ic. unfold compute_ib_ic_all_bundles.
  erewrite bind_ok.
  2:{ apply (for_acc_outcome _ (pair_events args)
               (λ acc roi, (acc.1 ++ [(found roi).1],
                            acc.2 ++ [(found roi).2]))).
      intros roi acc t _. apply extract_pair_outcome. }
  rewrite foldl_snoc_pair. simpl. fold ic.
  assert (length ic = length comb) as Hlen by (unfold ic; by rewrite length_fmap).
  rewrite Hlen.
  erewrite bind_ok.
  2:{ apply (for__outcome _
               (λ i, concat (duplicate_ic_warning comb ic i
                               <$> range (i + 1) (length comb)))).
      intros i t Hi%elem_of_range. apply for__outcome.
      intros j t' Hj%elem_of_range.
      apply check_duplicates_ic_outcome; lia. }
  by rewrite <- (assoc_L (++)).
Qed.

End FalseConnectionsFacts.

Section FalseConnectionsTheorems.
Context `{Collaborators}.

(** X6. [compute_ib_ic_all_bundles] raises nothing, whatever the ROI
    pairs: it returns, in the order of the pairs, the sub-collection and
    the ids that [extract_false_connections] finds between the two ROIs of
    each pair. *)
Theorem compute_ib_ic_all_bundles_returns_one_entry_per_pair comb args tr :
  ∃ new,
    compute_ib_ic_all_bundles comb args tr
    = (tr ++ new,
       Ok ((λ roi, (extract_false_connections roi.1 roi.2
                      (dilate_endpoints args)).1) <$> comb,
           (λ roi, (extract_false_connections roi.1 roi.2
                      (dilate_endpoints args)).2) <$> comb)).
Proof.
  eexists. by rewrite compute_ib_ic_all_bundles_outcome.
Qed.

(** X7. [compute_ib_ic_all_bundles] warns about the streamlines scored
    twice as invalid connections exactly for the ROI pairs [i < j] whose IC
    ids intersect, with the number of common ids and both pairs; it logs no
    other warning. *)
Theorem duplicate_ic_are_warned_for_intersecting_pairs comb args tr :
  let ic := (λ roi, (extract_false_connections roi.1 roi.2
                       (dilate_endpoints args)).2) <$> comb in
  ∃ new r,
    compute_ib_ic_all_bundles comb args tr = (tr ++ new, r)
    ∧ ∀ msg,
        LogWarning msg ∈ new
        ↔ ∃ i j pair_i pair_j ic_i ic_j,
            i < j
            ∧ comb !! i = Some pair_i ∧ comb !! j = Some pair_j
            ∧ ic !! i = Some ic_i ∧ ic !! j = Some ic_j
            ∧ 0 < length (Np.intersect1d ic_i ic_j)
            ∧ msg = MsgDuplicateIC (length (Np.intersect1d ic_i ic_j))
                      pair_i pair_j.
Proof.
  intros ic. eexists _, _.
  rewrite compute_ib_ic_all_bundles_outcome. fold ic.
  split; [done|].
  intros msg. rewrite elem_of_app. split.
  - intros [Hin|Hin].
    + apply list_elem_of_In, in_concat in Hin as (evs & Hevs & Hin).
      apply list_elem_of_In, list_elem_of_fmap in Hevs as (roi & -> & _).
      apply list_elem_of_In in Hin. unfold pair_events in Hin.
      apply elem_of_app in Hin as [Hin|Hin];
        match type of Hin with
        | context [if ?b then _ else _] => destruct b
        end;
        first [by apply elem_of_nil in Hin
              |by apply list_elem_of_singleton in Hin].
    + apply list_elem_of_In, in_concat in Hin as (evs & Hevs & Hin).
      apply list_elem_of_In, list_elem_of_fmap in Hevs
          as (i & -> & Hi%elem_of_range).
      apply in_concat in Hin as (evs & Hevs & Hin).
      apply list_elem_of_In, list_elem_of_fmap in Hevs
          as (j & -> & Hj%elem_of_range).
      apply list_elem_of_In in Hin. unfold duplicate_ic_warning in Hin.
      destruct (ic !! i) as [ic_i|] eqn:Hic_i; [|by apply elem_of_nil in Hin].
      destruct (ic !! j) as [ic_j|] eqn:Hic_j; [|by apply elem_of_nil in Hin].
      destruct (comb !! i) as [p_i|] eqn:Hp_i; [|by apply elem_of_nil in Hin].
      destruct (comb !! j) as [p_j|] eqn:Hp_j; [|by apply elem_of_nil in Hin].
      simpl in Hin. case_bool_decide; [|by apply elem_of_nil in Hin].
      apply list_elem_of_singleton in Hin as [= ->].
      exists i, j, p_i, p_j, ic_i, ic_j. split_and!; [lia|done..].
  - intros (i & j & p_i & p_j & ic_i & ic_j & Hij & Hp_i & Hp_j & Hic_i
            & Hic_j & Hpos & ->).
    right. apply list_elem_of_In, in_concat.
    exists (concat (duplicate_ic_warning comb ic i
                      <$> range (i + 1) (length comb))).
    split.
    { apply list_elem_of_In, list_elem_of_fmap. exists i. split; [done|].
      apply elem_of_range. apply lookup_lt_Some in Hp_i. lia. }
    apply in_concat. exists (duplicate_ic_warning comb ic i j). split.
    { apply list_elem_of_In, list_elem_of_fmap. exists j. split; [done|].
      apply elem_of_range. apply lookup_lt_Some in Hp_j. lia. }
    apply list_elem_of_In. unfold duplicate_ic_warning.
    unfold Np.ids in *. rewrite Hic_i, Hic_j, Hp_i, Hp_j. simpl.
    rewrite bool_decide_eq_true_2 by done. by left.
Qed.

End FalseConnectionsTheorems.
(** ** The events of a run *)

Section EmissionRules.
Context `{PyFloat}.
Implicit Types P : event → Prop.

Lemma emits_only_mret {A} P (a : A) : emits_only P (mret a).
Proof. intros tr. exists []. by rewrite app_nil_r. Qed.

Lemma emits_only_raise {A} P e : emits_only P (raise e : M A).
Proof. intros tr. exists []. by rewrite app_nil_r. Qed.

Lemma emits_only_lift {A} P (r : result A) : emits_only P (lift r).
Proof. intros tr. exists []. by rewrite app_nil_r. Qed.

Lemma emits_only_isdir P path : emits_only P (isdir path).
Proof. intros tr. exists []. by rewrite app_nil_r. Qed.

Lemma emits_only_emit P e : P e → emits_only P (emit e).
Proof. intros He tr. exists [e]. split; [done|]. by constructor. Qed.

Lemma emits_only_bind_run {A B} P (m : M A) (k : A → M B) :
  emits_only P m →
  (∀ a tr tr1, m tr = (tr1, Ok a) → emits_only P (k a)) →
  emits_only P (m ≫= k).
Proof.
  intros Hm Hk tr. destruct (Hm tr) as (new & Hrun & Hnew).
  unfold mbind, M_bind.
  destruct (m tr) as [tr1 [a|e]] eqn:Hmtr; simpl in Hrun; subst tr1.
  - destruct (Hk a tr _ Hmtr (tr ++ new)) as (new' & -> & Hnew').
    exists (new ++ new'). split; [by rewrite (assoc_L (++))|].
    by apply Forall_app.
  - by exists new.
Qed.

Lemma emits_only_bind {A B} P (m : M A) (k : A → M B) :
  emits_only P m → (∀ a, emits_only P (k a)) → emits_only P (m ≫= k).
Proof. intros Hm Hk. apply emits_only_bind_run; [done|]. intros. apply Hk. Qed.

Lemma emits_only_bind_lift {A B} P (r : result A) (k : A → M B) :
  (∀ a, r = Ok a → emits_only P (k a)) → emits_only P (lift r ≫= k).
Proof.
  intros Hk. apply emits_only_bind_run; [apply emits_only_lift|].
  intros a tr tr1 [= _ ->]. by apply Hk.
Qed.

Lemma emits_only_when P (b : bool) (m : M ()) :
  (b = true → emits_only P m) → emits_only P (when b m).
Proof. destruct b; simpl; [auto|]. intros _. apply emits_only_mret. Qed.

Lemma emits_only_for_ {A} P (l : list A) (body : A → M ()) :
  (∀ x, x ∈ l → emits_only P (body x)) → emits_only P (for_ l body).
Proof.
  induction l as [|x l IH]; intros Hbody; simpl.
  - apply emits_only_mret.
  - apply emits_only_bind; [apply Hbody; by left|].
    intros _. apply IH. intros y Hy. apply Hbody. by right.
Qed.

Lemma emits_only_for_acc {A S} P (l : list A) (body : S → A → M S) acc :
  (∀ s x, x ∈ l → emits_only P (body s x)) →
  emits_only P (for_acc l body acc).
Proof.
  revert acc. induction l as [|x l IH]; intros acc Hbody; simpl.
  - apply emits_only_mret.
  - apply emits_only_bind; [apply Hbody; by left|].
    intros s. apply IH. intros s' y Hy. apply Hbody. by right.
Qed.

Lemma emits_only_impl {A} P Q (m : M A) :
  (∀ e, P e → Q e) → emits_only P m → emits_only Q m.
Proof.
  intros HPQ Hm tr. destruct (Hm tr) as (new & Hrun & Hnew).
  exists new. split; [done|]. by eapply Forall_impl.
Qed.

(** The events that a computation that ends has added. *)
Lemma emits_only_run {A} P (m : M A) tr tr' r :
  emits_only P m → m tr = (tr', r) → ∃ new, tr' = tr ++ new ∧ Forall P new.
Proof.
  intros Hm Hrun. destruct (Hm tr) as (new & Heq & Hnew).
  rewrite Hrun in Heq. by exists new.
Qed.

End EmissionRules.

Ltac emits_step :=
  lazymatch goal with
  | |- emits_only _ (mret _) => apply emits_only_mret
  | |- emits_only _ (raise _) => apply emits_only_raise
  | |- emits_only _ (lift _ ≫= _) => apply emits_only_bind_lift; intros ? ?
  | |- emits_only _ (lift _) => apply emits_only_lift
  | |- emits_only _ (isdir _) => apply emits_only_isdir
  | |- emits_only _ (when _ _) => apply emits_only_when; intros ?
  | |- emits_only _ (for_ _ _) => apply emits_only_for_; intros ? ?
  | |- emits_only _ (for_acc _ _ _) => apply emits_only_for_acc; intros ? ? ?
  | |- emits_only _ (_ ≫= _) => apply emits_only_bind; [|intros ?]
  end.

(** ** Paths below the output directory *)

Section Paths.

Lemma prefix_app a b : String.prefix a (a +:+ b) = true.
Proof.
  induction a as [|c a IH]; simpl; [by destruct b|].
  destruct (ascii_dec c c); [done|congruence].
Qed.

Lemma prefix_trans a b c :
  String.prefix a b = true → String.prefix b c = true →
  String.prefix a c = true.
Proof.
  revert b c. induction a as [|x a IH]; intros [|y b] [|z c]; simpl;
    try done.
  destruct (ascii_dec x y) as [->|]; [|done].
  destruct (ascii_dec y z) as [->|]; [|done].
  destruct (ascii_dec z z); [|done]. apply IH.
Qed.

(** A relative name joined to a directory is below the directory. *)
Lemma prefix_path_join a b :
  Py.startswith_slash b = false → String.prefix a (Py.path_join a b) = true.
Proof.
  intros Hb. unfold Py.path_join. rewrite Hb.
  destruct (_ || _); apply prefix_app.
Qed.

End Paths.

(** The events of the parts of the script that create no directory, for
    any property [P] of events that holds of the log records and of the
    tractograms saved below [out_dir], empty ones only without
    [--no_empty]. *)
Section PartsEvents.
Context `{Collaborators}.
Variable args : Args.
Variable P : event → Prop.
Hypothesis Hinfo : ∀ msg, P (LogInfo msg).
Hypothesis Hwarning : ∀ msg, P (LogWarning msg).
Hypothesis Hsave : ∀ t rel check,
  Py.startswith_slash rel = false →
  bool_decide (0 < len_sft t) || negb (no_empty args) = true →
  P (SaveTractogram t (Py.path_join (out_dir args) rel) check).

Lemma save_tractogram_emits t rel check :
  Py.startswith_slash rel = false →
  bool_decide (0 < len_sft t) || negb (no_empty args) = true →
  emits_only P (save_tractogram t (Py.path_join (out_dir args) rel) check).
Proof. intros Hrel Hcond. apply emits_only_emit. by apply Hsave. Qed.

Lemma read_config_file_emits config :
  emits_only P (read_config_file args config).
Proof.
  unfold read_config_file. repeat emits_step.
  unfold read_bundle. apply emits_only_bind.
  - destruct (negb (contains _ _));
      [by apply emits_only_emit|apply emits_only_mret].
  - intros _. destruct (_ && _); emits_step.
Qed.

Lemma verify_compatibility_emits files :
  emits_only P (verify_compatibility files).
Proof.
  unfold verify_compatibility. emits_step.
  destruct (is_header_compatible _); [emits_step|apply emits_only_raise].
Qed.

Lemma assert_inputs_exist_emits required optional :
  emits_only P (assert_inputs_exist required optional).
Proof.
  unfold assert_inputs_exist.
  destruct (inputs_exist _ _); [emits_step|apply emits_only_raise].
Qed.

Lemma extract_bundle_emits gt_tails gt_heads bundle_names lengths angles
    orientation_lengths limits_inv_masks ext acc i :
  emits_only P
    (extract_bundle gt_tails gt_heads bundle_names lengths angles
       orientation_lengths limits_inv_masks args ext acc i).
Proof.
  unfold extract_bundle. destruct acc as [[[vb vs] wpc] stats].
  do 6 emits_step.
  destruct (extract_vb_vs _ _ _ _ _ _ _ _) as [[vs_i wpc_i] stats_i].
  emits_step. apply emits_only_bind.
  { emits_step. by apply save_tractogram_emits. }
  intros _. emits_step.
  apply emits_only_bind; [by apply emits_only_emit|].
  intros _. emits_step.
Qed.

Lemma wpc_phase_emits l wpc vs stats :
  emits_only P (wpc_phase l args wpc vs stats).
Proof.
  unfold wpc_phase. destruct (save_wpc_separately args); [|emits_step].
  apply emits_only_bind; [by apply emits_only_emit|]. intros _.
  apply emits_only_bind; [|intros [? ?]; emits_step].
  unfold save_wpc_all_bundles. emits_step. unfold clean_wpc.
  destruct s as [sfts sts]. emits_step.
  apply emits_only_bind.
  { destruct (remove_wpc_belonging_to_another_bundle args);
      [do 3 emits_step|emits_step]. }
  intros [wpc_ids sts']. emits_step. apply emits_only_bind.
  { emits_step. by apply save_tractogram_emits. }
  intros _. emits_step.
  apply emits_only_bind; [by apply emits_only_emit|].
  intros _. emits_step.
Qed.

Lemma ic_phase_emits l :
  emits_only P (ic_phase l args).
Proof.
  unfold ic_phase. destruct (compute_IC args); [|emits_step].
  apply emits_only_bind; [by apply emits_only_emit|]. intros _.
  emits_step.
  apply emits_only_bind; [|intros [? ?]; emits_step].
  unfold compute_ib_ic_all_bundles. apply emits_only_bind.
  - emits_step. unfold extract_pair. destruct s as [ib ic], x as [r1 r2].
    destruct (extract_false_connections _ _ _) as [ib_sft ic_ids].
    apply emits_only_bind.
    { emits_step. by apply save_tractogram_emits. }
    intros _. apply emits_only_bind; [|intros _; emits_step].
    emits_step. by apply emits_only_emit.
  - intros r. apply emits_only_bind; [|intros _; emits_step].
    do 2 emits_step. unfold check_duplicates_ic. do 2 emits_step.
    case_bool_decide; [|emits_step].
    do 2 emits_step. by apply emits_only_emit.
Qed.

End PartsEvents.

Section ScoringEvents.
Context `{Collaborators}.

Lemma below_out_dir args rel :
  Py.startswith_slash rel = false →
  String.prefix (out_dir args) (Py.path_join (out_dir args) rel) = true.
Proof. apply prefix_path_join. Qed.

Lemma scoring_event_save args t rel check :
  Py.startswith_slash rel = false →
  bool_decide (0 < len_sft t) || negb (no_empty args) = true →
  scoring_event args (SaveTractogram t (Py.path_join (out_dir args) rel) check).
Proof.
  intros Hrel Hsave. simpl. split; [by apply below_out_dir|].
  apply orb_true_iff in Hsave as [Hpos%bool_decide_eq_true|Hno].
  - by left.
  - right. by destruct (no_empty args).
Qed.

Lemma save_tractogram_scoring args t rel check :
  Py.startswith_slash rel = false →
  bool_decide (0 < len_sft t) || negb (no_empty args) = true →
  emits_only (scoring_event args)
    (save_tractogram t (Py.path_join (out_dir args) rel) check).
Proof.
  apply save_tractogram_emits. apply scoring_event_save.
Qed.

Lemma read_config_file_scoring args config :
  emits_only (scoring_event args) (read_config_file args config).
Proof. by apply read_config_file_emits. Qed.

Lemma verify_compatibility_scoring args files :
  emits_only (scoring_event args) (verify_compatibility files).
Proof. apply verify_compatibility_emits. Qed.

Lemma load_and_verify_everything_scoring args config :
  emits_only (scoring_event args) (load_and_verify_everything args config).
Proof.
  unfold load_and_verify_everything.
  apply emits_only_bind; [apply assert_inputs_exist_emits|].
  intros _. apply emits_only_bind.
  { unfold assert_output_dirs_exist_and_empty.
    destruct (output_dirs_exist_and_empty _);
      [emits_step|apply emits_only_raise]. }
  intros _. apply emits_only_bind.
  { apply emits_only_emit. by apply below_out_dir. }
  intros _. apply emits_only_bind.
  { emits_step. apply emits_only_emit. by apply below_out_dir. }
  intros _. apply emits_only_bind.
  { emits_step. apply emits_only_emit. by apply below_out_dir. }
  intros _. apply emits_only_bind; [apply read_config_file_scoring|].
  intros c. emits_step.
  apply emits_only_bind; [apply assert_inputs_exist_emits|].
  intros _. apply emits_only_bind; [by apply emits_only_emit|].
  intros _. apply emits_only_bind; [by apply emits_only_emit|].
  intros _. apply emits_only_bind.
  { apply verify_compatibility_scoring. }
  intros _. apply emits_only_bind; [by apply emits_only_emit|].
  intros _.
  destruct (compute_masks (gt_masks_files c)) as [[[? ?] ?] ?].
  destruct (compute_masks (limits_masks_files c)) as [[[? ?] ?] ?].
  apply emits_only_bind; [by apply emits_only_emit|].
  intros _.
  destruct (compute_endpoint_masks _ _ _ _) as [tails heads].
  apply emits_only_bind; [by apply emits_only_emit|].
  intros _. apply emits_only_bind; [apply verify_compatibility_scoring|].
  intros _. emits_step.
Qed.

Lemma compute_vb_vs_all_bundles_scoring gt_tails gt_heads bundle_names
    lengths angles orientation_lengths limits_inv_masks args ext :
  emits_only (scoring_event args)
    (compute_vb_vs_all_bundles gt_tails gt_heads bundle_names lengths angles
       orientation_lengths limits_inv_masks args ext).
Proof.
  unfold compute_vb_vs_all_bundles. apply emits_only_bind.
  - emits_step. apply extract_bundle_emits; [done..|].
    apply scoring_event_save.
  - intros r. apply emits_only_bind; [|intros _; emits_step].
    do 2 emits_step. unfold check_duplicates. do 2 emits_step.
    case_bool_decide as Hdup; [|emits_step].
    do 2 emits_step.
    apply emits_only_bind; [by apply emits_only_emit|]. intros _.
    assert (String.prefix (out_dir args)
              (Py.path_join (out_dir args) "segmented_conflicts") = true)
      as Hdir by (by apply below_out_dir).
    apply emits_only_bind; [apply emits_only_isdir|]. intros exists_.
    apply emits_only_bind.
    { emits_step. by apply emits_only_emit. }
    intros _. emits_step. apply emits_only_emit. simpl.
    split.
    + eapply prefix_trans; [exact Hdir|]. by apply prefix_path_join.
    + left. unfold sft_getitem in *.
      destruct (forallb _ _); [|done]. by simplify_eq.
Qed.

Lemma wpc_phase_scoring l args wpc vs stats :
  emits_only (scoring_event args) (wpc_phase l args wpc vs stats).
Proof. apply wpc_phase_emits; [done..|]. apply scoring_event_save. Qed.

Lemma ic_phase_scoring l args :
  emits_only (scoring_event args) (ic_phase l args).
Proof. apply ic_phase_emits; [done..|]. apply scoring_event_save. Qed.

(** Every event of a run is a log record, a directory or a tractogram
    below [out_dir], or one of the two JSON files. *)
Lemma main_emits args config :
  emits_only (main_event args) (main args config).
Proof.
  assert (∀ A (m : M A),
            emits_only (scoring_event args) m →
            emits_only (main_event args) m) as Hscoring.
  { intros A m. apply emits_only_impl. intros e He. by left. }
  assert (∀ obj name,
            name ∈ ["processing_stats.json"; "results.json"] →
            emits_only (main_event args)
              (emit (JsonDump obj (Py.path_join (out_dir args) name)
                       (indent args) (sort_keys args)))) as Hjson.
  { intros obj name Hname. apply emits_only_emit. right. eauto. }
  unfold main. apply emits_only_bind.
  - unfold main_score. apply emits_only_bind.
    { apply Hscoring, load_and_verify_everything_scoring. }
    intros l. apply emits_only_bind.
    { apply Hscoring. by apply emits_only_emit. }
    intros _. apply emits_only_bind.
    { apply Hscoring, compute_vb_vs_all_bundles_scoring. }
    intros [[[vb vs] wpc] stats]. apply emits_only_bind.
    { apply Hscoring, wpc_phase_scoring. }
    intros [[wpc_sft wpc'] stats']. apply emits_only_bind; [|intros _; emits_step].
    unfold save_bundle_stats. emits_step. apply Hjson. by left.
  - intros s. unfold main_report. apply emits_only_bind.
    { apply Hscoring, ic_phase_scoring. }
    intros [[ib ic] comb]. apply emits_only_bind_run.
    { apply Hscoring. destruct (compute_IC args).
      - apply emits_only_bind; [by apply emits_only_emit|].
        intros _. emits_step.
      - apply emits_only_bind; [by apply emits_only_emit|].
        intros _. emits_step. }
    intros filename tr tr1 Hname.
    assert (Py.startswith_slash filename = false) as Hrel.
    { destruct (compute_IC args);
        rewrite (bind_ok _ _ _ _ _ (emit_run _ _)) in Hname;
        by injection Hname as _ <-. }
    apply emits_only_bind.
    { apply Hscoring. emits_step. by apply save_tractogram_scoring. }
    intros _. emits_step. apply emits_only_bind.
    { apply Hscoring. by apply emits_only_emit. }
    intros _. apply emits_only_bind; [|intros _; emits_step].
    apply Hjson. right. by left.
Qed.

End ScoringEvents.

Section MainTrace.
Context `{Collaborators}.

Lemma main_score_trace args config tr tr1 s :
  main_score args config tr = (tr1, Ok s) →
  ∃ before stats,
    tr1 = tr ++ before
            ++ [JsonDump (VDict stats)
                  (Py.path_join (out_dir args) "processing_stats.json")
                  (indent args) (sort_keys args)]
    ∧ Forall (scoring_event args) before.
Proof.
  unfold main_score. intros Hrun.
  bind_inv_as Hrun l t1 Hload.
  apply (emits_only_run _ _ _ _ _
           (load_and_verify_everything_scoring args config)) in Hload
      as (n1 & -> & Hn1).
  bind_inv_as Hrun u t2 Hinfo. rewrite emit_run in Hinfo.
  injection Hinfo as <- _.
  bind_inv_as Hrun r t3 Hvs. destruct r as [[[vb vs] wpc] stats].
  apply (emits_only_run _ _ _ _ _
           (compute_vb_vs_all_bundles_scoring _ _ _ _ _ _ _ args _)) in Hvs
      as (n2 & -> & Hn2).
  bind_inv_as Hrun r t4 Hwpc. destruct r as [[wpc_sft wpc'] stats'].
  apply (emits_only_run _ _ _ _ _ (wpc_phase_scoring _ args _ _ _)) in Hwpc
      as (n3 & -> & Hn3).
  bind_inv_as Hrun u' t5 Hstats. apply mret_inv in Hrun as [-> _].
  unfold save_bundle_stats in Hstats.
  bind_inv_as Hstats d t6 Hdict. apply lift_inv in Hdict as [-> _].
  rewrite emit_run in Hstats. injection Hstats as <-.
  exists (n1 ++ [LogInfo (MsgText "Scoring valid connections")] ++ n2 ++ n3),
    d.
  split; [by rewrite <- !(assoc_L (++))|].
  rewrite !Forall_app. split_and!; try done. by repeat constructor.
Qed.

Lemma main_report_trace args s tr tr' f report :
  main_report args s tr = (tr', Ok (f, report)) →
  ∃ between,
    tr' = tr ++ between
            ++ [JsonDump (VDict report)
                  (Py.path_join (out_dir args) "results.json")
                  (indent args) (sort_keys args)]
    ∧ Forall (scoring_event args) between.
Proof.
  unfold main_report. intros Hrun.
  bind_inv_as Hrun r t1 Hic. destruct r as [[ib ic] comb].
  apply (emits_only_run _ _ _ _ _ (ic_phase_scoring _ args)) in Hic
      as (n1 & -> & Hn1).
  bind_inv_as Hrun filename t2 Hname.
  assert (∃ e, t2 = (tr ++ n1) ++ [LogInfo e]
               ∧ Py.startswith_slash filename = false)
    as (e & -> & Hrel).
  { destruct (compute_IC args);
      rewrite (bind_ok _ _ _ _ _ (emit_run _ _)) in Hname;
      injection Hname as <- <-; eauto. }
  bind_inv_as Hrun u t3 Hsave.
  assert (∃ n2, t3 = ((tr ++ n1) ++ [LogInfo e]) ++ n2
                ∧ Forall (scoring_event args) n2) as (n2 & -> & Hn2).
  { eapply emits_only_run; [|exact Hsave].
    emits_step. by apply save_tractogram_scoring. }
  bind_inv_as Hrun final_results t4 Hreport.
  apply lift_inv in Hreport as [-> _].
  bind_inv_as Hrun u' t5 Hinfo. rewrite emit_run in Hinfo.
  injection Hinfo as <- _.
  bind_inv_as Hrun u'' t6 Hdump. rewrite emit_run in Hdump.
  injection Hdump as <- _.
  apply mret_inv in Hrun as [-> [= _ ->]].
  exists (n1 ++ [LogInfo e] ++ n2 ++ [LogInfo (MsgResultsSaved (out_dir args))]).
  split; [by rewrite <- !(assoc_L (++))|].
  rewrite !Forall_app. split_and!; try done; by repeat constructor.
Qed.

End MainTrace.

Section MainTraceTheorems.
Context `{Collaborators}.

(** X8. However a run ends, every directory it has created and every file
    it has written (tractogram or JSON) has a path that starts with
    [out_dir]. *)
Theorem every_output_of_a_run_is_below_out_dir args config tr :
  ∃ new,
    (main args config tr).1 = tr ++ new
    ∧ Forall (λ e, ∀ path, event_path e = Some path →
                           String.prefix (out_dir args) path = true) new.
Proof.
  destruct (main_emits args config tr) as (new & Hrun & Hnew).
  exists new. split; [done|].
  eapply Forall_impl; [exact Hnew|].
  intros e [He|(obj & name & Hname & ->)] path Hpath.
  - destruct e; simpl in *; simplify_eq; [done|by destruct He|done].
  - injection Hpath as <-. apply prefix_path_join.
    apply elem_of_cons in Hname as [->|Hname]; [done|].
    by apply list_elem_of_singleton in Hname as ->.
Qed.

(** X9. With [--no_empty], however a run ends, no tractogram that it has
    saved is empty. *)
Theorem no_empty_tractogram_is_saved_with_no_empty args config tr :
  no_empty args = true →
  ∃ new,
    (main args config tr).1 = tr ++ new
    ∧ Forall (λ e, ∀ t path check, e = SaveTractogram t path check →
                                   0 < len_sft t) new.
Proof.
  intros Hflag. destruct (main_emits args config tr) as (new & Hrun & Hnew).
  exists new. split; [done|].
  eapply Forall_impl; [exact Hnew|].
  intros e [He|(obj & name & _ & ->)] t path check Heq; [|done].
  subst e. destruct He as [_ [Hpos|Hno]]; [done|congruence].
Qed.

(** X10. A run that ends well has written exactly two JSON files:
    [processing_stats.json] first, and [results.json], holding the report
    of [compute_tractometry], as its last action. *)
Theorem completed_run_wrote_statistics_then_report
    args config tr tr' f report :
  main args config tr = (tr', Ok (f, report)) →
  ∃ before stats between,
    tr' = tr ++ before
            ++ [JsonDump (VDict stats)
                  (Py.path_join (out_dir args) "processing_stats.json")
                  (indent args) (sort_keys args)]
            ++ between
            ++ [JsonDump (VDict report)
                  (Py.path_join (out_dir args) "results.json")
                  (indent args) (sort_keys args)]
    ∧ Forall (λ e, ∀ obj path indent sort_keys,
                     e ≠ JsonDump obj path indent sort_keys)
        (before ++ between).
Proof.
  unfold main. intros Hrun. bind_inv_as Hrun s tr1 Hscore.
  apply main_score_trace in Hscore as (before & stats & -> & Hbefore).
  apply main_report_trace in Hrun as (between & -> & Hbetween).
  exists before, stats, between.
  split; [by rewrite <- !(assoc_L (++))|].
  apply Forall_app. split.
  - eapply Forall_impl; [exact Hbefore|]. by intros [] He.
  - eapply Forall_impl; [exact Hbetween|]. by intros [] He.
Qed.

End MainTraceTheorems.

Section MainTraceRuns.
Import Scenario Runs.

(** X9, witness: a run with [--no_empty], [--save_wpc_separately] and
    [--compute_IC] in [overlap_world], where bundle [A] has no WPC and no
    two ROIs are joined by an invalid connection. *)
Lemma no_empty_run_saves_no_empty_file :
  ∃ new,
    (@main _ (collaborators overlap_world) no_empty_args overlap_config []).1
    = [] ++ new
    ∧ Forall (λ e, ∀ t path check, e = SaveTractogram t path check →
                                   0 < len_sft t) new.
Proof.
  exact (@no_empty_tractogram_is_saved_with_no_empty _
           (collaborators overlap_world) no_empty_args overlap_config []
           eq_refl).
Defined.

(** X10, witness: the run of [overlap_world] with the default options. *)
Lemma overlap_run_writes_two_json_files :
  ∃ f report before stats between,
    @main _ (collaborators overlap_world) default_args overlap_config []
    = ([] ++ before
         ++ [JsonDump (VDict stats) "out/processing_stats.json" None false]
         ++ between
         ++ [JsonDump (VDict report) "out/results.json" None false],
       Ok (f, report))
    ∧ Forall (λ e, ∀ obj path indent sort_keys,
                     e ≠ JsonDump obj path indent sort_keys)
        (before ++ between).
Proof.
  destruct (@main _ (collaborators overlap_world) default_args
              overlap_config []) as [tr' [[f report]|e]] eqn:Hrun;
    [|by vm_compute in Hrun].
  destruct (@completed_run_wrote_statistics_then_report _
              (collaborators overlap_world) default_args overlap_config
              [] tr' f report Hrun)
    as (before & stats & between & -> & Hall).
  by exists f, report, before, stats, between.
Defined.

End MainTraceRuns.
(** ** The final id arrays and their counts *)

Section FinalCounts.
Context `{Collaborators}.

Lemma length_remove_dups_le (l : Np.ids) : length (remove_dups l) ≤ length l.
Proof.
  induction l as [|x l IH]; simpl; [done|].
  case_decide; simpl; lia.
Qed.

Lemma length_remove_dups_NoDup (l : Np.ids) :
  length (remove_dups l) = length l ↔ NoDup l.
Proof.
  induction l as [|x l IH]; simpl.
  - split; [constructor|done].
  - pose proof (length_remove_dups_le l). rewrite NoDup_cons.
    case_decide; simpl.
    + split; [lia|]. by intros [? _].
    + rewrite <- IH. split; [intros; split; [done|lia]|intros [_ ?]; lia].
Qed.

Lemma length_unique (l : Np.ids) : length (Np.unique l) = length (remove_dups l).
Proof. unfold Np.unique. apply Permutation_length, merge_sort_Permutation. Qed.

(** The distinct ids of the three unions together are the distinct ids of
    all the lists. *)
Lemma unions_distinct_ids vs wpc ic :
  let f := final_ids vs wpc ic in
  length (Np.unique (Py.chain (vs ++ wpc ++ ic)))
  = length (remove_dups (all_vs_ids f ++ all_wpc_ids f ++ all_ic_ids f)).
Proof.
  intros f. rewrite length_unique.
  apply Permutation_length, NoDup_Permutation;
    [apply NoDup_remove_dups..|].
  intros i. rewrite !elem_of_remove_dups. unfold f, final_ids. simpl.
  rewrite !elem_of_app, !elem_of_unique. unfold Py.chain.
  by rewrite !concat_app, !elem_of_app.
Qed.

End FinalCounts.

Section FinalCountsTheorems.
Context `{Collaborators}.

(** X11. When the id lists hold ids of the tractogram, the four counts
    [VS + WPC + IC + NC] add up to the number of streamlines at least, and
    to exactly that number if and only if no id is in two of the VS, WPC and
    IC unions. *)
Theorem counts_add_up_exactly_when_no_id_is_in_two_unions vs wpc ic :
  (∀ i, i ∈ Py.chain (vs ++ wpc ++ ic) → i < total_streamlines) →
  let f := final_ids vs wpc ic in
  total_streamlines ≤ sum_counts f
  ∧ (sum_counts f = total_streamlines
     ↔ NoDup (all_vs_ids f ++ all_wpc_ids f ++ all_ic_ids f)).
Proof.
  intros Hrange f.
  pose proof (nc_count_complement vs wpc ic Hrange) as Hnc.
  pose proof (unions_distinct_ids vs wpc ic) as Hdistinct.
  cbv zeta in Hnc, Hdistinct. fold f in Hnc, Hdistinct.
  rewrite Hdistinct in Hnc.
  pose proof (length_remove_dups_le
                (all_vs_ids f ++ all_wpc_ids f ++ all_ic_ids f)) as Hle.
  rewrite <- length_remove_dups_NoDup.
  unfold sum_counts. rewrite !length_app in *. lia.
Qed.

End FinalCountsTheorems.

Section FinalCountsRuns.
Import Scenario.

(** X11, witness: the id lists of [overlap_world] with
    [--save_wpc_separately]; id 0 is in the VS and in the WPC union, and the
    counts add up to 5 for 4 streamlines. *)
Lemma overlap_counts_exceed :
  let f := @final_ids _ (collaborators overlap_world)
             [[0; 1]; [1]] [[]; [0; 2]] [] in
  4 ≤ sum_counts f
  ∧ (sum_counts f = 4
     ↔ NoDup (all_vs_ids f ++ all_wpc_ids f ++ all_ic_ids f)).
Proof.
  apply (@counts_add_up_exactly_when_no_id_is_in_two_unions _
           (collaborators overlap_world) [[0; 1]; [1]] [[]; [0; 2]] []).
  intros i Hi. simpl in *.
  repeat (apply elem_of_cons in Hi as [->|Hi]; [lia|]).
  by apply elem_of_nil in Hi.
Defined.

End FinalCountsRuns.

(** ** The report *)

Section ReportFacts.
Context `{Collaborators}.

Lemma mask_failure_missing gt_masks :
  existsb blank_mask gt_masks = false → None ∈ gt_masks →
  mask_failure gt_masks = Some (KeyError "OL_PCT").
Proof.
  induction gt_masks as [|[gt|] gt_masks IH]; simpl.
  - by intros _ ?%elem_of_nil.
  - intros [Hblank Hrest]%orb_false_iff Hin.
    apply bool_decide_eq_false in Hblank. rewrite decide_False by done.
    apply IH; [done|]. by apply elem_of_cons in Hin as [|].
  - done.
Qed.

(** An entry among the first of a dict is found by the look-up. *)
Lemma lookup_key_take {V} n key (d : list (string * V)) v :
  lookup_key key (take n d) = Some v → lookup_key key d = Some v.
Proof.
  revert n. induction d as [|[k w] d IH]; intros [|n]; simpl; try done.
  case_decide; [done|]. apply IH.
Qed.

End ReportFacts.

Section ReportTheorems.
Context `{Collaborators}.


(** X13. On the lists that [main] passes, when the tractogram has a
    streamline and no ground-truth mask is without voxel, a bundle without
    ground-truth mask makes [compute_tractometry] raise [KeyError] for
    ["OL_PCT"]: there is no report. *)
Theorem missing_gt_mask_raises_key_error
    all_vs all_wpc all_ic all_nc vs_ids_list wpc_ids_list ic_ids_list
    vb_sft_list wpc_sft_list ib_sft_list args names gt_masks dimensions
    comb_filename :
  length vb_sft_list = length gt_masks →
  length names = length gt_masks →
  (save_wpc_separately args = true →
   length wpc_sft_list = length gt_masks) →
  (compute_IC args = true →
   ∃ comb, comb_filename = Some comb ∧ length comb ≤ length ib_sft_list) →
  total_streamlines ≠ 0 →
  existsb blank_mask gt_masks = false →
  None ∈ gt_masks →
  compute_tractometry all_vs all_wpc all_ic all_nc vs_ids_list wpc_ids_list
    ic_ids_list vb_sft_list wpc_sft_list ib_sft_list args names gt_masks
    dimensions comb_filename
  = Raise (KeyError "OL_PCT").
Proof.
  intros Hvb Hnames Hwpc Hcomb Htotal Hblank Hnone.
  pose proof (compute_tractometry_outcome all_vs all_wpc all_ic all_nc
                vs_ids_list wpc_ids_list ic_ids_list vb_sft_list
                wpc_sft_list ib_sft_list args names gt_masks dimensions
                comb_filename Hvb Hnames Hwpc Hcomb) as Hout.
  cbv zeta in Hout. rewrite decide_False in Hout by done.
  by rewrite (mask_failure_missing _ Hblank Hnone) in Hout.
Qed.

(** X14. In the report of a run that ends well, the entries ["VS"],
    ["WPC"], ["IC"] and ["NC"] are the sizes of the four final id arrays,
    ["IS = IC + NC"] is the sum of the last two, and ["total_streamlines"]
    is the number of streamlines; the streamlines of the NC array are
    saved in the file of the remainder ([nc] with [--compute_IC], [is]
    without), unless there is none and [--no_empty] is set. *)
Theorem report_counts_are_the_sizes_of_the_final_arrays
    args config tr tr' f report :
  main args config tr = (tr', Ok (f, report)) →
  let count (l : Np.ids) := VInt (Z.of_nat (length l)) in
  lookup_key "VS" report = Some (count (all_vs_ids f))
  ∧ lookup_key "WPC" report = Some (count (all_wpc_ids f))
  ∧ lookup_key "IC" report = Some (count (all_ic_ids f))
  ∧ lookup_key "NC" report = Some (count (all_nc_ids f))
  ∧ lookup_key "IS = IC + NC" report
    = Some (VInt (Z.of_nat (length (all_ic_ids f))
                  + Z.of_nat (length (all_nc_ids f))))
  ∧ lookup_key "total_streamlines" report
    = Some (VInt (Z.of_nat total_streamlines))
  ∧ ∃ ext,
      (0 < length (all_nc_ids f) ∨ no_empty args = false →
       SaveTractogram (make_sft_from_ids (all_nc_ids f))
         (Py.path_join (out_dir args)
            ((if compute_IC args then "nc" else "is") +:+ ext))
         false ∈ tr').
Proof.
  intros Hrun. cbv zeta. unfold main in Hrun.
  bind_inv_as Hrun s tr1 Hscore.
  unfold main_report in Hrun.
  bind_inv_as Hrun r tr2 Hic. destruct r as [[ib ic] comb].
  bind_inv_as Hrun filename tr3 Hname.
  bind_inv_as Hrun u tr4 Hsave.
  bind_inv_as Hrun final_results tr5 Hreport.
  apply lift_inv in Hreport as [-> Hreport].
  bind_inv_as Hrun u' tr6 Hlog. rewrite emit_run in Hlog.
  injection Hlog as <- _.
  bind_inv_as Hrun u'' tr7 Hdump. rewrite emit_run in Hdump.
  injection Hdump as <- _.
  apply mret_inv in Hrun as [-> [= -> ->]].
  apply compute_tractometry_counts in Hreport. cbv zeta in Hreport.
  unfold count_section in Hreport.
  split_and!;
    try (apply (lookup_key_take 16); rewrite Hreport; reflexivity).
  exists (ext (loaded s)). intros Hnc.
  assert (filename
          = (if compute_IC args then "nc" else "is") +:+ ext (loaded s))
    as ->.
  { destruct (compute_IC args);
      rewrite (bind_ok _ _ _ _ _ (emit_run _ _)) in Hname;
      by injection Hname as _ <-. }
  assert (bool_decide
            (0 < len_sft (make_sft_from_ids
                            (all_nc_ids
                               (final_ids (vs_ids_list s) (wpc_ids_list s)
                                  ic))))
          || negb (no_empty args) = true) as Hcond.
  { apply orb_true_iff. destruct Hnc as [Hpos| ->]; [left|by right].
    by apply bool_decide_eq_true. }
  unfold when, save_tractogram in Hsave. rewrite Hcond, emit_run in Hsave.
  injection Hsave as <-.
  rewrite !elem_of_app. left. left. right. by left.
Qed.

End ReportTheorems.

Section ReportRuns.
Import Scenario.


(** X13, witness: two bundles, the second without ground-truth mask. *)
Lemma second_bundle_without_gt_mask :
  @compute_tractometry _ (collaborators overlap_world)
    [0; 1] [] [] [2; 3] [[0; 1]; [1]] [] []
    [{| streamlines := [0; 1] |}; {| streamlines := [1] |}] [] []
    default_args ["A"; "B"] [Some [1; 1; 0; 0]%Z; None] [4] None
  = Raise (KeyError "OL_PCT").
Proof.
  apply (@missing_gt_mask_raises_key_error _ (collaborators overlap_world)).
  - reflexivity.
  - reflexivity.
  - simpl. discriminate.
  - simpl. discriminate.
  - simpl. lia.
  - reflexivity.
  - right. left.
Defined.

(** X14, witness: the run of [overlap_world] with the default options
    reports 2 VS and 2 IS among 4 streamlines, and saves streamlines 2 and
    3 as the remainder. *)
Lemma overlap_run_report_counts :
  ∃ tr' f report ext,
    @main _ (collaborators overlap_world) default_args overlap_config []
    = (tr', Ok (f, report))
    ∧ lookup_key "VS" report = Some (VInt 2)
    ∧ lookup_key "NC" report = Some (VInt 2)
    ∧ lookup_key "total_streamlines" report = Some (VInt 4)
    ∧ SaveTractogram {| streamlines := [2; 3] |}
        (Py.path_join "out" ("is" +:+ ext)) false ∈ tr'.
Proof.
  destruct (@main _ (collaborators overlap_world) default_args
              overlap_config []) as [tr' [[f report]|e]] eqn:Hrun;
    [|by vm_compute in Hrun].
  destruct (@report_counts_are_the_sizes_of_the_final_arrays _
              (collaborators overlap_world) default_args overlap_config
              [] tr' f report Hrun)
    as (Hvs & _ & _ & Hnc & _ & Htotal & ext & Hsave).
  assert (f = {| all_vs_ids := [0; 1]; all_wpc_ids := []; all_ic_ids := [];
                 all_nc_ids := [2; 3] |}) as Hf.
  { vm_compute in Hrun. by injection Hrun as _ <- _. }
  subst f. exists tr'. eexists. exists report, ext.
  split_and!; [done|done|done|done|].
  apply Hsave. left. simpl. lia.
Defined.

End ReportRuns.

(** ** [load_and_verify_everything] *)

Section LoadReturns.
Context `{Collaborators}.

(** The lists of [read_config_file] grow together. *)
Lemma read_config_file_lengths args (config : list (string * dict)) tr tr' c :
  read_config_file args config tr = (tr', Ok c) →
  bundles c = config.*1
  ∧ length (gt_masks_files c) = length config
  ∧ length (limits_masks_files c) = length config
  ∧ length (roi_options c) = length config
  ∧ length (lengths c) = length config
  ∧ length (angles c) = length config
  ∧ length (orientation_lengths c) = length config.
Proof.
  unfold read_config_file. intros Hrun.
  rewrite <- (length_fmap fst config).
  apply (for_acc_inv
           (λ d c (_ : list event),
              bundles c = config.*1
              ∧ length (gt_masks_files c) = length d
              ∧ length (limits_masks_files c) = length d
              ∧ length (roi_options c) = length d
              ∧ length (lengths c) = length d
              ∧ length (angles c) = length d
              ∧ length (orientation_lengths c) = length d)
           _ _ _ _ _ _ Hrun).
  - done.
  - intros d bundle rest c1 tr1 c2 tr2 _ (Hb & Hg & Hl & Hr & Hle & Ha & Ho)
      Hbody.
    bind_inv_as Hbody bc t1 Hget. bind_inv_as Hbody v t2 Hread.
    apply mret_inv in Hbody as [_ ->]. simpl.
    rewrite !length_app. simpl. split_and!; [done|f_equal; assumption..].
Qed.

(** [verify_compatibility], when it returns, has found every file
    compatible. *)
Lemma verify_compatibility_inv files tr tr' :
  verify_compatibility files tr = (tr', Ok ()) →
  Forall (λ file, is_header_compatible file = true) files.
Proof.
  unfold verify_compatibility. revert tr.
  induction files as [|file files IH]; intros tr Hrun; [constructor|].
  simpl in Hrun. bind_inv_as Hrun u tr1 Hfile.
  constructor; [|by eapply IH].
  by destruct (is_header_compatible file).
Qed.

End LoadReturns.

Section LoadTheorems.
Context `{Collaborators}.

(** X15. When the configuration file exists and the output directory is
    empty, a configuration error (on a document whose file names are
    strings) makes [load_and_verify_everything] raise a [ValueError] only
    after it has created [segmented_VB] below the output directory. *)
Theorem configuration_error_is_raised_after_directories_are_created
    args (config : list (string * dict)) tr :
  inputs_exist [gt_config args] [] = true →
  output_dirs_exist_and_empty (out_dir args) = true →
  forallb (λ bd, well_typed bd.2) config = true →
  config_errors args config = true →
  ∃ new msg,
    load_and_verify_everything args config tr
    = (tr ++ MakeDirs (Py.path_join (out_dir args) "segmented_VB") :: new,
       Raise (ValueError msg)).
Proof.
  intros Hin Hout Hwt Herr. unfold load_and_verify_everything.
  unfold assert_inputs_exist. rewrite Hin.
  erewrite bind_ok by reflexivity.
  unfold assert_output_dirs_exist_and_empty. rewrite Hout.
  erewrite bind_ok by reflexivity.
  rewrite (bind_ok _ _ _ _ _ (emit_run _ _)).
  unfold when. set (ib := if compute_IC args
                               then [MakeDirs (Py.path_join (out_dir args)
                                                 "segmented_IB")]
                               else []).
  set (wpc := if save_wpc_separately args
              then [MakeDirs (Py.path_join (out_dir args) "segmented_WPC")]
              else []).
  assert (∀ A (k : () → M A) t,
            ((if compute_IC args
              then emit (MakeDirs (Py.path_join (out_dir args)
                                     "segmented_IB"))
              else mret ()) ≫= k) t = k () (t ++ ib)) as Hib.
  { intros A k t. unfold ib. destruct (compute_IC args).
    - exact (bind_ok _ _ _ _ _ (emit_run _ _)).
    - by rewrite app_nil_r. }
  rewrite Hib.
  assert (∀ A (k : () → M A) t,
            ((if save_wpc_separately args
              then emit (MakeDirs (Py.path_join (out_dir args)
                                     "segmented_WPC"))
              else mret ()) ≫= k) t = k () (t ++ wpc)) as Hwpc.
  { intros A k t. unfold wpc. destruct (save_wpc_separately args).
    - exact (bind_ok _ _ _ _ _ (emit_run _ _)).
    - by rewrite app_nil_r. }
  rewrite Hwpc.
  destruct (read_bundles_outcome args config config.*1
              {| bundles := config.*1; gt_masks_files := [];
                 limits_masks_files := []; roi_options := []; lengths := [];
                 angles := []; orientation_lengths := [] |}
              (((tr ++ [MakeDirs (Py.path_join (out_dir args)
                                    "segmented_VB")]) ++ ib) ++ wpc) Hwt)
    as (warnings & r & Hrun & _ & Hbad & _).
  { apply Forall_forall. intros bundle. by rewrite contains_elem_of. }
  destruct Hbad as [msg ->]; [exact Herr|].
  exists (ib ++ wpc ++ warnings), msg.
  unfold read_config_file. erewrite bind_raise by exact Hrun.
  f_equal. by rewrite <- !(assoc_L (++)).
Qed.

(** X16. When [load_and_verify_everything] returns, the bundle names are
    the keys of the document in order, the lists of lengths, angles and
    lengths per orientation have one entry per bundle, the ROI list is the
    list of the tails and heads without repetition, and every one of
    these ROI files has been found compatible with the tractogram. *)
Theorem loaded_lists_are_aligned_and_rois_compatible
    args (config : list (string * dict)) tr tr' l :
  load_and_verify_everything args config tr = (tr', Ok l) →
  bundle_names l = config.*1
  ∧ length (ld_lengths l) = length config
  ∧ length (ld_angles l) = length config
  ∧ length (ld_orientation_lengths l) = length config
  ∧ all_rois l = Py.fromkeys (gt_tails l ++ gt_heads l)
  ∧ NoDup (all_rois l)
  ∧ Forall (λ file, is_header_compatible file = true)
      (gt_tails l ++ gt_heads l).
Proof.
  unfold load_and_verify_everything. intros Hrun.
  do 5 bind_inv Hrun.
  bind_inv_as Hrun c t1 Hconfig.
  apply read_config_file_lengths in Hconfig
      as (Hb & _ & _ & _ & Hl & Ha & Ho).
  do 6 bind_inv Hrun.
  destruct (compute_masks _) as [[[? ?] ?] ?] in Hrun.
  destruct (compute_masks _) as [[[? ?] ?] ?] in Hrun.
  bind_inv Hrun.
  destruct (compute_endpoint_masks _ _ _ _) as [tails heads] in Hrun.
  bind_inv Hrun. bind_inv_as Hrun u t2 Hrois.
  apply mret_inv in Hrun as [_ ->]. simpl.
  split_and!; try done.
  - apply NoDup_fromkeys.
  - destruct u. apply verify_compatibility_inv in Hrois.
    rewrite Forall_forall in Hrois. apply Forall_forall.
    intros file Hfile. apply Hrois. by apply elem_of_fromkeys.
Qed.

End LoadTheorems.

Section LoadRuns.
Import Scenario.

(** X15, witness: a bundle with a tail and no head. *)
Lemma tail_without_head_leaves_directory :
  ∃ new msg,
    @load_and_verify_everything _ (collaborators overlap_world) default_args
      [("A", [("tail", VStr "A_tail")])] []
    = ([] ++ MakeDirs "out/segmented_VB" :: new, Raise (ValueError msg)).
Proof.
  apply (@configuration_error_is_raised_after_directories_are_created _
           (collaborators overlap_world) default_args
           [("A", [("tail", VStr "A_tail")])] []); reflexivity.
Defined.

(** X16, witness: the document [overlap_config]. *)
Lemma overlap_config_loaded :
  ∃ tr' l,
    @load_and_verify_everything _ (collaborators overlap_world) default_args
      overlap_config []
    = (tr', Ok l)
    ∧ bundle_names l = ["A"; "B"]
    ∧ length (ld_lengths l) = 2
    ∧ length (ld_angles l) = 2
    ∧ length (ld_orientation_lengths l) = 2
    ∧ all_rois l = Py.fromkeys (gt_tails l ++ gt_heads l)
    ∧ NoDup (all_rois l)
    ∧ Forall (λ file,
                @is_header_compatible _ (collaborators overlap_world) file
                = true)
        (gt_tails l ++ gt_heads l).
Proof.
  destruct (@load_and_verify_everything _ (collaborators overlap_world)
              default_args overlap_config []) as [tr' [l|e]] eqn:Hrun;
    [|by vm_compute in Hrun].
  exists tr', l. split; [done|].
  exact (@loaded_lists_are_aligned_and_rois_compatible _
           (collaborators overlap_world) default_args overlap_config
           [] tr' l Hrun).
Defined.

End LoadRuns.

(** ** [processing_stats.json] *)

Section BundleStats.
Context `{Collaborators}.

Lemma dict_set_keys {V} key (v : V) (d : list (string * V)) :
  (dict_set key v d).*1 = if decide (key ∈ d.*1) then d.*1 else d.*1 ++ [key].
Proof.
  induction d as [|[k w] d IH]; [done|].
  cbn [dict_set]. rewrite fmap_cons. cbn [fst].
  destruct (decide (k = key)) as [->|Hk].
  - rewrite decide_True by (by left). done.
  - rewrite fmap_cons, IH. cbn [fst]. destruct (decide (key ∈ d.*1)).
    + rewrite decide_True by (by right). done.
    + rewrite decide_False; [done|].
      intros [?|?]%elem_of_cons; congruence.
Qed.

(** X17. [processing_stats.json] holds a dict whose keys are the bundle
    names, in order, each with the statistics of its bundle (the names
    being distinct, as the keys of the configuration are, and the list of
    statistics having one entry per bundle). *)
Theorem processing_stats_has_one_entry_per_bundle
    l args (bundles_stats : list dict) tr :
  NoDup (bundle_names l) →
  length bundles_stats = length (bundle_names l) →
  ∃ d : dict,
    save_bundle_stats l args bundles_stats tr
    = (tr ++ [JsonDump (VDict d)
                (Py.path_join (out_dir args) "processing_stats.json")
                (indent args) (sort_keys args)],
       Ok ())
    ∧ d.*1 = bundle_names l
    ∧ ∀ i name (stats : dict),
        bundle_names l !! i = Some name → bundles_stats !! i = Some stats →
        lookup_key name d = Some (VDict stats).
Proof.
  intros Hnodup Hlen. unfold save_bundle_stats.
  set (body := λ (d : dict) i,
         name ← Py.getitem (bundle_names l) i;
         stats ← Py.getitem bundles_stats i;
         Ok (dict_update d [(name, VDict stats)])).
  assert (∀ n, n ≤ length (bundle_names l) →
            ∃ d : dict,
              rfold (range 0 n) body [] = Ok d
              ∧ d.*1 = take n (bundle_names l)
              ∧ ∀ i name (stats : dict),
                  i < n →
                  bundle_names l !! i = Some name →
                  bundles_stats !! i = Some stats →
                  lookup_key name d = Some (VDict stats)) as Hloop.
  { induction n as [|n IH]; intros Hn.
    { exists []. split_and!; [done|done|]. intros; lia. }
    destruct IH as (d & Hrun & Hkeys & Hlook); [lia|].
    destruct (lookup_lt_is_Some_2 (bundle_names l) n) as [name Hname]; [lia|].
    destruct (lookup_lt_is_Some_2 bundles_stats n) as [stats Hstats]; [lia|].
    assert (name ∉ d.*1) as Hfresh.
    { rewrite Hkeys. intros [j Hj]%list_elem_of_lookup.
      apply lookup_take_Some in Hj as [Hj Hlt].
      pose proof (NoDup_lookup _ _ _ _ Hnodup Hj Hname). lia. }
    exists (dict_set name (VDict stats) d). split_and!.
    - unfold range in *. rewrite Nat.sub_0_r in *.
      rewrite seq_S, Nat.add_0_l.
      assert (∀ l1 l2 acc (r : dict),
                rfold l1 body acc = Ok r →
                rfold (l1 ++ l2) body acc = rfold l2 body r) as Happ.
      { clear. induction l1 as [|x l1 IH]; intros l2 acc r; simpl.
        - by intros [= ->].
        - destruct (body acc x) as [acc'|e]; simpl; [apply IH|done]. }
      rewrite (Happ _ _ _ _ Hrun). simpl. unfold body.
      rewrite (getitem_lookup _ _ _ Hname). simpl.
      unfold Py.getitem. by rewrite Hstats.
    - rewrite dict_set_keys, decide_False by done.
      rewrite Hkeys. by erewrite take_S_r.
    - intros i name' stats' Hi Hname' Hstats'.
      rewrite lookup_key_dict_set.
      destruct (decide (i = n)) as [->|Hne].
      + simplify_eq. by rewrite decide_True.
      + rewrite decide_False.
        * apply (Hlook i); [lia|done..].
        * intros <-. pose proof (NoDup_lookup _ _ _ _ Hnodup Hname Hname').
          lia. }
  destruct (Hloop (length (bundle_names l))) as (d & Hrun & Hkeys & Hlook);
    [done|].
  exists d. split_and!.
  - rewrite (bind_ok _ _ tr tr d) by (unfold lift; f_equal; exact Hrun).
    apply emit_run.
  - by rewrite Hkeys, firstn_all.
  - intros i name stats Hname Hstats. apply (Hlook i); [|done..].
    apply lookup_lt_is_Some. eauto.
Qed.

End BundleStats.

Section BundleStatsRun.
Import Scenario Runs.

(** X17, witness: the two bundles of [overlap_world]. *)
Lemma overlap_stats_written :
  ∃ d : @dict free_float,
    @save_bundle_stats free_float
      {| gt_tails := []; gt_heads := []; bundle_names := ["A"; "B"];
         all_rois := []; ld_lengths := []; ld_angles := [];
         ld_orientation_lengths := []; limits_inv_masks := [];
         gt_masks := []; dimensions := []; ext := ".trk" |}
      default_args overlap_stats []
    = ([JsonDump (VDict d) "out/processing_stats.json" None false], Ok ())
    ∧ d.*1 = ["A"; "B"]
    ∧ lookup_key "B" d = Some (VDict [("VS", VInt 1); ("WPC", VInt 2)]).
Proof.
  destruct (@processing_stats_has_one_entry_per_bundle free_float
              {| gt_tails := []; gt_heads := []; bundle_names := ["A"; "B"];
                 all_rois := []; ld_lengths := []; ld_angles := [];
                 ld_orientation_lengths := []; limits_inv_masks := [];
                 gt_masks := []; dimensions := []; ext := ".trk" |}
              default_args overlap_stats [])
    as (d & Hrun & Hkeys & Hlook).
  - refine (bool_decide_unpack _ _). vm_compute. exact I.
  - reflexivity.
  - exists d. split_and!; [done|done|].
    by apply (Hlook 1).
Defined.

End BundleStatsRun.

(** ** The volume metrics of a bundle *)

Section VolumeMetrics.
Context `{Collaborators}.

Lemma rbind_inv {A B} (r : result A) (k : A → result B) b :
  r ≫= k = Ok b → ∃ a, r = Ok a ∧ k a = Ok b.
Proof. destruct r as [a|e]; [eauto|done]. Qed.

Lemma count_nonzero_cons x m :
  count_nonzero (x :: m)
  = ((if decide (x ≠ 0%Z) then 1 else 0) + count_nonzero m)%Z.
Proof.
  unfold count_nonzero, Mask. rewrite filter_cons.
  case_decide; simpl length; lia.
Qed.

(** Voxel by voxel: a voxel of a binary mask is covered or lacking, and a
    voxel of the bundle is in the mask or out of it. *)
Lemma count_overlap_lacking_overreach gt v :
  length v = length gt →
  Forall (λ x, x = 0 ∨ x = 1)%Z gt →
  Forall (λ x, 0 ≤ x)%Z v →
  (count_nonzero (mask_mul gt v) + count_nonzero (mask_where is_lacking gt v)
   = count_nonzero gt)%Z
  ∧ (count_nonzero (mask_mul gt v)
     + count_nonzero (mask_where is_overreach gt v)
     = count_nonzero v)%Z.
Proof.
  intros Hlen Hgt. revert v Hlen.
  induction Hgt as [|g gt Hg Hgt IH]; intros [|x v] Hlen Hv; try done.
  apply Forall_cons in Hv as [Hx Hv].
  destruct (IH v) as [IH1 IH2]; [by injection Hlen|done|].
  unfold mask_mul, mask_where in *. cbn [zip_with].
  rewrite !count_nonzero_cons.
  repeat case_decide; unfold is_lacking, is_overreach in *;
    destruct Hg as [-> | ->];
    destruct (Z.eqb_spec x 0); destruct (Z.leb_spec 1 x);
    simpl in *; first [lia|split; lia].
Qed.

(** X18. For a binary ground-truth mask and a map of the bundle of the
    same shape with no negative entry, the volume metrics that
    [compute_tractometry] stores for the bundle are consistent: ["OL"] and
    ["lacking"] add up to the number of voxels of the mask, and ["OL"] and
    ["OR"] add up to the number of voxels of the bundle. *)
Theorem overlap_lacking_and_overreach_add_up
    wpc_sft_list args gt vb_voxels vb_endpoints (vb_results : dict) i
    (vb_results' wpc_results : dict) :
  length vb_voxels = length gt →
  Forall (λ x, x = 0 ∨ x = 1)%Z gt →
  Forall (λ x, 0 ≤ x)%Z vb_voxels →
  volume_metrics wpc_sft_list args gt vb_voxels vb_endpoints vb_results i
  = Ok (vb_results', wpc_results) →
  ∃ ol or lacking,
    lookup_key "OL" vb_results' = Some (VInt ol)
    ∧ lookup_key "OR" vb_results' = Some (VInt or)
    ∧ lookup_key "lacking" vb_results' = Some (VInt lacking)
    ∧ (ol + lacking = count_nonzero gt)%Z
    ∧ (ol + or = count_nonzero vb_voxels)%Z.
Proof.
  intros Hlen Hgt Hv Hrun.
  destruct (count_overlap_lacking_overreach gt vb_voxels Hlen Hgt Hv)
    as [Hlacking Hor].
  unfold volume_metrics in Hrun.
  destruct (truediv (count_nonzero (mask_mul gt vb_voxels)) _)
    as [ol_pct|]; [|done].
  simpl in Hrun.
  destruct (truediv (count_nonzero (mask_where is_overreach gt vb_voxels)) _)
    as [or_pct|]; [|done].
  simpl in Hrun.
  assert (vb_results'
          = dict_set "endpoints_OR"
              (VInt (count_nonzero
                       (mask_where is_overreach gt vb_endpoints)))
              (dict_set "endpoints_OL"
                 (VInt (count_nonzero (mask_mul gt vb_endpoints)))
                 (dict_set "OR_PCT" (VFloat or_pct)
                    (dict_set "OL_PCT" (VFloat ol_pct)
                       (dict_set "lacking"
                          (VInt (count_nonzero
                                   (mask_where is_lacking gt vb_voxels)))
                          (dict_set "OR"
                             (VInt (count_nonzero
                                      (mask_where is_overreach gt vb_voxels)))
                             (dict_set "OL"
                                (VInt (count_nonzero (mask_mul gt vb_voxels)))
                                (dict_set "dice"
                                   (VFloat (compute_dice_voxel gt
                                              vb_voxels).1)
                                   vb_results)))))))) as ->.
  { destruct (save_wpc_separately args).
    - apply rbind_inv in Hrun as (w & _ & Hrun).
      apply rbind_inv in Hrun as (a & _ & Hrun).
      apply rbind_inv in Hrun as (b & _ & Hrun).
      by injection Hrun as <- _.
    - by injection Hrun as <- _. }
  eexists _, _, _. rewrite !lookup_key_dict_set. simpl.
  split_and!; [reflexivity..|exact Hlacking|exact Hor].
Qed.

End VolumeMetrics.

Section VolumeMetricsRun.
Import Scenario.

(** X18, witness: a mask of two voxels, one of which the bundle covers,
    the bundle covering one voxel outside of it. *)
Lemma one_voxel_covered_one_lacking_one_overreach :
  ∃ vb_results' wpc_results : @dict free_float,
    @volume_metrics _ (collaborators overlap_world) [] default_args
      [1; 1; 0; 0]%Z [1; 0; 1; 0]%Z [1; 0; 0; 0]%Z [("VS", VInt 2)] 0
    = Ok (vb_results', wpc_results)
    ∧ lookup_key "OL" vb_results' = Some (VInt 1)
    ∧ lookup_key "OR" vb_results' = Some (VInt 1)
    ∧ lookup_key "lacking" vb_results' = Some (VInt 1).
Proof.
  destruct (@volume_metrics _ (collaborators overlap_world) [] default_args
              [1; 1; 0; 0]%Z [1; 0; 1; 0]%Z [1; 0; 0; 0]%Z [("VS", VInt 2)] 0)
    as [[vb wpc]|e] eqn:Hrun; [|by vm_compute in Hrun].
  destruct (@overlap_lacking_and_overreach_add_up _
              (collaborators overlap_world) [] default_args
              [1; 1; 0; 0]%Z [1; 0; 1; 0]%Z [1; 0; 0; 0]%Z [("VS", VInt 2)]
              0 vb wpc)
    as (ol & or & lacking & Hol & Hor & Hlacking & Hsum1 & Hsum2).
  - reflexivity.
  - repeat constructor; lia.
  - repeat constructor; lia.
  - exact Hrun.
  - exists vb, wpc. vm_compute in Hrun. injection Hrun as <- <-.
    split_and!; [reflexivity|by vm_compute..].
Defined.

End VolumeMetricsRun.

(** ** [trackable_dataset.py] *)

Section DatasetTheorems.
Import TrackableDataset.
Context {V : Type}.

Lemma np_index_in_range n i : (0 ≤ i < n)%Z → np_index n i = Ok i.
Proof.
  intros Hi. unfold np_index.
  rewrite decide_True by lia. by rewrite decide_False by lia.
Qed.

Lemma data_getitem_in_range (d : Dataset V) i j k :
  (0 ≤ i < (dim d).1.1)%Z → (0 ≤ j < (dim d).1.2)%Z → (0 ≤ k < (dim d).2)%Z →
  data_getitem V d i j k = Ok (voxels d i j k).
Proof.
  intros Hi Hj Hk. unfold data_getitem.
  by rewrite !np_index_in_range by done.
Qed.

(** X19. On a grid with at least one voxel along each axis,
    [get_voxel_value] raises nothing for any three ints: it returns the
    value of the voxel itself when it is in the grid, and otherwise of the
    voxel whose coordinates are the nearest in range along each axis, never
    counting a negative index from the end. *)
Theorem get_voxel_value_reads_the_nearest_voxel (d : Dataset V) i j k :
  (0 < (dim d).1.1)%Z → (0 < (dim d).1.2)%Z → (0 < (dim d).2)%Z →
  ∃ i' j' k',
    get_voxel_value V d i j k = Ok (voxels d i' j' k')
    ∧ (0 ≤ i' < (dim d).1.1)%Z ∧ (0 ≤ j' < (dim d).1.2)%Z
    ∧ (0 ≤ k' < (dim d).2)%Z
    ∧ (∀ c, 0 ≤ c < (dim d).1.1 → Z.abs (i - i') ≤ Z.abs (i - c))%Z
    ∧ (∀ c, 0 ≤ c < (dim d).1.2 → Z.abs (j - j') ≤ Z.abs (j - c))%Z
    ∧ (∀ c, 0 ≤ c < (dim d).2 → Z.abs (k - k') ≤ Z.abs (k - c))%Z.
Proof.
  intros Hi Hj Hk. unfold get_voxel_value, is_voxel_in_bound.
  destruct (negb _) eqn:Hout.
  - exists (Z.max 0 (Z.min ((dim d).1.1 - 1) i)),
      (Z.max 0 (Z.min ((dim d).1.2 - 1) j)),
      (Z.max 0 (Z.min ((dim d).2 - 1) k)).
    rewrite data_getitem_in_range by lia.
    split_and!; try done; intros; lia.
  - apply negb_false_iff in Hout.
    apply andb_true_iff in Hout as [[Hi'%bool_decide_eq_true
                                       Hj'%bool_decide_eq_true]%andb_true_iff
                                      Hk'%bool_decide_eq_true].
    exists i, j, k. rewrite data_getitem_in_range by lia.
    split_and!; try done; intros; lia.
Qed.

(** X20. [BinaryMask] accepts a [Dataset] exactly when the image has 3
    axes, or 4 axes the last of which has length 1; for every other shape
    it raises [ValueError]. *)
Theorem binary_mask_accepts_three_dimensional_images (shape : list Z) :
  binary_mask_init (dataset_shape shape) = Ok ()
  ↔ length shape = 3 ∨ (length shape = 4 ∧ last shape = Some 1%Z).
Proof.
  unfold binary_mask_init, dataset_shape.
  destruct (decide (length shape = 3)) as [H3|H3].
  - rewrite length_app, H3. simpl. rewrite last_snoc.
    rewrite bool_decide_eq_true_2 by done. simpl. naive_solver.
  - rewrite (bool_decide_eq_false_2 (length shape = 3)) by done. simpl.
    destruct (decide (length shape = 4)) as [H4|H4].
    + rewrite bool_decide_eq_true_2 by done. simpl.
      case_bool_decide; simpl; naive_solver.
    + rewrite bool_decide_eq_false_2 by done. simpl. naive_solver.
Qed.

End DatasetTheorems.

Section SkipSeeds.
Import TrackableDataset.

Lemma skip_seeds_outcome fuel seed_to_go calls :
  (0 ≤ seed_to_go)%Z → (seed_to_go ≤ 100000 * Z.of_nat (S fuel))%Z →
  ∃ more,
    skip_seeds fuel seed_to_go calls = Some (calls ++ more, Ok ())
    ∧ foldr Z.add 0%Z more = seed_to_go
    ∧ Forall (λ n, 0 ≤ n ≤ 100000)%Z more.
Proof.
  revert seed_to_go calls.
  induction fuel as [|fuel IH]; intros seed_to_go calls Hpos Hfuel.
  - simpl. rewrite decide_False by lia. rewrite decide_False by lia.
    exists [seed_to_go]. split_and!; [done|simpl; lia|].
    repeat constructor; lia.
  - cbn [skip_seeds]. destruct (decide (100000 < seed_to_go)%Z).
    + destruct (IH (seed_to_go - 100000)%Z (calls ++ [100000%Z]))
        as (more & -> & Hsum & Hall); [lia..|].
      exists (100000%Z :: more). split_and!.
      * by rewrite <- (assoc_L (++)).
      * simpl. lia.
      * constructor; [lia|done].
    + rewrite decide_False by lia.
      exists [seed_to_go]. split_and!; [done|simpl; lia|].
      repeat constructor; lia.
Qed.

(** X21. To skip the seeds of the previous chunks, [init_pos] draws
    three numbers for each of the [first_seed_of_chunk] seeds, neither more
    nor fewer, in calls to [rand] of 100000 numbers at most each; the loop
    ends. *)
Theorem init_pos_draws_three_numbers_per_skipped_seed first_seed_of_chunk :
  (0 ≤ first_seed_of_chunk)%Z →
  ∃ fuel calls,
    init_pos_skip fuel first_seed_of_chunk = Some (calls, Ok ())
    ∧ foldr Z.add 0%Z calls = (3 * first_seed_of_chunk)%Z
    ∧ Forall (λ n, 0 ≤ n ≤ 100000)%Z calls.
Proof.
  intros Hpos. exists (Z.to_nat first_seed_of_chunk).
  unfold init_pos_skip.
  destruct (skip_seeds_outcome (Z.to_nat first_seed_of_chunk)
              (first_seed_of_chunk * 3) []) as (calls & Hrun & Hsum & Hall);
    [lia..|].
  exists calls. split_and!; [done|lia|done].
Qed.

End SkipSeeds.

Section DatasetRuns.
Import TrackableDataset.

(** X19, witness: on a grid of 2 x 3 x 4 voxels, the voxel (5, -1, 2) is
    read at (1, 0, 2). *)
Lemma voxel_out_of_grid_is_clamped :
  ∃ i' j' k',
    get_voxel_value (Z * Z * Z)
      {| dim := (2, 3, 4)%Z; voxels := λ i j k, (i, j, k) |} 5 (-1) 2
    = Ok (i', j', k')
    ∧ (0 ≤ i' < 2)%Z ∧ (0 ≤ j' < 3)%Z ∧ (0 ≤ k' < 4)%Z.
Proof.
  destruct (get_voxel_value_reads_the_nearest_voxel
              {| dim := (2, 3, 4)%Z; voxels := λ i j k, (i, j, k) |}
              5 (-1) 2)%Z
    as (i' & j' & k' & Hrun & Hi & Hj & Hk & _); [reflexivity..|].
  by exists i', j', k'.
Defined.

(** X21, witness: 70000 seeds to skip are 210000 numbers, drawn in three
    calls. *)
Lemma seventy_thousand_seeds_skipped :
  ∃ fuel calls,
    init_pos_skip fuel 70000 = Some (calls, Ok ())
    ∧ foldr Z.add 0%Z calls = 210000%Z
    ∧ Forall (λ n, 0 ≤ n ≤ 100000)%Z calls.
Proof.
  apply (init_pos_draws_three_numbers_per_skipped_seed 70000). lia.
Defined.

End DatasetRuns.

(** ** The bundles in the report *)

Section BundleWise.
Context `{Collaborators}.

(** The results of a bundle, when its volume metrics are computed, are
    the initial results with eight more keys. *)
Lemma volume_metrics_keeps wpc_sft_list args gt vb_voxels vb_endpoints
    (vb_results : dict) i (vb_results' wpc_results : dict) key :
  volume_metrics wpc_sft_list args gt vb_voxels vb_endpoints vb_results i
  = Ok (vb_results', wpc_results) →
  key ∉ ["dice"; "OL"; "OR"; "lacking"; "OL_PCT"; "OR_PCT"; "endpoints_OL";
         "endpoints_OR"] →
  lookup_key key vb_results' = lookup_key key vb_results.
Proof.
  intros Hrun Hkey. unfold volume_metrics in Hrun.
  apply rbind_inv in Hrun as (ol_pct & _ & Hrun).
  apply rbind_inv in Hrun as (or_pct & _ & Hrun).
  assert (∃ d, (d, wpc_results) = (vb_results', wpc_results)
               ∧ lookup_key key d = lookup_key key vb_results)
    as (d & [= ->] & Hd); [|done].
  destruct (save_wpc_separately args).
  - apply rbind_inv in Hrun as (w & _ & Hrun).
    apply rbind_inv in Hrun as (a & _ & Hrun).
    apply rbind_inv in Hrun as (b & _ & Hrun).
    injection Hrun as <- <-. eexists. split; [done|].
    simpl. rewrite !lookup_key_dict_set.
    repeat (rewrite decide_False;
            [|intros <-; apply Hkey; repeat first [by left|right]]).
    done.
  - injection Hrun as <- <-. eexists. split; [done|].
    simpl. rewrite !lookup_key_dict_set.
    repeat (rewrite decide_False;
            [|intros <-; apply Hkey; repeat first [by left|right]]).
    done.
Qed.

(** One turn of the loop over the bundles, when it ends: the entry of the
    bundle is set, the others are kept. *)
Lemma bundle_tractometry_inv vb_sft_list wpc_sft_list args names gt_masks
    mo mr (bw : dict) i mo' mr' (bw' : dict) :
  bundle_tractometry vb_sft_list wpc_sft_list args names gt_masks
    (mo, mr, bw) i
  = Ok (mo', mr', bw') →
  ∃ name sft (bundle_results vb_results : dict),
    names !! i = Some name ∧ vb_sft_list !! i = Some sft
    ∧ bw' = dict_set name (VDict bundle_results) bw
    ∧ lookup_key "VB" bundle_results = Some (VDict vb_results)
    ∧ lookup_key "VS" vb_results = Some (int_of_nat (len_sft sft)).
Proof.
  unfold bundle_tractometry. intros Hrun.
  apply rbind_inv in Hrun as (sft & Hsft%getitem_Ok & Hrun).
  destruct (get_binary_maps _) as [vox endvox].
  apply rbind_inv in Hrun as (g & _ & Hrun).
  apply rbind_inv in Hrun as ([vb_results wpc_results] & Hvol & Hrun).
  apply rbind_inv in Hrun as (ol & _ & Hrun).
  apply rbind_inv in Hrun as (mo1 & _ & Hrun).
  apply rbind_inv in Hrun as (or & _ & Hrun).
  apply rbind_inv in Hrun as (mr1 & _ & Hrun).
  apply rbind_inv in Hrun as (name & Hname%getitem_Ok & Hrun).
  injection Hrun as _ _ <-.
  eexists name, sft, _, vb_results. split_and!; [done|done|done| |].
  - by destruct (save_wpc_separately args).
  - destruct g as [gt|].
    + rewrite (volume_metrics_keeps _ _ _ _ _ _ _ _ _ "VS" Hvol).
      * done.
      * intros Hin. repeat (apply elem_of_cons in Hin as [?|Hin]; [done|]).
        by apply elem_of_nil in Hin.
    + by injection Hvol as <- _.
Qed.

End BundleWise.

Section BundleWiseTheorem.
Context `{Collaborators}.

(** X22. When [compute_tractometry] returns the report, for bundle names
    that are distinct, the entry ["bundle_wise"] of the report has for
    each bundle, under its name, a dict whose ["VB"] dict gives under
    ["VS"] the number of valid streamlines of the bundle; with
    [--compute_IC] this holds for the bundles that are not named ["IB"],
    the key under which the invalid connections are stored. *)
Theorem report_has_the_valid_streamlines_of_each_bundle
    all_vs all_wpc all_ic all_nc vs_ids_list wpc_ids_list ic_ids_list
    vb_sft_list wpc_sft_list ib_sft_list args names gt_masks dimensions
    comb_filename (report : dict) :
  NoDup names →
  compute_tractometry all_vs all_wpc all_ic all_nc vs_ids_list wpc_ids_list
    ic_ids_list vb_sft_list wpc_sft_list ib_sft_list args names gt_masks
    dimensions comb_filename
  = Ok report →
  ∃ bundle_wise : dict,
    lookup_key "bundle_wise" report = Some (VDict bundle_wise)
    ∧ (compute_IC args = true → is_Some (lookup_key "IB" bundle_wise))
    ∧ ∀ i name sft,
        names !! i = Some name → vb_sft_list !! i = Some sft →
        (compute_IC args = true → name ≠ "IB") →
        ∃ bundle_results vb_results : dict,
          lookup_key name bundle_wise = Some (VDict bundle_results)
          ∧ lookup_key "VB" bundle_results = Some (VDict vb_results)
          ∧ lookup_key "VS" vb_results
            = Some (VInt (Z.of_nat (len_sft sft))).
Proof.
  intros Hnodup Hrun. unfold compute_tractometry in Hrun.
  do 5 (apply rbind_inv in Hrun as (? & _ & Hrun)).
  apply rbind_inv in Hrun as ([[mo mr] bw0] & Hloop & Hrun).
  apply rbind_inv in Hrun as (bw & Hic & Hrun).
  apply rbind_inv in Hrun as (mean_OL & _ & Hrun).
  apply rbind_inv in Hrun as (mean_OR & _ & Hrun).
  injection Hrun as <-.
  assert (∀ i name sft,
            names !! i = Some name → vb_sft_list !! i = Some sft →
            ∃ bundle_results vb_results : dict,
              lookup_key name bw0 = Some (VDict bundle_results)
              ∧ lookup_key "VB" bundle_results = Some (VDict vb_results)
              ∧ lookup_key "VS" vb_results
                = Some (VInt (Z.of_nat (len_sft sft)))) as Hbundles.
  { assert (∀ i name sft,
              i ∈ range 0 (length names) →
              names !! i = Some name → vb_sft_list !! i = Some sft →
              ∃ bundle_results vb_results : dict,
                lookup_key name bw0 = Some (VDict bundle_results)
                ∧ lookup_key "VB" bundle_results = Some (VDict vb_results)
                ∧ lookup_key "VS" vb_results
                  = Some (VInt (Z.of_nat (len_sft sft)))) as Hvisited.
    { apply (rfold_inv
               (λ d '(_, _, bw),
                  ∀ i name sft,
                    i ∈ d →
                    names !! i = Some name → vb_sft_list !! i = Some sft →
                    ∃ bundle_results vb_results : dict,
                      lookup_key name (bw : dict) = Some (VDict bundle_results)
                      ∧ lookup_key "VB" bundle_results
                        = Some (VDict vb_results)
                      ∧ lookup_key "VS" vb_results
                        = Some (VInt (Z.of_nat (len_sft sft))))
               _ _ _ _ Hloop).
      - by intros i name sft ?%elem_of_nil.
      - intros d idx rest [[mo1 mr1] bw1] [[mo2 mr2] bw2] _ Hd Hbody.
        apply bundle_tractometry_inv in Hbody
            as (name_x & sft_x & br & vbr & Hname_x & Hsft_x & -> & Hvb & Hvs).
        intros i name sft Hi Hname Hsft. rewrite lookup_key_dict_set.
        destruct (decide (name_x = name)) as [->|Hne].
        + pose proof (NoDup_lookup _ _ _ _ Hnodup Hname Hname_x) as ->.
          simplify_eq. by exists br, vbr.
        + apply elem_of_app in Hi as [Hi|Hi]; [by apply (Hd i)|].
          apply list_elem_of_singleton in Hi as ->. congruence. }
    intros i name sft Hname Hsft. apply (Hvisited i); [|done..].
    apply elem_of_range. apply lookup_lt_Some in Hname. lia. }
  exists bw. split_and!.
  - reflexivity.
  - intros Hflag. rewrite Hflag in Hic.
    apply rbind_inv in Hic as (comb & _ & Hic).
    apply rbind_inv in Hic as (ic_results & _ & Hic).
    injection Hic as <-. simpl. rewrite lookup_key_dict_set.
    by rewrite decide_True.
  - intros i name sft Hname Hsft Hib.
    destruct (Hbundles i name sft Hname Hsft) as (br & vbr & Hbr & Hvb & Hvs).
    exists br, vbr. split_and!; [|done..].
    destruct (compute_IC args).
    + apply rbind_inv in Hic as (comb & _ & Hic).
      apply rbind_inv in Hic as (ic_results & _ & Hic).
      injection Hic as <-. simpl. rewrite lookup_key_dict_set.
      rewrite decide_False; [done|]. intros <-. by apply Hib.
    + by injection Hic as <-.
Qed.

End BundleWiseTheorem.

Section BundleWiseRun.
Import Scenario.

(** X22, witness: the two bundles of [overlap_world]; bundle [B] has one
    valid streamline. *)
Lemma overlap_report_bundle_entries :
  ∃ report bundle_wise bundle_results vb_results : @dict free_float,
    @compute_tractometry _ (collaborators overlap_world)
      [0; 1] [] [] [2; 3] [[0; 1]; [1]] [] []
      [{| streamlines := [0; 1] |}; {| streamlines := [1] |}] [] []
      default_args ["A"; "B"]
      [Some [1; 1; 0; 0]%Z; Some [1; 1; 0; 0]%Z] [4] None
    = Ok report
    ∧ lookup_key "bundle_wise" report = Some (VDict bundle_wise)
    ∧ lookup_key "B" bundle_wise = Some (VDict bundle_results)
    ∧ lookup_key "VB" bundle_results = Some (VDict vb_results)
    ∧ lookup_key "VS" vb_results = Some (VInt 1).
Proof.
  destruct (@compute_tractometry _ (collaborators overlap_world)
              [0; 1] [] [] [2; 3] [[0; 1]; [1]] [] []
              [{| streamlines := [0; 1] |}; {| streamlines := [1] |}] [] []
              default_args ["A"; "B"]
              [Some [1; 1; 0; 0]%Z; Some [1; 1; 0; 0]%Z] [4] None)
    as [report|e] eqn:Hrun; [|by vm_compute in Hrun].
  assert (NoDup ["A"; "B"]) as Hnodup
    by (refine (bool_decide_unpack _ _); vm_compute; exact I).
  destruct (@report_has_the_valid_streamlines_of_each_bundle _
              (collaborators overlap_world) _ _ _ _ _ _ _ _ _ _ _ _ _ _ _
              report Hnodup Hrun)
    as (bw & Hbw & _ & Hbundles).
  destruct (Hbundles 1 "B" {| streamlines := [1] |} eq_refl eq_refl)
    as (br & vbr & Hbr & Hvb & Hvs); [done|].
  by exists report, bw, br, vbr.
Defined.

End BundleWiseRun.

(** ** The invalid connections in the report *)

Section InvalidConnectionsReport.
Context `{Collaborators}.




End InvalidConnectionsReport.

Section InvalidConnectionsReportRun.
Import Scenario.


End InvalidConnectionsReportRun.

(** ** The directories of a run *)

Section CreatedDirs.
Context `{Collaborators}.

Lemma created_dirs_app tr new :
  created_dirs (tr ++ new) = created_dirs tr ++ created_dirs new.
Proof. apply omap_app. Qed.

(** A computation that creates no directory leaves the directories as
    they are. *)
Lemma created_dirs_quiet {A} (m : M A) tr :
  emits_only (λ e, created e = None) m →
  created_dirs (m tr).1 = created_dirs tr.
Proof.
  intros Hm. destruct (Hm tr) as (new & -> & Hnew).
  rewrite created_dirs_app.
  assert (created_dirs new = []) as ->; [|by rewrite app_nil_r].
  induction Hnew as [|e new He _ IH]; [done|].
  unfold created_dirs in *. simpl. by rewrite He.
Qed.

Lemma creates_new_dirs_quiet {A} (m : M A) :
  emits_only (λ e, created e = None) m → creates_new_dirs m.
Proof. intros Hm tr Htr. by rewrite created_dirs_quiet. Qed.

Lemma creates_new_dirs_bind {A B} (m : M A) (k : A → M B) :
  creates_new_dirs m → (∀ a, creates_new_dirs (k a)) →
  creates_new_dirs (m ≫= k).
Proof.
  intros Hm Hk tr Htr. specialize (Hm tr Htr).
  unfold mbind, M_bind. destruct (m tr) as [tr1 [a|e]]; [|done].
  by apply Hk.
Qed.

Lemma creates_new_dirs_for_ {A} (l : list A) (body : A → M ()) :
  (∀ x, creates_new_dirs (body x)) → creates_new_dirs (for_ l body).
Proof.
  intros Hbody. induction l as [|x l IH]; simpl.
  - by intros tr.
  - apply creates_new_dirs_bind; [done|]. by intros _.
Qed.

Lemma existsb_creates path tr :
  existsb (creates path) tr = true ↔ path ∈ created_dirs tr.
Proof.
  unfold created_dirs. rewrite existsb_exists, list_elem_of_omap.
  setoid_rewrite <- list_elem_of_In. split.
  - intros ([] & Hin & Hc); try done. simpl in Hc.
    apply bool_decide_eq_true in Hc as ->. eauto.
  - intros ([] & Hin & [= ->]). eexists. split; [done|].
    simpl. by apply bool_decide_eq_true.
Qed.

(** [if not os.path.isdir(path): os.makedirs(path)] *)
Lemma makedirs_if_absent {A} path (k : M A) :
  creates_new_dirs k →
  creates_new_dirs
    (exists_ ← isdir path; when (negb exists_) (emit (MakeDirs path));; k).
Proof.
  intros Hk tr Htr. unfold mbind, M_bind, isdir.
  destruct (existsb (creates path) tr) eqn:Hexists; simpl.
  - by apply Hk.
  - apply Hk. rewrite created_dirs_app. simpl.
    apply NoDup_app. split_and!; [done| |apply NoDup_singleton].
    intros p Hp ->%list_elem_of_singleton.
    apply existsb_creates in Hp. congruence.
Qed.

(** The directory of the conflicts is created only when it does not
    exist. *)
Lemma check_duplicates_creates_new_dirs vs names args i j :
  creates_new_dirs (check_duplicates vs names args i j).
Proof.
  assert (∀ e, created e = None → creates_new_dirs (emit e)) as Hemit.
  { intros e He. apply creates_new_dirs_quiet. by apply emits_only_emit. }
  assert (∀ A (r : result A), creates_new_dirs (lift r)) as Hlift.
  { intros A r. apply creates_new_dirs_quiet, emits_only_lift. }
  unfold check_duplicates.
  apply creates_new_dirs_bind; [apply Hlift|]. intros vs_i.
  apply creates_new_dirs_bind; [apply Hlift|]. intros vs_j.
  case_bool_decide; [|by intros tr].
  apply creates_new_dirs_bind; [apply Hlift|]. intros name_i.
  apply creates_new_dirs_bind; [apply Hlift|]. intros name_j.
  apply creates_new_dirs_bind; [by apply Hemit|]. intros _.
  apply makedirs_if_absent.
  apply creates_new_dirs_bind; [apply Hlift|]. intros duplicates.
  by apply Hemit.
Qed.

(** Appending to a string is injective. *)
Lemma append_inj a x y : a +:+ x = a +:+ y → x = y.
Proof. induction a as [|c a IH]; simpl; [done|]. intros [= ?]. auto. Qed.

Lemma path_join_inj a b b' :
  Py.startswith_slash b = false → Py.startswith_slash b' = false →
  Py.path_join a b = Py.path_join a b' → b = b'.
Proof.
  unfold Py.path_join. intros -> ->.
  destruct (_ || _).
  - apply append_inj.
  - intros Heq%append_inj. by apply (append_inj "/").
Qed.

Lemma NoDup_path_join a (l : list string) :
  Forall (λ b, Py.startswith_slash b = false) l → NoDup l →
  NoDup (Py.path_join a <$> l).
Proof.
  induction 1 as [|b l Hb Hl IH]; [constructor|].
  intros [Hnot Hnodup]%NoDup_cons. rewrite fmap_cons. apply NoDup_cons.
  split; [|by apply IH].
  intros (b' & Heq & Hin)%list_elem_of_fmap.
  apply path_join_inj in Heq as ->; [done..|].
  rewrite Forall_forall in Hl. by apply Hl.
Qed.

(** [load_and_verify_everything], in a directory where the run has
    created nothing yet, creates directories that are all different. *)
Lemma load_creates_distinct_dirs args config tr :
  created_dirs tr = [] →
  NoDup (created_dirs (load_and_verify_everything args config tr).1).
Proof.
  intros Hfresh. unfold load_and_verify_everything.
  unfold assert_inputs_exist.
  destruct (inputs_exist [gt_config args] []);
    [|erewrite bind_raise by reflexivity; simpl; rewrite Hfresh;
      constructor].
  erewrite bind_ok by reflexivity.
  unfold assert_output_dirs_exist_and_empty.
  destruct (output_dirs_exist_and_empty _);
    [|erewrite bind_raise by reflexivity; simpl; rewrite Hfresh;
      constructor].
  erewrite bind_ok by reflexivity.
  rewrite (bind_ok _ _ _ _ _ (emit_run _ _)).
  unfold save_tractogram. rewrite !when_emit_bind.
  rewrite created_dirs_quiet.
  - rewrite !created_dirs_app, Hfresh. simpl.
    destruct (compute_IC args), (save_wpc_separately args); simpl.
    + apply (NoDup_path_join _
               ["segmented_VB"; "segmented_IB"; "segmented_WPC"]);
        [by repeat constructor|].
      refine (bool_decide_unpack _ _). vm_compute. exact I.
    + apply (NoDup_path_join _ ["segmented_VB"; "segmented_IB"]);
        [by repeat constructor|].
      refine (bool_decide_unpack _ _). vm_compute. exact I.
    + apply (NoDup_path_join _ ["segmented_VB"; "segmented_WPC"]);
        [by repeat constructor|].
      refine (bool_decide_unpack _ _). vm_compute. exact I.
    + apply NoDup_singleton.
  - apply emits_only_bind; [by apply read_config_file_emits|].
    intros c. emits_step.
    apply emits_only_bind; [by apply assert_inputs_exist_emits|].
    intros _. apply emits_only_bind; [by apply emits_only_emit|].
    intros _. apply emits_only_bind; [by apply emits_only_emit|].
    intros _. apply emits_only_bind.
    { by apply verify_compatibility_emits. }
    intros _. apply emits_only_bind; [by apply emits_only_emit|].
    intros _.
    destruct (compute_masks (gt_masks_files c)) as [[[? ?] ?] ?].
    destruct (compute_masks (limits_masks_files c)) as [[[? ?] ?] ?].
    apply emits_only_bind; [by apply emits_only_emit|].
    intros _.
    destruct (compute_endpoint_masks _ _ _ _) as [tails heads].
    apply emits_only_bind; [by apply emits_only_emit|].
    intros _. apply emits_only_bind; [by apply verify_compatibility_emits|].
    intros _. emits_step.
Qed.

(** The scoring of the valid bundles creates [segmented_conflicts] at the
    first pair with duplicates only. *)
Lemma compute_vb_vs_all_bundles_creates_new_dirs gt_tails gt_heads
    bundle_names lengths angles orientation_lengths limits_inv_masks args
    ext :
  creates_new_dirs
    (compute_vb_vs_all_bundles gt_tails gt_heads bundle_names lengths angles
       orientation_lengths limits_inv_masks args ext).
Proof.
  unfold compute_vb_vs_all_bundles. apply creates_new_dirs_bind.
  - apply creates_new_dirs_quiet. emits_step.
    by apply extract_bundle_emits.
  - intros r. apply creates_new_dirs_bind; [|by intros _ tr].
    apply creates_new_dirs_for_. intros i.
    apply creates_new_dirs_for_. intros j.
    apply check_duplicates_creates_new_dirs.
Qed.

(** After a computation that left no directory created twice. *)
Lemma distinct_dirs_bind {A B} (m : M A) (k : A → M B) tr :
  NoDup (created_dirs (m tr).1) → (∀ a, creates_new_dirs (k a)) →
  NoDup (created_dirs ((m ≫= k) tr).1).
Proof.
  intros Hm Hk. unfold mbind, M_bind.
  destruct (m tr) as [tr1 [a|e]]; [|done]. by apply Hk.
Qed.

Lemma main_report_creates_no_dir args s :
  emits_only (λ e, created e = None) (main_report args s).
Proof.
  unfold main_report. apply emits_only_bind.
  { by apply ic_phase_emits. }
  intros [[ib ic] comb]. apply emits_only_bind.
  { destruct (compute_IC args).
    - apply emits_only_bind; [by apply emits_only_emit|].
      intros _. emits_step.
    - apply emits_only_bind; [by apply emits_only_emit|].
      intros _. emits_step. }
  intros filename. apply emits_only_bind.
  { emits_step. by apply emits_only_emit. }
  intros _. emits_step. apply emits_only_bind; [by apply emits_only_emit|].
  intros _. apply emits_only_bind; [by apply emits_only_emit|].
  intros _. emits_step.
Qed.

(** X24.  A run never creates a directory twice: the directories that
    [main] has created, in a trace where none was created before, are all
    different, whether the run completes or raises.  So no [os.makedirs] of
    the run meets a directory that the run has made. *)
Theorem a_run_creates_no_directory_twice args config tr :
  created_dirs tr = [] →
  NoDup (created_dirs (main args config tr).1).
Proof.
  intros Hfresh.
  assert (∀ e, created e = None → creates_new_dirs (emit e)) as Hemit.
  { intros e He. apply creates_new_dirs_quiet. by apply emits_only_emit. }
  unfold main. apply distinct_dirs_bind.
  - unfold main_score. apply distinct_dirs_bind.
    { by apply load_creates_distinct_dirs. }
    intros l. apply creates_new_dirs_bind; [by apply Hemit|].
    intros _. apply creates_new_dirs_bind.
    { apply compute_vb_vs_all_bundles_creates_new_dirs. }
    intros [[[vb vs] wpc] stats]. apply creates_new_dirs_quiet.
    apply emits_only_bind; [by apply wpc_phase_emits|].
    intros [[wpc_sft wpc'] stats'].
    apply emits_only_bind; [|intros _; emits_step].
    unfold save_bundle_stats. emits_step. by apply emits_only_emit.
  - intros s. apply creates_new_dirs_quiet, main_report_creates_no_dir.
Qed.

End CreatedDirs.

Section CreatedDirsRun.
Import Scenario Runs.

(** X24, witness: the run of [overlap_world] with [--save_wpc_separately]
    and [--compute_IC], which creates the three directories of the
    segmented bundles and, for the duplicates of [A] and [B],
    [segmented_conflicts]. *)
Lemma overlap_run_creates_four_directories :
  @created_dirs free_float [] = []
  ∧ NoDup (created_dirs
             (@main _ (collaborators overlap_world) no_empty_args
                overlap_config []).1)
  ∧ length (created_dirs
              (@main _ (collaborators overlap_world) no_empty_args
                 overlap_config []).1) = 4.
Proof.
  split; [reflexivity|]. split; [|by vm_compute].
  exact (@a_run_creates_no_directory_twice _ (collaborators overlap_world)
           no_empty_args overlap_config [] eq_refl).
Defined.

End CreatedDirsRun.
